(** * memory-mcp-agent: the ReAct loop, its tools and the chat export

    A shallow embedding of the Python sources
      - [src/agents/main_agent.py] and [src/react_agent.py] (the agent loop,
        [calculator]),
      - [src/tools/search_with_serp_api.py], [src/tools/web_search.py],
        [src/tools/verify_result.py] (search chain and verification),
      - [src/utils/helpers.py] ([format_chat_history_for_email]),
    followed by the properties proved about them.

    Texts.  A Python [str] is modelled as a [string] whose characters are the
    code points of the text, for texts whose code points are below 256.  The
    character classes ([isspace], [isword], [isdecimal]) are Python's Unicode
    predicates on that range.  The few literals of the sources that hold
    characters above it (bullets and emoji of the reports) are carried as their
    UTF-8 bytes; they are only ever concatenated. *)

From Stdlib Require Import ZArith NArith Ascii String DecimalString List Lia Bool.
From stdpp Require Import base list strings gmap.

Arguments String.append : simpl nomatch.
Set Warnings "-register-all".

(** ** Python string primitives *)

Module Py.

Definition code (c : ascii) : N := N_of_ascii c.

Definition in_range (lo hi : N) (c : ascii) : bool :=
  ((lo <=? code c) && (code c <=? hi))%N.

(** [str.isspace] on one character, also the class [\s] of [re]. *)
Definition isspace (c : ascii) : bool :=
  in_range 9 13 c || in_range 28 32 c || (code c =? 133)%N || (code c =? 160)%N.

(** The class [\d] of [re]: decimal digits. *)
Definition isdecimal (c : ascii) : bool := in_range 48 57 c.

(** [str.isalnum] on one character. *)
Definition isalnum (c : ascii) : bool :=
  in_range 48 57 c || in_range 65 90 c || in_range 97 122 c
  || (code c =? 170)%N || in_range 178 179 c || (code c =? 181)%N
  || in_range 185 186 c || in_range 188 190 c
  || in_range 192 214 c || in_range 216 246 c || in_range 248 255 c.

(** The class [\w] of [re]. *)
Definition isword (c : ascii) : bool := isalnum c || (code c =? 95)%N.

(** What [.] matches without DOTALL: anything but a line feed. *)
Definition isdot (c : ascii) : bool := negb (code c =? 10)%N.

(** [s.startswith(p)] *)
Fixpoint startswith (p s : string) : bool :=
  match p, s with
  | EmptyString, _ => true
  | String a p', String b s' => Ascii.eqb a b && startswith p' s'
  | String _ _, EmptyString => false
  end.

(** [sub in s] *)
Fixpoint contains (sub s : string) : bool :=
  startswith sub s
  || match s with
     | EmptyString => false
     | String _ s' => contains sub s'
     end.

(** [s.split(sep)] for a non-empty [sep]: the occurrences of [sep] are taken
    from the left, without overlap.  [skip] counts the characters of an
    occurrence still to be dropped, [cur] is the segment being read. *)
Fixpoint split_go (sep : string) (skip : nat) (cur s : string) : list string :=
  match s with
  | EmptyString => [cur]
  | String c s' =>
      match skip with
      | S k => split_go sep k cur s'
      | O =>
          if startswith sep s
          then cur :: split_go sep (String.length sep - 1) "" s'
          else split_go sep 0 (cur +:+ String c "") s'
      end
  end.

Definition split (sep s : string) : list string := split_go sep 0 "" s.

(** [l[-1]] of a list of texts ([""] stands for the IndexError, which [split]
    never meets: it returns at least one segment). *)
Definition last_item (l : list string) : string := List.last l "".

Fixpoint lstrip (s : string) : string :=
  match s with
  | EmptyString => ""
  | String c s' => if isspace c then lstrip s' else s
  end.

Fixpoint rstrip (s : string) : string :=
  match s with
  | EmptyString => ""
  | String c s' =>
      match rstrip s' with
      | EmptyString => if isspace c then "" else String c ""
      | r => String c r
      end
  end.

(** [s.strip()] *)
Definition strip (s : string) : string := rstrip (lstrip s).

(** [s.replace(old, new)] for a non-empty [old]. *)
Fixpoint replace_go (old new : string) (skip : nat) (s : string) : string :=
  match s with
  | EmptyString => ""
  | String c s' =>
      match skip with
      | S k => replace_go old new k s'
      | O =>
          if startswith old s
          then new +:+ replace_go old new (String.length old - 1) s'
          else String c (replace_go old new 0 s')
      end
  end.

Definition replace (old new s : string) : string := replace_go old new 0 s.

(** [sep.join(l)] *)
Fixpoint join (sep : string) (l : list string) : string :=
  match l with
  | [] => ""
  | [x] => x
  | x :: l' => x +:+ sep +:+ join sep l'
  end.

(** [s * n] *)
Fixpoint repeat_str (s : string) (n : nat) : string :=
  match n with
  | O => ""
  | S n' => s +:+ repeat_str s n'
  end.

(** [s[:n]] *)
Fixpoint take_str (n : nat) (s : string) : string :=
  match n, s with
  | S n', String c s' => String c (take_str n' s')
  | _, _ => ""
  end.

(** [s[n:]] *)
Fixpoint drop_str (n : nat) (s : string) : string :=
  match n, s with
  | S n', String _ s' => drop_str n' s'
  | _, _ => s
  end.

(** [all(p(c) for c in s)] *)
Fixpoint all (p : ascii -> bool) (s : string) : bool :=
  match s with
  | EmptyString => true
  | String c s' => p c && all p s'
  end.

(** [s.find(sub)], with [None] for -1. *)
Fixpoint find (sub s : string) : option nat :=
  if startswith sub s then Some 0
  else
    match s with
    | EmptyString => None
    | String _ s' => S <$> find sub s'
    end.

(** Whether [s] starts with a character of the class [p]. *)
Definition head_in (p : ascii -> bool) (s : string) : bool :=
  match s with
  | String c _ => p c
  | EmptyString => false
  end.

(** [str.lower] on one character. *)
Definition lower_char (c : ascii) : ascii :=
  if in_range 65 90 c || in_range 192 214 c || in_range 216 222 c
  then ascii_of_N (code c + 32)
  else c.

Fixpoint lower (s : string) : string :=
  match s with
  | EmptyString => ""
  | String c s' => String (lower_char c) (lower s')
  end.

(** The formatting of a value by an f-string, for a value that is a text or
    [None]. *)
Definition format (v : option string) : string :=
  match v with
  | Some s => s
  | None => "None"
  end.

End Py.

(** ** The regular expression of the action line

    [re.search(r"Action:\s*(\w+):\s*(.+)", text)]: the pattern is written with
    matcher combinators in continuation-passing style.  A greedy quantifier
    first tries to take one more character and falls back to the continuation
    when the rest of the pattern fails, which is the backtracking order of
    [re]. *)

Module Re.

(** A literal. *)
Definition lit {R} (p s : string) (k : string -> option R) : option R :=
  if Py.startswith p s then k (Py.drop_str (String.length p) s) else None.

(** A greedy repetition, not captured. *)
Fixpoint star {R} (p : ascii -> bool) (s : string) (k : string -> option R)
  : option R :=
  match s with
  | String c s' =>
      if p c
      then match star p s' k with
           | Some r => Some r
           | None => k s
           end
      else k s
  | EmptyString => k s
  end.

(** A captured greedy repetition, with the text taken so far in [acc]. *)
Fixpoint star_group {R} (p : ascii -> bool) (acc s : string)
  (k : string -> string -> option R) : option R :=
  match s with
  | String c s' =>
      if p c
      then match star_group p (acc +:+ String c "") s' k with
           | Some r => Some r
           | None => k acc s
           end
      else k acc s
  | EmptyString => k acc s
  end.

(** A captured greedy repetition of at least one character. *)
Definition plus_group {R} (p : ascii -> bool) (s : string)
  (k : string -> string -> option R) : option R :=
  match s with
  | String c s' => if p c then star_group p (String c "") s' k else None
  | EmptyString => None
  end.

(** The pattern anchored at the start of [s]; the result is (group 1, group 2). *)
Definition action_at (s : string) : option (string * string) :=
  lit "Action:" s (fun s1 =>
  star Py.isspace s1 (fun s2 =>
  plus_group Py.isword s2 (fun g1 s3 =>
  lit ":" s3 (fun s4 =>
  star Py.isspace s4 (fun s5 =>
  plus_group Py.isdot s5 (fun g2 _ =>
  Some (g1, g2))))))).

(** [re.search]: the match at the leftmost position that has one. *)
Fixpoint action_search (s : string) : option (string * string) :=
  match action_at s with
  | Some m => Some m
  | None =>
      match s with
      | EmptyString => None
      | String _ s' => action_search s'
      end
  end.

End Re.

(** ** The agent loop ([ReActAgent.run])

    The two agent files hold the same loop; they differ in the model name, the
    system prompt and in who registers the tools.  The completion provider is
    the function [llm] from the transcript sent to the text of the reply. *)

Inductive Role := system | user | assistant.

Record Turn := { role : Role; content : string }.

(** An entry of [self.tools]: [{'function': func, 'description': description}].
    A tool returns a text or [None]. *)
Record ToolEntry := {
  function : string -> option string;
  description : string
}.

(** [add_tool]: [self.tools[name] = {...}] *)
Definition add_tool (name : string) (func : string -> option string)
  (descr : string) (tools : gmap string ToolEntry) : gmap string ToolEntry :=
  <[name := {| function := func; description := descr |}]> tools.

(** The state of one [run]: the transcript [messages], and two ghost fields
    that record the effects the loop performs, the number of completion
    requests and the tool calls made, the latest first. *)
Record AgentState := {
  messages : list Turn;
  completions : nat;
  invocations : list (string * string)
}.

Definition final_marker : string := "Final Answer:".

Definition exhausted : string := "Max iterations reached without final answer".

(** [assistant_message.split("Final Answer:")[-1].strip()] *)
Definition final_answer (assistant_message : string) : string :=
  Py.strip (Py.last_item (Py.split final_marker assistant_message)).

(** The action of a reply: [action_match.group(1)] and
    [action_match.group(2).strip()], or [None] when the pattern has no match. *)
Definition parse_action (assistant_message : string) : option (string * string) :=
  match Re.action_search assistant_message with
  | Some (g1, g2) => Some (g1, Py.strip g2)
  | None => None
  end.

(** The reading of the specification for the final answer: the text after the
    first occurrence of the marker, stripped. *)
Definition spec_final_answer (assistant_message : string) : string :=
  match Py.find final_marker assistant_message with
  | Some i => Py.strip (Py.drop_str (i + String.length final_marker) assistant_message)
  | None => ""
  end.

Section Agent.

Variable llm : list Turn -> string.
Variable tools : gmap string ToolEntry.

(** One pass of the body of the [for] loop: [Some answer] when the body
    returns, [None] when the loop goes on. *)
Definition cycle (st : AgentState) : option string * AgentState :=
  let assistant_message := llm (messages st) in
  let msgs := messages st ++ [{| role := assistant; content := assistant_message |}] in
  let calls := S (completions st) in
  if Py.contains final_marker assistant_message then
    (Some (final_answer assistant_message),
     {| messages := msgs; completions := calls; invocations := invocations st |})
  else
    match parse_action assistant_message with
    | Some (tool_name, tool_input) =>
        match tools !! tool_name with
        | Some entry =>
            let observation := function entry tool_input in
            let observation_text := "Observation: " +:+ Py.format observation in
            (None,
             {| messages := msgs ++ [{| role := user; content := observation_text |}];
                completions := calls;
                invocations := (tool_name, tool_input) :: invocations st |})
        | None =>
            let error_msg :=
              "Observation: Error - Unknown tool '" +:+ tool_name +:+ "'" in
            (None,
             {| messages := msgs ++ [{| role := user; content := error_msg |}];
                completions := calls;
                invocations := invocations st |})
        end
    | None =>
        (None,
         {| messages := msgs; completions := calls; invocations := invocations st |})
    end.

(** [for i in range(n): ...] followed by the [return] after the loop. *)
Fixpoint run_loop (n : nat) (st : AgentState) : string * AgentState :=
  match n with
  | O => (exhausted, st)
  | S n' =>
      match cycle st with
      | (Some answer, st') => (answer, st')
      | (None, st') => run_loop n' st'
      end
  end.

Definition initial_state (system_prompt question : string) : AgentState :=
  {| messages := [ {| role := system; content := system_prompt |};
                   {| role := user; content := question |} ];
     completions := 0;
     invocations := [] |}.

(** [run], with [self.max_iterations] and the prompt of the agent file as
    arguments. *)
Definition run (max_iterations : nat) (system_prompt question : string)
  : string * AgentState :=
  run_loop max_iterations (initial_state system_prompt question).

End Agent.

(** [self.max_iterations = 10] *)
Definition default_max_iterations : nat := 10.

(** ** The search chain ([_search_with_serpapi], [web_search]) *)

Definition nl : string := String (ascii_of_nat 10) "".

(** The payload of the search provider, as far as the code reads it: a key
    that is absent is [None]. *)
Record AnswerBox := { ab_answer : option string; ab_snippet : option string }.

Record KnowledgeGraph := { kg_description : option string }.

Record OrganicResult := { or_snippet : option string }.

Record SerpData := {
  answer_box : option AnswerBox;
  knowledge_graph : option KnowledgeGraph;
  organic_results : option (list OrganicResult)
}.

(** What one request comes to: an exception of [requests.get] or of
    [response.json()], or the decoded payload. *)
Inductive Response :=
| TransportError
| Payload (data : SerpData).

Definition query_variations (query : string) : list string :=
  [ query;
    query +:+ " definition";
    "what is " +:+ query;
    query +:+ " explained";
    Py.replace "power" "specifications" (Py.replace "power of" "thrust" query) ].

(** The bullet of [f"• {result['snippet']}"].  U+2022 lies above the code
    points of the texts of this development, which are below 256; it is
    carried as one character, the code 149 that cp1252 gives to the bullet,
    so that the length and the slices of a result are those of the code. *)
Definition bullet : string := String (ascii_of_nat 149) "".

(** The snippets kept from [data['organic_results'][:2]]. *)
Fixpoint kept_snippets (rs : list OrganicResult) : list string :=
  match rs with
  | [] => []
  | r :: rs' =>
      match or_snippet r with
      | Some snippet =>
          if 20 <? String.length (Py.strip snippet)
          then (bullet +:+ " " +:+ snippet) :: kept_snippets rs'
          else kept_snippets rs'
      | None => kept_snippets rs'
      end
  end.

(** The three tests made on a payload, in the order of the code: the text
    returned, or [None] when the attempt falls through to the next variant. *)
Definition inspect (data : SerpData) : option string :=
  let from_organic :=
    match organic_results data with
    | Some rs =>
        if 0 <? length rs then
          match kept_snippets (take 2 rs) with
          | [] => None
          | results => Some ("Search results:" +:+ nl +:+ Py.join nl results)
          end
        else None
    | None => None
    end in
  let from_graph :=
    match knowledge_graph data with
    | Some kg =>
        match kg_description kg with
        | Some d => Some ("Info: " +:+ d)
        | None => from_organic
        end
    | None => from_organic
    end in
  match answer_box data with
  | Some ab =>
      match ab_answer ab with
      | Some a => Some ("Direct answer: " +:+ a)
      | None =>
          match ab_snippet ab with
          | Some s => Some ("Answer: " +:+ s)
          | None => from_graph
          end
      end
  | None => from_graph
  end.

Section Provider.

(** The search provider: the reply to a request for a query. *)
Variable provider : string -> Response.

(** The [for] loop over the variants; [issued] lists the requests made so
    far.  The result is the value returned and the requests made. *)
Fixpoint attempts (variants issued : list string) : option string * list string :=
  match variants with
  | [] => (None, issued)
  | search_query :: rest =>
      let issued' := issued ++ [search_query] in
      match provider search_query with
      | TransportError => attempts rest issued'
      | Payload data =>
          match inspect data with
          | Some text => (Some text, issued')
          | None => attempts rest issued'
          end
      end
  end.

(** What the body of the loop finds for one variant: the text it returns, or
    [None] when the loop moves on (an exception, or no good result). *)
Definition attempt_yield (search_query : string) : option string :=
  match provider search_query with
  | TransportError => None
  | Payload data => inspect data
  end.

(** [_search_with_serpapi(query, api_key, max_retries)]; the key only goes
    into the request. *)
Definition _search_with_serpapi (query api_key : string) (max_retries : nat)
  : option string * list string :=
  attempts (take max_retries (query_variations query)) [].

(** [max_retries: int = 3] *)
Definition default_max_retries : nat := 3.

(** An environment variable is truthy when it is set to a non-empty text. *)
Definition truthy (v : option string) : bool :=
  match v with
  | Some (String _ _) => true
  | _ => false
  end.

(** [tools/web_search.py]: [serpapi_key] is [os.getenv('SERPAPI_KEY')]. *)
Definition web_search_log (serpapi_key : option string) (query : string)
  : option string * list string :=
  if truthy serpapi_key
  then _search_with_serpapi query (default "" serpapi_key) default_max_retries
  else (Some "No SerpAPI key found", []).

Definition web_search (serpapi_key : option string) (query : string)
  : option string :=
  fst (web_search_log serpapi_key query).

End Provider.

(** ** Verification ([tools/verify_result.py]) *)

(** [str(n)] for a natural number. *)
Definition str_of_nat (n : nat) : string :=
  DecimalString.NilEmpty.string_of_uint (Nat.to_uint n).

(** [re.findall(r'[\d,]+\.?\d*', s)].  No part of the pattern after the first
    class can fail, so the matches are read in one pass: [tok] is the match
    being read and whether its point has been passed. *)
Definition isnumhead (c : ascii) : bool := Py.isdecimal c || (Py.code c =? 44)%N.

Fixpoint findall_numbers_go (tok : option (string * bool)) (s : string)
  : list string :=
  match s with
  | EmptyString =>
      match tok with
      | Some (t, _) => [t]
      | None => []
      end
  | String c s' =>
      match tok with
      | None =>
          if isnumhead c then findall_numbers_go (Some (String c "", false)) s'
          else findall_numbers_go None s'
      | Some (t, false) =>
          if isnumhead c
          then findall_numbers_go (Some (t +:+ String c "", false)) s'
          else if (Py.code c =? 46)%N
          then findall_numbers_go (Some (t +:+ String c "", true)) s'
          else t :: findall_numbers_go None s'
      | Some (t, true) =>
          if Py.isdecimal c
          then findall_numbers_go (Some (t +:+ String c "", true)) s'
          else if isnumhead c
          then t :: findall_numbers_go (Some (String c "", false)) s'
          else t :: findall_numbers_go None s'
      end
  end.

Definition findall_numbers (s : string) : list string :=
  findall_numbers_go None s.

(** The alternatives of the pattern of [_extract_key_terms], in its order. *)
Definition removed_words : list string :=
  [ "verify"; "check"; "validate"; "result"; "seems"; "appears"; "power";
    "of"; "the"; "in"; "terms"; "based"; "on"; "its"; "output" ].

Definition word_at (o : option ascii) : bool :=
  match o with
  | Some c => Py.isword c
  | None => false
  end.

Definition head_char (s : string) : option ascii :=
  match s with
  | String c _ => Some c
  | EmptyString => None
  end.

(** The word boundary of [re] between the character [prev] and the text [s]. *)
Definition boundary (prev : option ascii) (s : string) : bool :=
  xorb (word_at prev) (word_at (head_char s)).

Definition last_char (prev : option ascii) (w : string) : option ascii :=
  List.last (map Some (String.list_ascii_of_string w)) prev.

(** The length of the match of the pattern at the start of [s], if any. *)
Definition removed_word_at (prev : option ascii) (s : string) : option nat :=
  if boundary prev s then
    String.length <$>
      List.find (fun w => Py.startswith w s
                          && boundary (last_char prev w) (Py.drop_str (String.length w) s))
                removed_words
  else None.

(** [re.sub(pattern, '', s)] for that pattern. *)
Fixpoint remove_words_go (prev : option ascii) (skip : nat) (s : string) : string :=
  match s with
  | EmptyString => ""
  | String c s' =>
      match skip with
      | S k => remove_words_go (Some c) k s'
      | O =>
          match removed_word_at prev s with
          | Some n => remove_words_go (Some c) (n - 1) s'
          | None => String c (remove_words_go (Some c) 0 s')
          end
      end
  end.

Definition remove_words (s : string) : string := remove_words_go None 0 s.

(** [s.split()] *)
Fixpoint split_ws_go (cur s : string) : list string :=
  match s with
  | EmptyString =>
      match cur with
      | EmptyString => []
      | _ => [cur]
      end
  | String c s' =>
      if Py.isspace c then
        match cur with
        | EmptyString => split_ws_go "" s'
        | _ => cur :: split_ws_go "" s'
        end
      else split_ws_go (cur +:+ String c "") s'
  end.

Definition split_ws (s : string) : list string := split_ws_go "" s.

(** [word.strip('.,()[]')] *)
Definition ispunct (c : ascii) : bool :=
  existsb (fun d => Ascii.eqb c d) (String.list_ascii_of_string ".,()[]").

Fixpoint lstrip_punct (s : string) : string :=
  match s with
  | EmptyString => ""
  | String c s' => if ispunct c then lstrip_punct s' else s
  end.

Fixpoint rstrip_punct (s : string) : string :=
  match s with
  | EmptyString => ""
  | String c s' =>
      match rstrip_punct s' with
      | EmptyString => if ispunct c then "" else String c ""
      | r => String c r
      end
  end.

Definition strip_punct (s : string) : string := rstrip_punct (lstrip_punct s).

Definition _extract_key_terms (description : string) : string :=
  let cleaned := remove_words (Py.lower description) in
  let words := split_ws cleaned in
  let key_words :=
    map strip_punct
        (List.filter (fun word => 2 <? String.length (strip_punct word)) words) in
  Py.join " " (take 5 key_words).

(** [any(term in description.lower() for term in terms)] *)
Definition mentions (terms : list string) (description : string) : bool :=
  existsb (fun term => Py.contains term (Py.lower description)) terms.

Definition _generate_verification_queries (description : string) : list string :=
  let key_terms := _extract_key_terms description in
  let q1 := "verify check validate " +:+ description in
  let q2 :=
    if mentions ["engine"; "power"; "horsepower"; "thrust"; "conversion"] description
    then key_terms +:+ " technical specifications datasheet"
    else key_terms +:+ " technical specifications" in
  let q3 := key_terms +:+ " multiple sources comparison" in
  let q4 :=
    if mentions ["ge90"; "boeing"; "aircraft"; "engine"] description
    then key_terms +:+ " official manufacturer specifications"
    else if mentions ["calculation"; "formula"; "conversion"] description
    then key_terms +:+ " standard formula method"
    else key_terms +:+ " authoritative source" in
  take 4 [q1; q2; q3; q4].

(** An entry of [search_results]. *)
Record SearchResult := {
  sr_query : string;
  sr_result : option string;
  sr_source_num : nat
}.

(** A call that returns a value or raises an exception with a message. *)
Inductive outcome (A : Type) :=
| Returned (a : A)
| Raised (message : string).
Arguments Returned {A} a.
Arguments Raised {A} message.

(** The message of the TypeError of [x in None]. *)
Definition none_not_iterable : string :=
  "argument of type 'NoneType' is not iterable".

Section Verify.

(** The order in which [set(l)] is iterated; Python fixes none. *)
Variable set_items : list string -> list string.

(** The first loop of [_analyze_verification_results]: the lines of the
    sources and the list [valid_results].  The test [in] on a result that is
    [None] raises. *)
Fixpoint source_lines (search_results : list SearchResult)
  (report valid_results : list string) : outcome (list string * list string) :=
  match search_results with
  | [] => Returned (report, valid_results)
  | result :: rest =>
      let report1 :=
        report ++ [ "📊 Source " +:+ str_of_nat (sr_source_num result) +:+ ": "
                      +:+ sr_query result;
                    Py.repeat_str "-" 30 ] in
      match sr_result result with
      | None => Raised none_not_iterable
      | Some text =>
          if negb (Py.contains "Search failed" text) then
            let numbers := findall_numbers text in
            let report2 :=
              match numbers with
              | [] => report1
              | _ => report1 ++ ["Key numbers found: " +:+ Py.join ", " (take 3 numbers)]
              end in
            let excerpt :=
              if 200 <? String.length text then Py.take_str 200 text +:+ "..."
              else text in
            source_lines rest (report2 ++ ["Excerpt: " +:+ excerpt; ""])
                         (valid_results ++ [text])
          else
            source_lines rest (report1 ++ ["❌ " +:+ text; ""]) valid_results
      end
  end.

(** The lines added under the analysis heading. *)
Definition consensus_lines (valid_results : list string) : list string :=
  if 2 <=? length valid_results then
    let all_numbers := concat (map findall_numbers valid_results) in
    match all_numbers with
    | [] => []
    | _ =>
        ("Numbers found across sources: " +:+ Py.join ", " (set_items all_numbers))
        :: (if length (remove_dups all_numbers) <=? 3
            then ["✅ Results show some consistency across sources"]
            else ["⚠️  Results show significant variation - this is normal for complex specifications"])
    end
    ++ ["✅ Successfully verified with " +:+ str_of_nat (length valid_results) +:+ " sources"]
  else if length valid_results =? 1 then
    ["⚠️  Only one source provided results - consider additional verification"]
  else
    ["❌ No sources provided valid results - manual verification strongly recommended"].

(** The list [report] of [_analyze_verification_results] before it is joined. *)
Definition report_lines (search_results : list SearchResult)
  (original_description : string) : outcome (list string) :=
  let report0 :=
    [ "🔍 MULTI-SOURCE VERIFICATION REPORT";
      Py.repeat_str "=" 50;
      "Original Query: " +:+ original_description;
      "" ] in
  match source_lines search_results report0 [] with
  | Raised m => Raised m
  | Returned (report1, valid_results) =>
      Returned
        (report1
         ++ ["🎯 VERIFICATION ANALYSIS:"; Py.repeat_str "-" 30]
         ++ consensus_lines valid_results
         ++ [ "";
              "💡 RECOMMENDATION:";
              "Compare your result with the findings above. If there's significant discrepancy,";
              "note the range of values found rather than seeking additional sources.";
              "For most questions, this level of verification is sufficient to proceed with confidence." ])
  end.

Definition _analyze_verification_results (search_results : list SearchResult)
  (original_description : string) : outcome string :=
  match report_lines search_results original_description with
  | Raised m => Raised m
  | Returned report => Returned (Py.join nl report)
  end.

Variable provider : string -> Response.
Variable serpapi_key : option string.

(** [enumerate(queries, 1)] through [web_search], which raises nothing. *)
Fixpoint run_searches (i : nat) (queries : list string) : list SearchResult :=
  match queries with
  | [] => []
  | query :: rest =>
      {| sr_query := query;
         sr_result := web_search provider serpapi_key query;
         sr_source_num := i |} :: run_searches (S i) rest
  end.

Definition verify_result (description : string) : string :=
  let queries := _generate_verification_queries description in
  let search_results := run_searches 1 queries in
  match _analyze_verification_results search_results description with
  | Returned verification_report => verification_report
  | Raised e =>
      "Multi-source verification failed: " +:+ e
      +:+ ". Consider manually double-checking your result using alternative methods or sources."
  end.

End Verify.

(** ** The chat export ([format_chat_history_for_email])

    A message is a dictionary; a field is [None] when its key is absent, and
    a field that is present holds a value of the type [save_message] and the
    database give it (a text, or a date or a text for the timestamp).  The
    date and time library and [str.upper] are taken as they are: a type of
    dates with its renderings, the parser of ISO texts, and the upper-casing of
    a text. *)

Section ChatExport.

Variable Datetime : Type.
Variable isoformat : Datetime -> string.
(** [strftime("%Y-%m-%d")] and [strftime("%H:%M:%S")] *)
Variable strftime_date : Datetime -> string.
Variable strftime_time : Datetime -> string.
(** [datetime.fromisoformat], [None] for its ValueError *)
Variable fromisoformat : string -> option Datetime.
Variable upper : string -> string.

Inductive Timestamp :=
| TDatetime (d : Datetime)
| TText (s : string).

Record Message := {
  m_id : option string;
  m_role : option string;
  m_content : option string;
  m_timestamp : option Timestamp;
  m_timestamp_str : option string
}.

(** The first loop: a message whose timestamp is a date gets [timestamp_str]. *)
Definition stamp (message : Message) : Message :=
  match m_timestamp message with
  | Some (TDatetime d) =>
      {| m_id := m_id message; m_role := m_role message;
         m_content := m_content message; m_timestamp := m_timestamp message;
         m_timestamp_str := Some (isoformat d) |}
  | _ => message
  end.

(** [x.get("timestamp_str", x.get("timestamp", ""))]; after [stamp] a
    timestamp that is a date is never the key. *)
Definition sort_key (x : Message) : string :=
  match m_timestamp_str x with
  | Some s => s
  | None =>
      match m_timestamp x with
      | Some (TText s) => s
      | Some (TDatetime d) => isoformat d
      | None => ""
      end
  end.

(** [sorted(l, key=sort_key)]: the stable sort, by insertion. *)
Fixpoint insert_sorted (x : Message) (l : list Message) : list Message :=
  match l with
  | [] => [x]
  | y :: l' =>
      if String.leb (sort_key x) (sort_key y) then x :: l
      else y :: insert_sorted x l'
  end.

Fixpoint sorted (l : list Message) : list Message :=
  match l with
  | [] => []
  | x :: l' => insert_sorted x (sorted l')
  end.

(** [(message.get("role", ""), message.get("content", ""))] *)
Definition message_key (message : Message) : string * string :=
  (default "" (m_role message), default "" (m_content message)).

(** The loop that fills [unique_messages], with its set [seen_messages]. *)
Fixpoint dedup (sorted_history : list Message) (seen_messages : gset (string * string))
  (unique_messages : list Message) : list Message :=
  match sorted_history with
  | [] => unique_messages
  | message :: rest =>
      let key := message_key message in
      if decide (key ∈ seen_messages)
      then dedup rest seen_messages unique_messages
      else dedup rest ({[ key ]} ∪ seen_messages) (unique_messages ++ [message])
  end.

Definition unique_messages (chat_history : list Message) : list Message :=
  dedup (sorted (map stamp chat_history)) ∅ [].

(** What is appended to [formatted_history]. *)
Inductive Piece :=
| Heading
| DateHeader (date : string)
| MessageLine (message : Message) (timestamp_str : string).

Definition render (p : Piece) : string :=
  match p with
  | Heading => "=== CHAT HISTORY ===" +:+ nl
  | DateHeader d => nl +:+ "[Date: " +:+ d +:+ "]" +:+ nl
  | MessageLine message timestamp_str =>
      "[" +:+ timestamp_str +:+ "] "
      +:+ upper (default "unknown" (m_role message)) +:+ ": "
      +:+ default "" (m_content message) +:+ nl
  end.

(** The date header, when the date of the message is a new one. *)
Definition date_header (current_date : option string) (message_date : string)
  : list Piece :=
  if decide (Some message_date = current_date) then [] else [DateHeader message_date].

(** The formatting loop over [unique_messages]. *)
Fixpoint format_messages (current_date : option string) (l : list Message)
  : list Piece :=
  match l with
  | [] => []
  | message :: rest =>
      let dated d :=
        date_header current_date (strftime_date d)
        ++ MessageLine message (strftime_time d)
        :: format_messages (Some (strftime_date d)) rest in
      match m_timestamp message with
      | Some (TDatetime d) => dated d
      | Some (TText s) =>
          match fromisoformat (Py.replace "Z" "+00:00" s) with
          | Some dt => dated dt
          | None => MessageLine message s :: format_messages current_date rest
          end
      | None => MessageLine message "None" :: format_messages current_date rest
      end
  end.

Definition export_pieces (chat_history : list Message) : list Piece :=
  Heading :: format_messages None (unique_messages chat_history).

Definition format_chat_history_for_email (chat_history : list Message) : string :=
  Py.join "" (map render (export_pieces chat_history)).

(** The entries of the export that render a message with the key [k]. *)
Definition is_entry_of (k : string * string) (p : Piece) : bool :=
  match p with
  | MessageLine message _ => bool_decide (message_key message = k)
  | _ => false
  end.

End ChatExport.

(** ** The calculator tool

    [calculator] hands its text to [eval] with the globals [allowed_names] and
    catches [Exception].  [eval] is the interpreter's; it is modelled on a
    fragment of Python's expressions: decimal integers, names, the empty
    tuple, parentheses, [+], [-], [*], [**], calls of the five functions on
    integers, and the attributes [__class__] and [__base__].  On an input
    outside the fragment the model answers [None] and nothing is said of
    it. *)

Module Calc.

Inductive token :=
| TNum (n : Z)
| TName (x : string)
| TKeyword (x : string)
| TPlus | TMinus | TStar | TPow | TLParen | TRParen | TComma | TDot.

Definition keywords : list string :=
  [ "False"; "None"; "True"; "and"; "as"; "assert"; "async"; "await"; "break";
    "class"; "continue"; "def"; "del"; "elif"; "else"; "except"; "finally";
    "for"; "from"; "global"; "if"; "import"; "in"; "is"; "lambda"; "nonlocal";
    "not"; "or"; "pass"; "raise"; "return"; "try"; "while"; "with"; "yield" ].

(** The keywords that open a statement and can open no expression. *)
Definition statement_keywords : list string :=
  [ "assert"; "break"; "class"; "continue"; "def"; "del"; "from"; "global";
    "import"; "nonlocal"; "pass"; "raise"; "return"; "try"; "while"; "with" ].


Definition is_digit (c : ascii) : bool := Py.in_range 48 57 c.

Definition is_name_start (c : ascii) : bool :=
  Py.in_range 65 90 c || Py.in_range 97 122 c || (Py.code c =? 95)%N.

Definition is_name_char (c : ascii) : bool := is_name_start c || is_digit c.

(** The token being read. *)
Inductive partial :=
| PNum (digits : string)
| PName (x : string)
| PStar.

Definition digit_value (c : ascii) : Z := Z.of_N (Py.code c) - 48.

Definition number_of (digits : string) : Z :=
  fold_left (fun acc c => 10 * acc + digit_value c)%Z
            (String.list_ascii_of_string digits) 0%Z.

(** The longest literal on which every version of the interpreter agrees. *)
Definition max_digits : nat := 4300.

Definition close_partial (p : partial) : option token :=
  match p with
  | PNum digits =>
      if Py.startswith "0" digits && (1 <? String.length digits)
         || (max_digits <? String.length digits)
      then None
      else Some (TNum (number_of digits))
  | PName x =>
      Some (if bool_decide (x ∈ keywords) then TKeyword x else TName x)
  | PStar => Some TStar
  end.

(** A character met with no token open: the tokens it makes and the token it
    opens. *)
Definition open_with (c : ascii) : option (list token * option partial) :=
  if (Py.code c =? 32)%N || (Py.code c =? 9)%N then Some ([], None)
  else if is_digit c then Some ([], Some (PNum (String c "")))
  else if is_name_start c then Some ([], Some (PName (String c "")))
  else
    match c with
    | "*"%char => Some ([], Some PStar)
    | "+"%char => Some ([TPlus], None)
    | "-"%char => Some ([TMinus], None)
    | "("%char => Some ([TLParen], None)
    | ")"%char => Some ([TRParen], None)
    | ","%char => Some ([TComma], None)
    | "."%char => Some ([TDot], None)
    | _ => None
    end.

Definition close_then_open (p : partial) (c : ascii)
  : option (list token * option partial) :=
  match close_partial p, open_with c with
  | Some t, Some (ts, p') => Some (t :: ts, p')
  | _, _ => None
  end.

Definition lex_step (cur : option partial) (c : ascii)
  : option (list token * option partial) :=
  match cur with
  | None => open_with c
  | Some (PNum digits) =>
      if is_digit c then Some ([], Some (PNum (digits +:+ String c "")))
      else if is_name_start c || (Py.code c =? 46)%N then None
      else close_then_open (PNum digits) c
  | Some (PName x) =>
      if is_name_char c then Some ([], Some (PName (x +:+ String c "")))
      else close_then_open (PName x) c
  | Some PStar =>
      if (Py.code c =? 42)%N then Some ([TPow], None)
      else close_then_open PStar c
  end.

Fixpoint lex (cur : option partial) (s : string) : option (list token) :=
  match s with
  | EmptyString =>
      match cur with
      | None => Some []
      | Some p => (fun t => [t]) <$> close_partial p
      end
  | String c s' =>
      match lex_step cur c with
      | Some (ts, cur') => app ts <$> lex cur' s'
      | None => None
      end
  end.

Inductive binop := Add | Sub | Mul | Pow.

Inductive expr :=
| ENum (n : Z)
| EName (x : string)
| ETuple0
| EBin (op : binop) (l r : expr)
| ENeg (e : expr)
| EPos (e : expr)
| ECall (f : expr) (args : list expr)
| EAttr (e : expr) (a : string).

(** The parser, by recursive descent in the order of the grammar of Python:
    sums, products, signs, powers, then an atom with its calls and
    attributes.  [None] is a text outside the fragment, or too little fuel. *)
Fixpoint parse_sum (fuel : nat) (ts : list token) : option (expr * list token) :=
  match fuel with
  | O => None
  | S f =>
      match parse_product f ts with
      | Some (l, r) => sum_rest f l r
      | None => None
      end
  end
with sum_rest (fuel : nat) (l : expr) (ts : list token) : option (expr * list token) :=
  match fuel with
  | O => None
  | S f =>
      match ts with
      | TPlus :: r =>
          match parse_product f r with
          | Some (e, r') => sum_rest f (EBin Add l e) r'
          | None => None
          end
      | TMinus :: r =>
          match parse_product f r with
          | Some (e, r') => sum_rest f (EBin Sub l e) r'
          | None => None
          end
      | _ => Some (l, ts)
      end
  end
with parse_product (fuel : nat) (ts : list token) : option (expr * list token) :=
  match fuel with
  | O => None
  | S f =>
      match parse_sign f ts with
      | Some (l, r) => product_rest f l r
      | None => None
      end
  end
with product_rest (fuel : nat) (l : expr) (ts : list token) : option (expr * list token) :=
  match fuel with
  | O => None
  | S f =>
      match ts with
      | TStar :: r =>
          match parse_sign f r with
          | Some (e, r') => product_rest f (EBin Mul l e) r'
          | None => None
          end
      | _ => Some (l, ts)
      end
  end
with parse_sign (fuel : nat) (ts : list token) : option (expr * list token) :=
  match fuel with
  | O => None
  | S f =>
      match ts with
      | TMinus :: r =>
          match parse_sign f r with
          | Some (e, r') => Some (ENeg e, r')
          | None => None
          end
      | TPlus :: r =>
          match parse_sign f r with
          | Some (e, r') => Some (EPos e, r')
          | None => None
          end
      | _ =>
          match parse_atom f ts with
          | Some (b, TPow :: r) =>
              match parse_sign f r with
              | Some (e, r') => Some (EBin Pow b e, r')
              | None => None
              end
          | other => other
          end
      end
  end
with parse_atom (fuel : nat) (ts : list token) : option (expr * list token) :=
  match fuel with
  | O => None
  | S f =>
      match ts with
      | TNum n :: r => trailers f (ENum n) r
      | TName x :: r => trailers f (EName x) r
      | TLParen :: TRParen :: r => trailers f ETuple0 r
      | TLParen :: r =>
          match parse_sum f r with
          | Some (e, TRParen :: r') => trailers f e r'
          | _ => None
          end
      | _ => None
      end
  end
with trailers (fuel : nat) (e : expr) (ts : list token) : option (expr * list token) :=
  match fuel with
  | O => None
  | S f =>
      match ts with
      | TDot :: TName a :: r => trailers f (EAttr e a) r
      | TLParen :: TRParen :: r => trailers f (ECall e []) r
      | TLParen :: r =>
          match arguments f r with
          | Some (args, r') => trailers f (ECall e args) r'
          | None => None
          end
      | TDot :: _ => None
      | _ => Some (e, ts)
      end
  end
with arguments (fuel : nat) (ts : list token) : option (list expr * list token) :=
  match fuel with
  | O => None
  | S f =>
      match parse_sum f ts with
      | Some (e, TRParen :: r) => Some ([e], r)
      | Some (e, TComma :: TRParen :: r) => Some ([e], r)
      | Some (e, TComma :: r) =>
          match arguments f r with
          | Some (es, r') => Some (e :: es, r')
          | None => None
          end
      | _ => None
      end
  end.

Definition has_keyword (ts : list token) : bool :=
  existsb (fun t => match t with TKeyword _ => true | _ => false end) ts.

Definition all_names (ts : list token) : bool :=
  forallb (fun t => match t with TName _ => true | _ => false end) ts.

(** [compile(text, '<string>', 'eval')]: the expression, or the message of the
    SyntaxError of a text made of a statement keyword and names. *)
Definition parse (text : string) : option (outcome expr) :=
  match lex None text with
  | Some (TKeyword k :: rest) =>
      if bool_decide (k ∈ statement_keywords) && all_names rest
      then Some (Raised "invalid syntax (<string>, line 1)")
      else None
  | Some ts =>
      if has_keyword ts then None
      else
        match parse_sum (10 * length ts + 10) ts with
        | Some (e, []) => Some (Returned e)
        | _ => None
        end
  | None => None
  end.

Inductive value :=
| VInt (n : Z)
| VBuiltin (name : string)
| VEmptyDict
| VEmptyTuple
| VClass (name : string).

(** [str(v)]; [None] past the length on which the versions agree. *)
Definition str (v : value) : option string :=
  match v with
  | VInt n =>
      let digits := DecimalString.NilZero.string_of_int (Z.to_int n) in
      if max_digits <? String.length digits then None else Some digits
  | VBuiltin name => Some ("<built-in function " +:+ name +:+ ">")
  | VEmptyDict => Some "{}"
  | VEmptyTuple => Some "()"
  | VClass name => Some ("<class '" +:+ name +:+ "'>")
  end.

Definition class_of (v : value) : string :=
  match v with
  | VInt _ => "int"
  | VBuiltin _ => "builtin_function_or_method"
  | VEmptyDict => "dict"
  | VEmptyTuple => "tuple"
  | VClass _ => "type"
  end.

(** [getattr(v, a)] for the two attributes of the fragment. *)
Definition attribute (v : value) (a : string) : option value :=
  if bool_decide (a = "__class__") then Some (VClass (class_of v))
  else if bool_decide (a = "__base__") then
    match v with
    | VClass name =>
        if bool_decide (name ∈ ["int"; "dict"; "tuple"; "type";
                                "builtin_function_or_method"])
        then Some (VClass "object")
        else None
    | _ => None
    end
  else None.

Definition ints (vs : list value) : option (list Z) :=
  mapM (fun v => match v with VInt n => Some n | _ => None end) vs.

(** A call of one of the five functions on integers. *)
Definition call_builtin (name : string) (vs : list value) : option value :=
  match ints vs with
  | Some ns =>
      if bool_decide (name = "abs") then
        match ns with [n] => Some (VInt (Z.abs n)) | _ => None end
      else if bool_decide (name = "round") then
        match ns with [n] => Some (VInt n) | _ => None end
      else if bool_decide (name = "min") then
        match ns with
        | n :: m :: r => Some (VInt (fold_left Z.min (m :: r) n))
        | _ => None
        end
      else if bool_decide (name = "max") then
        match ns with
        | n :: m :: r => Some (VInt (fold_left Z.max (m :: r) n))
        | _ => None
        end
      else if bool_decide (name = "pow") then
        match ns with
        | [b; e] => if (0 <=? e)%Z then Some (VInt (b ^ e)) else None
        | _ => None
        end
      else None
  | None => None
  end.

Definition binary (op : binop) (a b : value) : option value :=
  match a, b with
  | VInt x, VInt y =>
      match op with
      | Add => Some (VInt (x + y))
      | Sub => Some (VInt (x - y))
      | Mul => Some (VInt (x * y))
      | Pow => if (0 <=? y)%Z then Some (VInt (x ^ y)) else None
      end
  | _, _ => None
  end.

(** The lookup of a name by [eval]: the globals, then the dictionary under
    their key [__builtins__].  [__debug__] is no name that is looked up: the
    compiler puts a constant in its place, [True] or [False] by the way the
    interpreter was started, and it is left outside the fragment. *)
Definition lookup_name (globals : gmap string value) (x : string)
  : option (outcome value) :=
  if bool_decide (x = "__debug__") then None
  else
    match globals !! x with
    | Some v => Some (Returned v)
    | None =>
        match globals !! "__builtins__" with
        | Some VEmptyDict => Some (Raised ("name '" +:+ x +:+ "' is not defined"))
        | _ => None
        end
    end.

Section Eval.

Variable globals : gmap string value.

Fixpoint eval_expr (e : expr) : option (outcome value) :=
  match e with
  | ENum n => Some (Returned (VInt n))
  | EName x => lookup_name globals x
  | ETuple0 => Some (Returned VEmptyTuple)
  | EBin op l r =>
      match eval_expr l with
      | Some (Returned a) =>
          match eval_expr r with
          | Some (Returned b) => Returned <$> binary op a b
          | other => other
          end
      | other => other
      end
  | ENeg e1 =>
      match eval_expr e1 with
      | Some (Returned (VInt n)) => Some (Returned (VInt (- n)))
      | Some (Returned _) => None
      | other => other
      end
  | EPos e1 =>
      match eval_expr e1 with
      | Some (Returned (VInt n)) => Some (Returned (VInt n))
      | Some (Returned _) => None
      | other => other
      end
  | ECall f args =>
      match eval_expr f with
      | Some (Returned fv) =>
          let fix eval_args (l : list expr) : option (outcome (list value)) :=
            match l with
            | [] => Some (Returned [])
            | a :: l' =>
                match eval_expr a with
                | Some (Returned v) =>
                    match eval_args l' with
                    | Some (Returned vs) => Some (Returned (v :: vs))
                    | other => other
                    end
                | Some (Raised m) => Some (Raised m)
                | None => None
                end
            end in
          match eval_args args with
          | Some (Returned vs) =>
              match fv with
              | VBuiltin name => Returned <$> call_builtin name vs
              | _ => None
              end
          | Some (Raised m) => Some (Raised m)
          | None => None
          end
      | other => other
      end
  | EAttr e1 a =>
      match eval_expr e1 with
      | Some (Returned v) => Returned <$> attribute v a
      | other => other
      end
  end.

End Eval.

(** [eval(expression, globals)] *)
Definition eval (expression : string) (globals : gmap string value)
  : option (outcome value) :=
  match parse expression with
  | Some (Returned e) => eval_expr globals e
  | Some (Raised m) => Some (Raised m)
  | None => None
  end.

End Calc.

(** The dictionary [allowed_names] of [calculator]. *)
Definition allowed_names : gmap string Calc.value :=
  list_to_map
    [ ("__builtins__", Calc.VEmptyDict);
      ("abs", Calc.VBuiltin "abs");
      ("round", Calc.VBuiltin "round");
      ("min", Calc.VBuiltin "min");
      ("max", Calc.VBuiltin "max");
      ("pow", Calc.VBuiltin "pow") ].

(** [calculator]: [str(result)], or the message of the exception caught. *)
Definition calculator (expression : string) : option string :=
  match Calc.eval expression allowed_names with
  | Some (Returned result) => Calc.str result
  | Some (Raised e) => Some ("Error: " +:+ e)
  | None => None
  end.

(** ** Notions of the statements, and sample collaborators *)

Arguments m_role {Datetime} _.
Arguments m_content {Datetime} _.
Arguments m_timestamp {Datetime} _.
Arguments message_key {Datetime} _.
Arguments MessageLine {Datetime} _ _.
Arguments is_entry_of {Datetime} _ _.

(** The fields of a payload, by the names of the specification. *)
Definition direct_answer (data : SerpData) : option string :=
  ab ← answer_box data; ab_answer ab.

Definition box_snippet (data : SerpData) : option string :=
  ab ← answer_box data; ab_snippet ab.

Definition graph_description (data : SerpData) : option string :=
  kg ← knowledge_graph data; kg_description kg.

(** The snippets of the first two organic results whose text, stripped, has
    21 characters or more. *)
Definition qualifying_snippets (data : SerpData) : list string :=
  List.filter (fun s => 21 <=? String.length (Py.strip s))
              (omap or_snippet (take 2 (default [] (organic_results data)))).

(** A provider whose every request fails. *)
Definition failing_provider (q : string) : Response := TransportError.

(** A provider whose connection fails for the query, finds nothing for the
    second variant and has a direct answer for the third. *)
Definition third_time_provider (q : string) : Response :=
  if bool_decide (q = "what is GE90") then
    Payload {| answer_box := Some {| ab_answer := Some "a turbofan"; ab_snippet := None |};
               knowledge_graph := None; organic_results := None |}
  else if bool_decide (q = "GE90") then TransportError
  else Payload {| answer_box := None; knowledge_graph := None; organic_results := Some [] |}.

(** A provider whose only organic result has a snippet of 20 characters. *)
Definition twenty_provider (q : string) : Response :=
  Payload {| answer_box := None; knowledge_graph := None;
             organic_results := Some [ {| or_snippet := Some "The capital is Paris" |} ] |}.

(** The lines of the report for one source that answered with the text of the
    missing key. *)
Definition no_key_source (i : nat) (query : string) : list string :=
  [ "📊 Source " +:+ str_of_nat i +:+ ": " +:+ query;
    "------------------------------";
    "Excerpt: No SerpAPI key found";
    "" ].

Definition no_key_report (description q1 q2 q3 q4 : string) : list string :=
  [ "🔍 MULTI-SOURCE VERIFICATION REPORT";
    "==================================================";
    "Original Query: " +:+ description;
    "" ]
  ++ no_key_source 1 q1 ++ no_key_source 2 q2
  ++ no_key_source 3 q3 ++ no_key_source 4 q4
  ++ [ "🎯 VERIFICATION ANALYSIS:";
       "------------------------------";
       "✅ Successfully verified with 4 sources";
       "";
       "💡 RECOMMENDATION:";
       "Compare your result with the findings above. If there's significant discrepancy,";
       "note the range of values found rather than seeking additional sources.";
       "For most questions, this level of verification is sufficient to proceed with confidence." ].

(** Whether the pass on a reply reaches the branch of a parsed action. *)
Definition names_action (reply : string) : bool :=
  negb (Py.contains final_marker reply)
  && match parse_action reply with
     | Some _ => true
     | None => false
     end.

(** The registry of [main_agent.py], with its search tools bound to a provider
    and to the key of the environment; the calculator and the text analyzer
    are left out. *)
Definition search_tools (provider : string -> Response) (serpapi_key : option string)
  : gmap string ToolEntry :=
  add_tool "verify_result"
    (fun x => Some (verify_result (fun l => remove_dups l) provider serpapi_key x))
    "Verifies if results are reasonable and accurate"
    (add_tool "web_search" (web_search provider serpapi_key)
       "Searches the web for current information" ∅).

(** A sample history: dates are pairs of the two renderings, and the same
    question was stored twice, with different ids and times. *)
Definition sample_message (id role content date time : string)
  : Message (string * string) :=
  {| m_id := Some id; m_role := Some role; m_content := Some content;
     m_timestamp := Some (TDatetime (string * string) (date, time));
     m_timestamp_str := None |}.

Definition sample_history : list (Message (string * string)) :=
  [ sample_message "a1" "user" "hello" "2024-05-01" "10:00:00";
    sample_message "b2" "assistant" "hi there" "2024-05-01" "10:00:02";
    sample_message "c3" "user" "hello" "2024-05-02" "09:30:00" ].

(** [str.upper] on a text of ASCII characters. *)
Definition upper_ascii (s : string) : string :=
  String.string_of_list_ascii
    (map (fun c => if Py.in_range 97 122 c then ascii_of_N (Py.code c - 32) else c)
         (String.list_ascii_of_string s)).

(** * Further code of the repository *)

(** A turn that the loop writes: a reply of the model, or an observation. *)
Definition loop_turn (t : Turn) : Prop :=
  role t = assistant
  \/ (role t = user /\ Py.startswith "Observation: " (content t) = true).

(** ** The demo search ([react_agent.py])

    The demo agent has the loop over the variants of the service variant and,
    where that one gives up, a knowledge base of its own. *)

Module Demo.

(** The text of one character, by its code point. *)
Definition chr (n : nat) : string := String (ascii_of_nat n) "".

Definition capitals : list (string * string) :=
  [ ("nicaragua", "Managua");
    ("france", "Paris");
    ("germany", "Berlin");
    ("japan", "Tokyo");
    ("brazil", "Bras" +:+ chr 237 +:+ "lia");
    ("australia", "Canberra");
    ("canada", "Ottawa");
    ("italy", "Rome");
    ("spain", "Madrid");
    ("russia", "Moscow");
    ("china", "Beijing");
    ("india", "New Delhi");
    ("mexico", "Mexico City");
    ("argentina", "Buenos Aires");
    ("egypt", "Cairo");
    ("south africa", "Cape Town, Pretoria, and Bloemfontein");
    ("united kingdom", "London");
    ("united states", "Washington, D.C.");
    ("uk", "London");
    ("usa", "Washington, D.C.") ].

Definition aviation_facts : list (string * string) :=
  [ ("ge90", "The GE90 is a family of turbofan engines. The GE90-115B variant produces up to 115,300 pounds of thrust, making it one of the most powerful jet engines in the world. It powers the Boeing 777-300ER and 777-200LR aircraft.");
    ("boeing 777", "The Boeing 777 is a wide-body airliner powered by engines like the GE90, Pratt & Whitney PW4000, or Rolls-Royce Trent 800 series.");
    ("airbus a380", "The Airbus A380 is powered by either Rolls-Royce Trent 900 or Engine Alliance GP7200 engines.");
    ("jet engine", "Jet engines work by compressing air, mixing it with fuel, igniting it, and expelling the exhaust to create thrust.");
    ("turbofan", "A turbofan engine uses a fan to accelerate air around the engine core, providing most of the thrust efficiently.") ].

Definition science_facts : list (string * string) :=
  [ ("speed of light", "The speed of light in vacuum is approximately 299,792,458 meters per second.");
    ("boiling point water", "Water boils at 100" +:+ chr 176 +:+ "C (212" +:+ chr 176 +:+ "F) at standard atmospheric pressure.");
    ("freezing point water", "Water freezes at 0" +:+ chr 176 +:+ "C (32" +:+ chr 176 +:+ "F) at standard atmospheric pressure.");
    ("value of pi", "Pi (π) is approximately 3.14159265359...");
    ("gravity earth", "Earth's gravity is approximately 9.8 m/s" +:+ chr 178 +:+ ".");
    ("distance earth sun", "The average distance from Earth to the Sun is about 150 million kilometers (93 million miles).");
    ("mount everest", "Mount Everest is 8,848.86 meters (29,031.7 feet) tall.");
    ("speed of sound", "The speed of sound in air at room temperature is approximately 343 meters per second (1,125 feet per second).") ].

Definition tech_facts : list (string * string) :=
  [ ("artificial intelligence", "AI is a field of computer science focused on creating systems that can perform tasks typically requiring human intelligence.");
    ("machine learning", "Machine learning is a subset of AI where algorithms learn from data to make predictions or decisions.");
    ("neural network", "Neural networks are computing systems inspired by biological neural networks, used in machine learning.");
    ("internet", "The Internet is a global network of interconnected computers that communicate using standardized protocols.") ].

(** [str.title] on a text of ASCII letters and spaces. *)
Fixpoint title_go (previous_cased : bool) (s : string) : string :=
  match s with
  | EmptyString => ""
  | String c s' =>
      if Py.in_range 97 122 c then
        String (if previous_cased then c else ascii_of_N (Py.code c - 32))
               (title_go true s')
      else if Py.in_range 65 90 c then
        String (if previous_cased then ascii_of_N (Py.code c + 32) else c)
               (title_go true s')
      else String c (title_go false s')
  end.

Definition title (s : string) : string := title_go false s.

Section KnowledgeBase.

(** [datetime.now().strftime('%B %d, %Y')] *)
Variable today : string.

(** The part of [_search_knowledge_base] that reads [query_lower] only: the
    answer of the first category that matches, if any. *)
Definition knowledge_match (query_lower : string) : option string :=
  let from_date :=
    if Py.contains "today" query_lower || Py.contains "current date" query_lower
    then Some ("Today's date is " +:+ today +:+ ".")
    else None in
  let from_tech :=
    match List.find (fun fact : string * string =>
                       Py.contains fact.1 query_lower
                       || existsb (fun word => Py.contains word query_lower)
                                  (split_ws fact.1))
                    tech_facts with
    | Some fact => Some fact.2
    | None => from_date
    end in
  let from_science :=
    match List.find (fun fact : string * string =>
                       forallb (fun word => Py.contains word query_lower)
                               (split_ws fact.1))
                    science_facts with
    | Some fact => Some fact.2
    | None => from_tech
    end in
  let from_aviation :=
    match List.find (fun fact : string * string => Py.contains fact.1 query_lower)
                    aviation_facts with
    | Some fact => Some fact.2
    | None => from_science
    end in
  if Py.contains "capital" query_lower then
    match List.find (fun entry : string * string => Py.contains entry.1 query_lower)
                    capitals with
    | Some entry =>
        Some ("The capital of " +:+ title entry.1 +:+ " is " +:+ entry.2 +:+ ".")
    | None => from_aviation
    end
  else from_aviation.

Definition _search_knowledge_base (query : string) : string :=
  match knowledge_match (Py.lower query) with
  | Some answer => answer
  | None =>
      "I don't have specific information about '" +:+ query
      +:+ "' in my knowledge base. Try asking about geography, science, aviation, or technology topics."
  end.

Variable provider : string -> Response.

(** [_search_with_serpapi_retry]: the loop of [_search_with_serpapi], and the
    knowledge base in place of [None]. *)
Definition _search_with_serpapi_retry (query api_key : string) (max_retries : nat)
  : string * list string :=
  match attempts provider (take max_retries (query_variations query)) [] with
  | (Some text, issued) => (text, issued)
  | (None, issued) => (_search_knowledge_base query, issued)
  end.

(** [web_search] of [react_agent.py] *)
Definition web_search_log (serpapi_key : option string) (query : string)
  : string * list string :=
  if truthy serpapi_key
  then _search_with_serpapi_retry query (default "" serpapi_key) default_max_retries
  else (_search_knowledge_base query, []).

Definition web_search (serpapi_key : option string) (query : string) : string :=
  fst (web_search_log serpapi_key query).

End KnowledgeBase.

End Demo.

(** ** The text analyzer ([tools/text_analyzer.py], [react_agent.py]) *)

Module Analyzer.

(** [str.isupper] and [str.islower] on one character. *)
Definition isupper (c : ascii) : bool :=
  Py.in_range 65 90 c || Py.in_range 192 214 c || Py.in_range 216 222 c.

Definition islower (c : ascii) : bool :=
  Py.in_range 97 122 c || (Py.code c =? 170)%N || (Py.code c =? 181)%N
  || (Py.code c =? 186)%N || Py.in_range 223 246 c || Py.in_range 248 255 c.

(** [sum(1 for c in text if p(c))] *)
Fixpoint count_chars (p : ascii -> bool) (s : string) : nat :=
  match s with
  | EmptyString => 0
  | String c s' => (if p c then 1 else 0) + count_chars p s'
  end.

(** [max(words, key=len)] after its first element: the first word of the
    greatest length. *)
Fixpoint max_by_len (best : string) (words : list string) : string :=
  match words with
  | [] => best
  | w :: words' =>
      if String.length best <? String.length w
      then max_by_len w words'
      else max_by_len best words'
  end.

Definition longest_word (words : list string) : string :=
  match words with
  | [] => ""
  | w :: words' => max_by_len w words'
  end.

Definition sentence_count (text : string) : nat :=
  length (List.filter (fun s => match Py.strip s with
                                | EmptyString => false
                                | _ => true
                                end)
                      (Py.split "." text)).

Definition dq : string := String (ascii_of_nat 34) "".

Section Report.

(** [str(round(a / b, 1))] for [b > 0], a computation on floats. *)
Variable round1 : nat -> nat -> string.

Definition average (word_count sentences : nat) : string :=
  if 0 <? sentences then round1 word_count sentences else "0".

Definition preview (text : string) : string :=
  Py.take_str 50 text +:+ (if 50 <? String.length text then "..." else "").

Definition text_analyzer (text : string) : string :=
  let words := split_ws text in
  let word_count := length words in
  let char_count := String.length text in
  let char_count_no_spaces := String.length (Py.replace " " "" text) in
  let longest := longest_word words in
  "Text Analysis Results:" +:+ nl
  +:+ "- Word count: " +:+ str_of_nat word_count +:+ nl
  +:+ "- Sentence count: " +:+ str_of_nat (sentence_count text) +:+ nl
  +:+ "- Character count: " +:+ str_of_nat char_count
  +:+ " (without spaces: " +:+ str_of_nat char_count_no_spaces +:+ ")" +:+ nl
  +:+ "- Longest word: " +:+ dq +:+ longest +:+ dq +:+ " ("
  +:+ str_of_nat (String.length longest) +:+ " characters)" +:+ nl
  +:+ "- Uppercase letters: " +:+ str_of_nat (count_chars isupper text) +:+ nl
  +:+ "- Lowercase letters: " +:+ str_of_nat (count_chars islower text) +:+ nl
  +:+ "- Average words per sentence: "
  +:+ average word_count (sentence_count text) +:+ nl
  +:+ "- Text starts with: " +:+ dq +:+ preview text +:+ dq +:+ nl.

End Report.

End Analyzer.

(** ** The chat history helpers ([utils/helpers.py]) *)

Section ChatStore.

Variable Datetime : Type.
Variable isoformat : Datetime -> string.

(** The body of the loop of [serialize_chat_history]: a timestamp that is a
    date becomes its ISO text. *)
Definition serialize_message (message : Message Datetime) : Message Datetime :=
  match m_timestamp message with
  | Some (TDatetime _ d) =>
      {| m_id := m_id Datetime message; m_role := m_role message;
         m_content := m_content message;
         m_timestamp := Some (TText Datetime (isoformat d));
         m_timestamp_str := m_timestamp_str Datetime message |}
  | _ => message
  end.

Definition serialize_chat_history (chat_history : list (Message Datetime))
  : list (Message Datetime) :=
  map serialize_message chat_history.

(** A message dictionary of the cache: the fields that the export reads, and
    the others. *)
Record CacheMessage := {
  cm_fields : Message Datetime;
  cm_chat_id : string;
  cm_pluggr_id : string;
  cm_admin_id : option string;
  cm_persona : option string
}.

(** A value of [conversation_cache]: a dictionary with the keys [messages]
    and [last_message_time] (a key that is absent is [None]), a bare list, or
    anything else. *)
Inductive CacheEntry :=
| EntryDict (messages : option (list CacheMessage)) (last_message_time : option Datetime)
| EntryList (messages : list CacheMessage)
| EntryOther.

(** [msg["id"]] *)
Definition message_id (msg : CacheMessage) : option string :=
  m_id Datetime (cm_fields msg).

(** [save_message], on the cache.  [new_id] is the text of the fresh
    UUID, [created] the clock read for the message and [touched] the clock
    read last; the write to the database and the signal to the chat endpoint
    do not touch the cache. *)
Definition save_message (new_id : string) (created touched : Datetime)
  (chat_id role content pluggr_id : string) (admin_id persona : option string)
  (conversation_cache : gmap string CacheEntry) : gmap string CacheEntry :=
  let message_dict :=
    {| cm_fields :=
         {| m_id := Some new_id; m_role := Some role; m_content := Some content;
            m_timestamp := Some (TDatetime Datetime created);
            m_timestamp_str := None |};
       cm_chat_id := chat_id;
       cm_pluggr_id := pluggr_id;
       cm_admin_id := if bool_decide (role = "admin") then admin_id else None;
       cm_persona := persona |} in
  let prepared :=
    match conversation_cache !! chat_id with
    | None => []
    | Some (EntryList l) => l
    | Some EntryOther => []
    | Some (EntryDict None _) => []
    | Some (EntryDict (Some l) _) => l
    end in
  <[chat_id := EntryDict (Some (prepared ++ [message_dict])) (Some touched)]>
    conversation_cache.

(** [get_chat_history], from the rows that the query of the database gave,
    already turned into dictionaries: the history returned, or the KeyError
    of a cached message without an id, and the cache afterwards. *)
Definition get_chat_history (now : Datetime) (db_message_dicts : list CacheMessage)
  (chat_id : string) (conversation_cache : gmap string CacheEntry)
  : outcome (list CacheMessage) * gmap string CacheEntry :=
  let finish combined_messages :=
    (Returned combined_messages,
     <[chat_id := EntryDict (Some combined_messages) (Some now)]> conversation_cache) in
  match conversation_cache !! chat_id with
  | Some (EntryDict (Some cached_messages) _) =>
      let db_message_ids : gset string :=
        list_to_set (omap message_id db_message_dicts) in
      match mapM message_id cached_messages with
      | None => (Raised "'id'", conversation_cache)
      | Some _ =>
          let new_cached_messages :=
            List.filter
              (fun msg => match message_id msg with
                          | Some i => bool_decide (i ∉ db_message_ids)
                          | None => false
                          end)
              cached_messages in
          finish (db_message_dicts ++ new_cached_messages)
      end
  | _ => finish db_message_dicts
  end.

End ChatStore.

Arguments cm_fields {Datetime} _.
Arguments message_id {Datetime} _.
Arguments EntryDict {Datetime} _ _.

(** ** The chunks of the search results ([utils/helpers.py],
       [utils/rag_search.py]) *)

(** The value under [entity]: a dictionary with its [chunk_text] and
    [document_id] (texts, as the collection declares them; [None] when
    absent), or something else. *)
Inductive Entity :=
| EntityDict (chunk_text document_id : option string)
| EntityOther.

(** A result item: a text to be parsed, a dictionary or an object with its
    [entity] ([None] when it has none), a list, or something else. *)
Inductive Item :=
| ItemText (s : string)
| ItemDict (entity : option Entity)
| ItemObject (entity : option Entity)
| ItemList (items : list Item)
| ItemOther.

(** What [extract_chunk_texts] is given: a dictionary with its [data], or a
    list. *)
Inductive Results :=
| ResultsDict (data : option (list Item))
| ResultsList (items : list Item).

(** The chunk that an entity adds to the two lists, if any. *)
Definition entity_chunk (entity : Entity) : list (string * option string) :=
  match entity with
  | EntityDict (Some (String c text)) document_id => [(String c text, document_id)]
  | _ => []
  end.

Section Chunks.

(** [ast.literal_eval], [None] for an exception. *)
Variable literal_eval : string -> option Item.

(** [process_result_item] after its parsing step. *)
Definition process_parsed (result : Item) : list (string * option string) :=
  match result with
  | ItemDict (Some entity) => entity_chunk entity
  | ItemObject (Some entity) => entity_chunk entity
  | _ => []
  end.

(** [process_result_item]: what it appends to the two lists. *)
Definition process_result_item (result : Item) : list (string * option string) :=
  match result with
  | ItemText s =>
      match literal_eval s with
      | Some parsed => process_parsed parsed
      | None => []
      end
  | _ => process_parsed result
  end.

(** The two lists that the loop of [extract_chunk_texts] fills. *)
Definition extracted (results_data : list Item) : list (string * option string) :=
  concat (map (fun result =>
                 match result with
                 | ItemList sub_results => concat (map process_result_item sub_results)
                 | _ => process_result_item result
                 end)
              results_data).

Definition extract_chunk_texts (results : Results) : string :=
  let results_data :=
    match results with
    | ResultsDict data => default [] data
    | ResultsList items => items
    end in
  Py.join nl (map fst (extracted results_data)).

(** The flattening loop of [get_relevant_documents]. *)
Definition flattened_results (results : list Item) : list Item :=
  concat (map (fun res_group =>
                 match res_group with
                 | ItemList group => group
                 | _ => [res_group]
                 end)
              results).

End Chunks.

(** ** The chat endpoint ([main.py]) *)

Section Service.

Variable llm : list Turn -> string.
Variable system_prompt : string.
(** The four tools of [main_agent.py]. *)
Variable calculator_tool web_search_tool text_analyzer_tool verify_result_tool
  : string -> option string.
(** [str(e)] of the HTTPException with a status and a detail. *)
Variable http_exception_text : nat -> string -> string.

(** [_register_default_tools] *)
Definition default_tools : gmap string ToolEntry :=
  add_tool "verify_result" verify_result_tool
    "Verifies if results are reasonable and accurate"
    (add_tool "text_analyzer" text_analyzer_tool "Analyzes text statistics and insights"
       (add_tool "web_search" web_search_tool "Searches the web for current information"
          (add_tool "calculator" calculator_tool "Evaluates mathematical expressions"
             ∅))).

(** The tools of the agent that [get_agent] builds. *)
Definition service_tools : gmap string ToolEntry :=
  add_tool "text_analyzer" text_analyzer_tool "Analyzes text statistics and insights"
    (add_tool "web_search" web_search_tool "Searches the web for current information"
       (add_tool "calculator" calculator_tool "Evaluates mathematical expressions"
          default_tools)).

(** A request: the message and [max_iterations], [None] for null. *)
Record ChatRequest := {
  request_message : string;
  request_max_iterations : option Z
}.

(** The global [agent]: [None] before it is built, then its
    [max_iterations]. *)
Definition Service := option Z.

(** [if request.max_iterations:] *)
Definition given (max_iterations : option Z) : bool :=
  match max_iterations with
  | Some k => negb (k =? 0)%Z
  | None => false
  end.

(** [chat]: the response or the detail of the HTTPException raised, the
    state of the run (when there is one) and the agent afterwards. *)
Definition chat (openai_api_key : option string) (request : ChatRequest)
  (agent : Service) : outcome string * option AgentState * Service :=
  let built : outcome Z :=
    match agent with
    | Some bound => Returned bound
    | None =>
        if truthy openai_api_key then Returned 10%Z
        else Raised (http_exception_text 500 "OpenAI API key not configured")
    end in
  match built with
  | Raised e => (Raised ("Error processing message: " +:+ e), None, agent)
  | Returned bound =>
      let bound' :=
        if given (request_max_iterations request)
        then default bound (request_max_iterations request)
        else bound in
      let result :=
        run llm service_tools (Z.to_nat bound') system_prompt (request_message request) in
      (Returned (fst result), Some (snd result), Some bound')
  end.

End Service.

(** ** The summary of a chat ([get_ai_summary]) *)

(** [get_ai_summary], from what the stream of the chat model gives: its
    chunks, or the exception that ends it. *)
Definition get_ai_summary (stream : outcome (list string)) : string :=
  match stream with
  | Returned chunks =>
      let complete_response := fold_left String.append chunks "" in
      if 1000 <? String.length complete_response
      then Py.take_str 997 complete_response +:+ "..."
      else complete_response
  | Raised _ =>
      "Error generating summary. Please refer to the full conversation below."
  end.

(** ** Notions of the further statements *)

(** A provider whose payloads hold nothing. *)
Definition empty_provider (q : string) : Response :=
  Payload {| answer_box := None; knowledge_graph := None; organic_results := None |}.



(** A token of the pattern of numbers: digits, commas and points, the first
    of them a digit or a comma. *)
Definition number_token (t : string) : Prop :=
  Py.head_in isnumhead t = true
  /\ Py.all (fun c => isnumhead c || (Py.code c =? 46)%N) t = true.

(** A key term: three characters or more, none of them white space or a
    capital letter of ASCII or Latin-1 (A to Z, U+00C0 to U+00DE), the
    upper-case letters among the characters of the texts of this
    development. *)
Definition key_term (t : string) : Prop :=
  3 <= String.length t
  /\ Py.all (fun c => negb (Py.isspace c) && negb (Analyzer.isupper c)) t = true.

(** The text of the report of [text_analyzer], by the values that it
    shows. *)
Definition analysis (word_count sentence_count char_count char_count_no_spaces : nat)
  (longest_word : string) (uppercase_count lowercase_count : nat)
  (avg_words_per_sentence shown : string) : string :=
  "Text Analysis Results:" +:+ nl
  +:+ "- Word count: " +:+ str_of_nat word_count +:+ nl
  +:+ "- Sentence count: " +:+ str_of_nat sentence_count +:+ nl
  +:+ "- Character count: " +:+ str_of_nat char_count
  +:+ " (without spaces: " +:+ str_of_nat char_count_no_spaces +:+ ")" +:+ nl
  +:+ "- Longest word: " +:+ Analyzer.dq +:+ longest_word +:+ Analyzer.dq +:+ " ("
  +:+ str_of_nat (String.length longest_word) +:+ " characters)" +:+ nl
  +:+ "- Uppercase letters: " +:+ str_of_nat uppercase_count +:+ nl
  +:+ "- Lowercase letters: " +:+ str_of_nat lowercase_count +:+ nl
  +:+ "- Average words per sentence: " +:+ avg_words_per_sentence +:+ nl
  +:+ "- Text starts with: " +:+ Analyzer.dq +:+ shown +:+ Analyzer.dq +:+ nl.

(** Whether an item is a list. *)
Definition is_list (item : Item) : bool :=
  match item with
  | ItemList _ => true
  | _ => false
  end.

(** Results nested no deeper than a list of lists. *)
Definition shallow (results : list Item) : Prop :=
  Forall (fun res_group =>
            match res_group with
            | ItemList group => Forall (fun item => is_list item = false) group
            | _ => True
            end)
         results.

(** The messages that [save_message] finds under a chat id. *)
Definition kept_messages {Datetime : Type} (entry : option (CacheEntry Datetime))
  : list (CacheMessage Datetime) :=
  match entry with
  | Some (EntryList _ l) => l
  | Some (EntryDict (Some l) _) => l
  | _ => []
  end.

(** How many messages of a history carry an id. *)
Definition occurrences {Datetime : Type} (i : string)
  (history : list (CacheMessage Datetime)) : nat :=
  length (List.filter (fun msg => bool_decide (message_id msg = Some i)) history).

Section ExportNotions.

Variable Datetime : Type.
Variable isoformat : Datetime -> string.
Variable strftime_date : Datetime -> string.
Variable strftime_time : Datetime -> string.
Variable fromisoformat : string -> option Datetime.

(** The ISO text of a date is read back as a date with the same two
    renderings. *)
Definition round_trips (d : Datetime) : Prop :=
  exists d', fromisoformat (Py.replace "Z" "+00:00" (isoformat d)) = Some d'
             /\ strftime_date d' = strftime_date d
             /\ strftime_time d' = strftime_time d.

(** A message whose date, if it has one, is read back from its ISO text, and
    whose [timestamp_str], if an export has left one, is that text. *)
Definition exportable (message : Message Datetime) : Prop :=
  match m_timestamp message with
  | Some (TDatetime _ d) =>
      round_trips d
      /\ (m_timestamp_str Datetime message = None
          \/ m_timestamp_str Datetime message = Some (isoformat d))
  | _ => True
  end.

(** Two timestamps that the formatting loop renders alike: the same, or the
    ISO text of a date that is read back and the date. *)
Definition same_time (a b : option (Timestamp Datetime)) : Prop :=
  a = b
  \/ exists d d', a = Some (TText Datetime (isoformat d))
                  /\ b = Some (TDatetime Datetime d)
                  /\ fromisoformat (Py.replace "Z" "+00:00" (isoformat d)) = Some d'
                  /\ strftime_date d' = strftime_date d
                  /\ strftime_time d' = strftime_time d.

(** Two messages that the export does not tell apart: the same key of the
    sort, the same role and content, and timestamps rendered alike. *)
Definition alike (a b : Message Datetime) : Prop :=
  sort_key Datetime isoformat a = sort_key Datetime isoformat b
  /\ m_role a = m_role b /\ m_content a = m_content b
  /\ same_time (m_timestamp a) (m_timestamp b).

End ExportNotions.

(** A parser of the ISO texts of the sample dates. *)
Definition sample_fromisoformat (s : string) : option (string * string) :=
  if (String.length s =? 19) && bool_decide (String.get 10 s = Some "T"%char)
  then Some (Py.take_str 10 s, Py.drop_str 11 s)
  else None.

(** A sample message of the cache. *)
Definition sample_cached (id content : string) (created : nat) : CacheMessage nat :=
  {| cm_fields :=
       {| m_id := Some id; m_role := Some "user"; m_content := Some content;
          m_timestamp := Some (TDatetime nat created); m_timestamp_str := None |};
     cm_chat_id := "chat"; cm_pluggr_id := "p"; cm_admin_id := None;
     cm_persona := None |}.

(** A sample cache: one chat, two messages. *)
Definition sample_cache : gmap string (CacheEntry nat) :=
  {[ "chat" := EntryDict (Some [sample_cached "a" "hello" 1; sample_cached "b" "more" 2])
                         (Some 2) ]}.

(** * Properties *)

(** ** Texts *)

Lemma append_nil_r (s : string) : s +:+ "" = s.
Proof. induction s as [|c s IH]; simpl; [reflexivity | now rewrite IH]. Qed.

Lemma append_assoc (a b c : string) : (a +:+ b) +:+ c = a +:+ b +:+ c.
Proof. induction a as [|x a IH]; simpl; [reflexivity | now rewrite IH]. Qed.

Lemma append_cons (c : ascii) (s t : string) :
  String c s +:+ t = String c (s +:+ t).
Proof. reflexivity. Qed.

Lemma length_append (a b : string) :
  String.length (a +:+ b) = String.length a + String.length b.
Proof. induction a as [|x a IH]; simpl; [reflexivity | now rewrite IH]. Qed.

Lemma startswith_append (p s : string) : Py.startswith p (p +:+ s) = true.
Proof.
  induction p as [|c p IH]; simpl; [reflexivity|].
  now rewrite Ascii.eqb_refl, IH.
Qed.

Lemma startswith_get (p s : string) (k : nat) :
  Py.startswith p s = true -> k < String.length p ->
  String.get k s = String.get k p.
Proof.
  revert s k. induction p as [|c p IH]; intros [|d s] k H Hk; simpl in *;
    try lia; try discriminate.
  apply andb_true_iff in H as [Hc Hp]. apply Ascii.eqb_eq in Hc. subst d.
  destruct k as [|k]; [reflexivity|]. apply IH; [assumption | lia].
Qed.

Lemma drop_str_append (p s : string) : Py.drop_str (String.length p) (p +:+ s) = s.
Proof. induction p as [|c p IH]; simpl; [now destruct s | exact IH]. Qed.

(** ** Splitting at the final-answer marker *)

Lemma split_go_not_nil sep skip cur s : Py.split_go sep skip cur s <> [].
Proof.
  revert skip cur. induction s as [|c s IH]; intros skip cur; simpl; [discriminate|].
  destruct skip; [|apply IH].
  destruct (Py.startswith sep (String c s)); [discriminate | apply IH].
Qed.

Lemma last_cons_not_nil (x d : string) (l : list string) :
  l <> [] -> List.last (x :: l) d = List.last l d.
Proof. destruct l; [congruence | reflexivity]. Qed.

(** Without an occurrence of the separator there is one segment. *)
Lemma split_go_absent sep cur s :
  Py.contains sep s = false -> Py.split_go sep 0 cur s = [cur +:+ s].
Proof.
  revert cur. induction s as [|c s IH]; intros cur H; simpl in *.
  - now rewrite append_nil_r.
  - apply orb_false_iff in H as [H1 H2]. rewrite H1, IH by assumption.
    now rewrite append_assoc.
Qed.

(** The characters of an occurrence are dropped. *)
Lemma split_go_skip sep cur t s :
  Py.split_go sep (String.length t) cur (t +:+ s) = Py.split_go sep 0 cur s.
Proof. induction t as [|c t IH]; simpl; [reflexivity | exact IH]. Qed.

(** The marker does not overlap itself: an occurrence that starts before
    another one ends before it. *)
Lemma final_marker_no_overlap (s1 post : string) :
  Py.startswith final_marker (s1 +:+ final_marker +:+ post) = true ->
  s1 = "" \/ String.length final_marker <= String.length s1.
Proof.
  intros H.
  destruct (le_lt_dec (String.length final_marker) (String.length s1)) as [Hle|Hlt];
    [now right|].
  pose proof (startswith_get _ _ (String.length s1) H Hlt) as Hget.
  rewrite <- (Nat.add_0_l (String.length s1)) in Hget at 1.
  rewrite <- append_correct2 in Hget.
  destruct s1 as [|c s1]; [now left|]. exfalso.
  simpl String.length in *. unfold final_marker in *.
  simpl in Hlt.
  remember (String.length s1) as k eqn:Hk. clear Hk H.
  do 12 (destruct k as [|k]; [simpl in Hget; discriminate|]).
  lia.
Qed.

Lemma split_go_last (s1 post : string) :
  Py.contains final_marker post = false ->
  forall skip cur, skip <= String.length s1 ->
  List.last (Py.split_go final_marker skip cur (s1 +:+ final_marker +:+ post)) "" = post.
Proof.
  intros Hpost. induction s1 as [|c s1 IH]; intros skip cur Hskip.
  - assert (skip = 0) as -> by (simpl in Hskip; lia).
    change ("" +:+ final_marker +:+ post) with (String "F" ("inal Answer:" +:+ post)).
    unfold Py.split_go; fold Py.split_go.
    change (String "F" ("inal Answer:" +:+ post)) with (final_marker +:+ post).
    rewrite startswith_append.
    change (String.length final_marker - 1) with (String.length "inal Answer:").
    rewrite split_go_skip, split_go_absent by assumption.
    reflexivity.
  - rewrite append_cons. unfold Py.split_go; fold Py.split_go.
    destruct skip as [|k].
    + destruct (Py.startswith final_marker (String c (s1 +:+ final_marker +:+ post)))
        eqn:Hst.
      * rewrite last_cons_not_nil by apply split_go_not_nil.
        apply IH.
        rewrite <- append_cons in Hst.
        apply final_marker_no_overlap in Hst as [Hnil|Hlen]; [discriminate|].
        simpl in Hlen |- *. lia.
      * apply IH. lia.
    + apply IH. simpl in Hskip. lia.
Qed.

Lemma contains_append (sub a b : string) :
  Py.contains sub b = true -> Py.contains sub (a +:+ b) = true.
Proof.
  intros H. induction a as [|c a IH]; simpl; [assumption|].
  rewrite IH. apply orb_true_r.
Qed.

Lemma contains_marker_append (a b : string) :
  Py.contains final_marker (a +:+ final_marker +:+ b) = true.
Proof.
  apply contains_append. destruct b; simpl; reflexivity.
Qed.

(** ** C2: the final answer *)

Lemma startswith_split (p s : string) :
  Py.startswith p s = true -> s = p +:+ Py.drop_str (String.length p) s.
Proof.
  revert s. induction p as [|c p IH]; intros [|d s] H; simpl in *;
    try reflexivity; try discriminate.
  apply andb_true_iff in H as [Hc Hp]. apply Ascii.eqb_eq in Hc. subst d.
  f_equal. now apply IH.
Qed.

Lemma contains_drop (sub s : string) (n : nat) :
  Py.contains sub s = false -> Py.contains sub (Py.drop_str n s) = false.
Proof.
  revert s. induction n as [|n IH]; intros [|c s] H; simpl; try assumption.
  apply IH. simpl in H. now apply orb_false_iff in H as [_ H].
Qed.

(** A text that holds the marker splits at its last occurrence. *)
Lemma last_marker (s : string) :
  Py.contains final_marker s = true ->
  exists pre post,
    s = pre +:+ final_marker +:+ post /\ Py.contains final_marker post = false.
Proof.
  induction s as [|c s IH]; intros H; [discriminate|].
  destruct (Py.contains final_marker s) eqn:Hs.
  - destruct (IH eq_refl) as (pre & post & -> & Hpost).
    exists (String c pre), post. split; [reflexivity | assumption].
  - unfold Py.contains in H; fold Py.contains in H. rewrite Hs, orb_false_r in H.
    exists "", (Py.drop_str (String.length final_marker) (String c s)). split.
    + now apply startswith_split.
    + apply (contains_drop final_marker s 12 Hs).
Qed.

Lemma final_answer_at_last_marker
  (llm : list Turn -> string) (tools : gmap string ToolEntry) (st : AgentState)
  (pre post : string) :
  llm (messages st) = pre +:+ final_marker +:+ post ->
  Py.contains final_marker post = false ->
  cycle llm tools st =
    (Some (Py.strip post),
     {| messages := messages st ++ [{| role := assistant; content := llm (messages st) |}];
        completions := S (completions st);
        invocations := invocations st |}).
Proof.
  intros Hllm Hpost. unfold cycle.
  rewrite Hllm at 1. rewrite contains_marker_append.
  unfold final_answer, Py.last_item, Py.split.
  rewrite Hllm at 1.
  rewrite (split_go_last pre post Hpost 0 "") by lia.
  reflexivity.
Qed.

(** C2, as the code has it: when the reply of the model holds the marker, the
    pass returns on that turn, whatever stands before the marker (an action
    line included: no tool is called and only the assistant turn is added),
    and the answer is the text after the last occurrence of the marker,
    stripped of the white space around it. *)
Theorem final_answer_after_last_marker
  (llm : list Turn -> string) (tools : gmap string ToolEntry) (st : AgentState) :
  Py.contains final_marker (llm (messages st)) = true ->
  exists pre post,
    llm (messages st) = pre +:+ final_marker +:+ post
    /\ Py.contains final_marker post = false
    /\ cycle llm tools st =
       (Some (Py.strip post),
        {| messages :=
             messages st ++ [{| role := assistant; content := llm (messages st) |}];
           completions := S (completions st);
           invocations := invocations st |}).
Proof.
  intros H. destruct (last_marker _ H) as (pre & post & Hllm & Hpost).
  exists pre, post. split; [assumption|]. split; [assumption|].
  exact (final_answer_at_last_marker llm tools st pre post Hllm Hpost).
Qed.

Lemma final_answer_after_last_marker_witness :
  exists pre post,
    "Action: calculator: 1 Final Answer: 4 Final Answer:  5 "
    = pre +:+ final_marker +:+ post
    /\ Py.contains final_marker post = false
    /\ cycle (fun _ => "Action: calculator: 1 Final Answer: 4 Final Answer:  5 ")
             (add_tool "calculator" (fun x => Some x) "" ∅)
             (initial_state "" "q")
       = (Some (Py.strip post),
          {| messages :=
               messages (initial_state "" "q")
               ++ [{| role := assistant;
                      content := "Action: calculator: 1 Final Answer: 4 Final Answer:  5 " |}];
             completions := 1;
             invocations := [] |}).
Proof.
  exact (final_answer_after_last_marker
           (fun _ => "Action: calculator: 1 Final Answer: 4 Final Answer:  5 ")
           (add_tool "calculator" (fun x => Some x) "" ∅)
           (initial_state "" "q") eq_refl).
Defined.

Example final_answer_run :
  fst (run (fun _ => "Action: calculator: 1 Final Answer: 4 Final Answer:  5 ")
           (add_tool "calculator" (fun x => Some x) "" ∅) default_max_iterations "" "q")
  = "5".
Proof. reflexivity. Qed.

(** C2 as stated fails: with two markers in the reply, the answer returned is
    the text after the second one, not the text after the first. *)
Lemma final_answer_first_marker_counterexample :
  Py.find final_marker "Final Answer: 4 Final Answer: 5" = Some 0
  /\ spec_final_answer "Final Answer: 4 Final Answer: 5" = "4 Final Answer: 5"
  /\ fst (cycle (fun _ => "Final Answer: 4 Final Answer: 5") ∅ (initial_state "" "q"))
     = Some "5"
  /\ fst (cycle (fun _ => "Final Answer: 4 Final Answer: 5") ∅ (initial_state "" "q"))
     <> Some (spec_final_answer "Final Answer: 4 Final Answer: 5").
Proof. repeat split; try reflexivity. vm_compute. discriminate. Qed.

(** ** C3: the action line *)

Lemma word_not_space (c : ascii) : Py.isword c = true -> Py.isspace c = false.
Proof.
  destruct c as [b0 b1 b2 b3 b4 b5 b6 b7].
  destruct b0, b1, b2, b3, b4, b5, b6, b7; vm_compute; congruence.
Qed.

Lemma lit_append {R} (p s : string) (k : string -> option R) :
  Re.lit p (p +:+ s) k = k s.
Proof. unfold Re.lit. now rewrite startswith_append, drop_str_append. Qed.

Lemma lit_absent {R} (p s : string) (k : string -> option R) :
  Py.startswith p s = false -> Re.lit p s k = None.
Proof. unfold Re.lit. now intros ->. Qed.

(** A greedy repetition takes the whole run [w] when the text after it does
    not go on with the class and the rest of the pattern accepts there. *)
Lemma star_takes {R} (p : ascii -> bool) (w s : string)
  (k : string -> option R) (r : R) :
  Py.all p w = true -> Py.head_in p s = false -> k s = Some r ->
  Re.star p (w +:+ s) k = Some r.
Proof.
  intros Hw Hs Hk. induction w as [|c w IH]; simpl in *.
  - destruct s as [|d s]; simpl in *; [assumption|]. now rewrite Hs.
  - apply andb_true_iff in Hw as [Hc Hw]. rewrite Hc, IH by assumption.
    reflexivity.
Qed.

Lemma star_group_takes {R} (p : ascii -> bool) (w s acc : string)
  (k : string -> string -> option R) (r : R) :
  Py.all p w = true -> Py.head_in p s = false -> k (acc +:+ w) s = Some r ->
  Re.star_group p acc (w +:+ s) k = Some r.
Proof.
  revert acc. induction w as [|c w IH]; intros acc Hw Hs Hk; simpl in *.
  - rewrite append_nil_r in Hk.
    destruct s as [|d s]; simpl in *; [assumption|]. now rewrite Hs.
  - apply andb_true_iff in Hw as [Hc Hw]. rewrite Hc.
    rewrite (IH (acc +:+ String c "")); [reflexivity | assumption | assumption |].
    now rewrite append_assoc.
Qed.

Lemma plus_group_takes {R} (p : ascii -> bool) (c : ascii) (w s : string)
  (k : string -> string -> option R) (r : R) :
  p c = true -> Py.all p w = true -> Py.head_in p s = false ->
  k (String c w) s = Some r ->
  Re.plus_group p (String c w +:+ s) k = Some r.
Proof.
  intros Hc Hw Hs Hk. simpl. rewrite Hc.
  now apply star_group_takes.
Qed.

(** The pattern at the start of a well-formed action. *)
Lemma action_at_line (ws1 ws2 name input rest : string) (n i : ascii) :
  Py.all Py.isspace ws1 = true ->
  Py.isword n = true -> Py.all Py.isword name = true ->
  Py.all Py.isspace ws2 = true ->
  Py.isspace i = false -> Py.all Py.isdot input = true ->
  Py.head_in Py.isdot rest = false ->
  Re.action_at ("Action:" +:+ ws1 +:+ String n name +:+ ":" +:+ ws2
                +:+ String i input +:+ rest)
  = Some (String n name, String i input).
Proof.
  intros Hws1 Hn Hname Hws2 Hi Hinput Hrest.
  unfold Re.action_at. rewrite lit_append.
  apply star_takes; [assumption | simpl; now apply word_not_space |].
  apply plus_group_takes; [assumption | assumption | reflexivity |].
  rewrite lit_append.
  apply star_takes; [assumption | exact Hi |].
  apply plus_group_takes; [| assumption | assumption | reflexivity].
  unfold Py.isdot. destruct (Py.code i =? 10)%N eqn:E; [|reflexivity].
  apply N.eqb_eq in E. unfold Py.isspace, Py.in_range in Hi. rewrite E in Hi.
  discriminate.
Qed.

(** [re.search] passes the positions before the first [Action:]. *)
Lemma action_search_skip (pre s : string) :
  Py.find "Action:" (pre +:+ s) = Some (String.length pre) ->
  Re.action_search (pre +:+ s) = Re.action_search s.
Proof.
  induction pre as [|c pre IH]; intros H; [reflexivity|].
  rewrite append_cons in *. simpl String.length in H.
  unfold Py.find in H; fold Py.find in H.
  destruct (Py.startswith "Action:" (String c (pre +:+ s))) eqn:Hst; [discriminate|].
  destruct (Py.find "Action:" (pre +:+ s)) as [j|] eqn:Hf; [|discriminate].
  simpl in H. injection H as ->.
  unfold Re.action_search; fold Re.action_search.
  unfold Re.action_at at 1. rewrite lit_absent by assumption.
  now apply IH.
Qed.

Lemma action_search_here (s : string) (m : string * string) :
  Re.action_at s = Some m -> Re.action_search s = Some m.
Proof. intros H. destruct s; cbn [Re.action_search]; now rewrite H. Qed.

(** Without [Action:] in the text there is no match. *)
Lemma action_search_absent (s : string) :
  Py.contains "Action:" s = false -> Re.action_search s = None.
Proof.
  induction s as [|c s IH]; intros H.
  - reflexivity.
  - unfold Py.contains in H; fold Py.contains in H.
    apply orb_false_iff in H as [H1 H2].
    unfold Re.action_search; fold Re.action_search.
    unfold Re.action_at at 1. rewrite lit_absent by assumption.
    now apply IH.
Qed.

(** C3, as the code has it: when the first [Action:] of the text is followed
    by white space (any amount, none included), a tool name of word
    characters, a colon directly after the name, white space (any amount, none
    included) and an input that runs to the end of its line, the parser finds
    that name and that input stripped, whatever the white space after the two
    colons; and a text without [Action:] gives no action. *)
Theorem action_line_parsed
  (pre ws1 ws2 name input rest : string) (n i : ascii) :
  Py.find "Action:" (pre +:+ "Action:" +:+ ws1 +:+ String n name +:+ ":" +:+ ws2
                     +:+ String i input +:+ rest) = Some (String.length pre) ->
  Py.all Py.isspace ws1 = true ->
  Py.isword n = true -> Py.all Py.isword name = true ->
  Py.all Py.isspace ws2 = true ->
  Py.isspace i = false -> Py.all Py.isdot input = true ->
  Py.head_in Py.isdot rest = false ->
  parse_action (pre +:+ "Action:" +:+ ws1 +:+ String n name +:+ ":" +:+ ws2
                +:+ String i input +:+ rest)
  = Some (String n name, Py.strip (String i input))
  /\ forall other, Py.contains "Action:" other = false -> parse_action other = None.
Proof.
  intros Hfind Hws1 Hn Hname Hws2 Hi Hinput Hrest. split.
  - unfold parse_action. rewrite action_search_skip by assumption.
    rewrite (action_search_here _ (String n name, String i input));
      [reflexivity | now apply action_at_line].
  - intros other H. unfold parse_action. now rewrite action_search_absent.
Qed.

Lemma action_line_parsed_witness :
  parse_action ("Thought: add" +:+ nl +:+ "Action:calculator:2 + 3  " +:+ nl
                +:+ "Observation:") = Some ("calculator", "2 + 3")
  /\ parse_action ("Thought: add" +:+ nl +:+ "Action:   calculator:  2 + 3  " +:+ nl
                   +:+ "Observation:") = Some ("calculator", "2 + 3").
Proof.
  split.
  - exact (proj1 (action_line_parsed ("Thought: add" +:+ nl) "" "" "alculator"
                    " + 3  " (nl +:+ "Observation:") "c" "2"
                    eq_refl eq_refl eq_refl eq_refl eq_refl eq_refl eq_refl eq_refl)).
  - exact (proj1 (action_line_parsed ("Thought: add" +:+ nl) "   " "  " "alculator"
                    " + 3  " (nl +:+ "Observation:") "c" "2"
                    eq_refl eq_refl eq_refl eq_refl eq_refl eq_refl eq_refl eq_refl)).
Defined.

(** C3 as stated fails: a space before a colon is not accepted, so an action
    written with spaces around its colons is not found at all, while the same
    action without them is. *)
Lemma action_space_before_colon_counterexample :
  parse_action "Action: text_analyzer : test" = None
  /\ parse_action "Action : text_analyzer: test" = None
  /\ parse_action "Action: text_analyzer: test" = Some ("text_analyzer", "test").
Proof. repeat split; reflexivity. Qed.

(** ** C4: the bound on the completions *)

Section AgentProperties.

Variable llm : list Turn -> string.
Variable tools : gmap string ToolEntry.

Lemma cycle_completions (st : AgentState) :
  completions (snd (cycle llm tools st)) = S (completions st).
Proof.
  unfold cycle.
  destruct (Py.contains final_marker (llm (messages st))); [reflexivity|].
  destruct (parse_action (llm (messages st))) as [[name input]|]; [|reflexivity].
  destruct (tools !! name); reflexivity.
Qed.

(** The transcript after a pass starts with the transcript before it and with
    the reply of the model. *)
Lemma cycle_messages (st : AgentState) :
  exists obs,
    messages (snd (cycle llm tools st))
    = messages st ++ {| role := assistant; content := llm (messages st) |} :: obs.
Proof.
  unfold cycle.
  destruct (Py.contains final_marker (llm (messages st))); [now exists []|].
  destruct (parse_action (llm (messages st))) as [[name input]|]; [|now exists []].
  destruct (tools !! name); simpl; rewrite <- app_assoc; eexists; reflexivity.
Qed.

Lemma cycle_returns (st : AgentState) (answer : string) :
  fst (cycle llm tools st) = Some answer ->
  Py.contains final_marker (llm (messages st)) = true.
Proof.
  unfold cycle.
  destruct (Py.contains final_marker (llm (messages st))); [reflexivity|].
  destruct (parse_action (llm (messages st))) as [[name input]|]; [|discriminate].
  destruct (tools !! name); discriminate.
Qed.

Lemma run_loop_messages (n : nat) (st : AgentState) :
  exists more, messages (snd (run_loop llm tools n st)) = messages st ++ more.
Proof.
  revert st. induction n as [|n IH]; intros st; simpl.
  - exists []. now rewrite app_nil_r.
  - destruct (cycle llm tools st) as [[answer|] st'] eqn:E;
      destruct (cycle_messages st) as [obs Hobs]; rewrite E in Hobs; simpl in *.
    + eexists. exact Hobs.
    + destruct (IH st') as [more Hmore]. rewrite Hmore, Hobs, <- app_assoc.
      eexists. reflexivity.
Qed.

Lemma run_loop_completions (n : nat) (st : AgentState) :
  completions (snd (run_loop llm tools n st)) <= completions st + n.
Proof.
  revert st. induction n as [|n IH]; intros st; simpl; [lia|].
  pose proof (cycle_completions st) as Hc.
  destruct (cycle llm tools st) as [[answer|] st']; simpl in *; [lia|].
  specialize (IH st'). lia.
Qed.

Lemma run_loop_exhausted (n : nat) (st : AgentState) :
  (forall turn, turn ∈ messages (snd (run_loop llm tools n st)) ->
                role turn = assistant ->
                Py.contains final_marker (content turn) = false) ->
  fst (run_loop llm tools n st) = exhausted
  /\ completions (snd (run_loop llm tools n st)) = completions st + n.
Proof.
  revert st. induction n as [|n IH]; intros st H; simpl in *; [split; [reflexivity | lia]|].
  pose proof (cycle_completions st) as Hc.
  destruct (cycle_messages st) as [obs Hobs].
  destruct (cycle llm tools st) as [[answer|] st'] eqn:E; simpl in *.
  - exfalso. pose proof (cycle_returns st answer) as Hr. rewrite E in Hr.
    specialize (Hr eq_refl).
    assert (Py.contains final_marker (llm (messages st)) = false) as Hf;
      [|congruence].
    apply (H {| role := assistant; content := llm (messages st) |});
      [|reflexivity].
    rewrite Hobs. apply elem_of_app. right. apply elem_of_cons. now left.
  - destruct (run_loop_messages n st') as [more Hmore].
    destruct (IH st' H) as [Ha Hn]. split; [assumption | lia].
Qed.

(** C4: a run asks the model for at most [max_iterations] completions; and
    when no reply of the run holds the final-answer marker, the run returns
    the fixed text of exhaustion, as an ordinary result, after exactly
    [max_iterations] completions. *)
Theorem run_bounded (max_iterations : nat) (system_prompt question : string) :
  completions (snd (run llm tools max_iterations system_prompt question))
    <= max_iterations
  /\ ((forall turn,
          turn ∈ messages (snd (run llm tools max_iterations system_prompt question)) ->
          role turn = assistant ->
          Py.contains final_marker (content turn) = false) ->
      fst (run llm tools max_iterations system_prompt question) = exhausted
      /\ completions (snd (run llm tools max_iterations system_prompt question))
         = max_iterations).
Proof.
  unfold run. split.
  - apply (run_loop_completions max_iterations (initial_state system_prompt question)).
  - intros H. apply (run_loop_exhausted _ _ H).
Qed.

End AgentProperties.

Lemma run_bounded_witness :
  fst (run (fun _ => "Thought: still thinking") ∅ default_max_iterations "" "q")
  = exhausted
  /\ completions (snd (run (fun _ => "Thought: still thinking") ∅
                           default_max_iterations "" "q")) = 10.
Proof.
  apply (proj2 (run_bounded (fun _ => "Thought: still thinking") ∅
                            default_max_iterations "" "q")).
  apply (proj1 (Forall_forall
                  (fun turn => role turn = assistant ->
                               Py.contains final_marker (content turn) = false) _)).
  vm_compute. repeat constructor.
Defined.

(** ** C8: the growth of the transcript *)

(** C8, as the code has it: a pass never removes or changes a turn; it adds
    two turns (the reply of the model and one observation) when the reply
    holds no final answer and an action is parsed from it, whether the tool
    named is registered or not, and one turn (the reply) otherwise; and a tool
    is called only in a pass that adds two turns.  The turns added are named:
    the reply of the model as an assistant turn, first, and then, as a user
    turn, the observation of the result of the tool, called once on the input
    parsed, or, for a name that is not registered, the text of the unknown
    tool, with no call. *)
Theorem cycle_growth
  (llm : list Turn -> string) (tools : gmap string ToolEntry) (st : AgentState) :
  messages st `prefix_of` messages (snd (cycle llm tools st))
  /\ length (messages (snd (cycle llm tools st)))
     = length (messages st) + (if names_action (llm (messages st)) then 2 else 1)
  /\ (invocations (snd (cycle llm tools st)) = invocations st
      \/ names_action (llm (messages st)) = true)
  /\ (names_action (llm (messages st)) = false ->
      messages (snd (cycle llm tools st))
      = messages st ++ [ {| role := assistant; content := llm (messages st) |} ]
      /\ invocations (snd (cycle llm tools st)) = invocations st)
  /\ (forall tool_name tool_input entry,
        names_action (llm (messages st)) = true ->
        parse_action (llm (messages st)) = Some (tool_name, tool_input) ->
        tools !! tool_name = Some entry ->
        messages (snd (cycle llm tools st))
        = messages st
          ++ [ {| role := assistant; content := llm (messages st) |};
               {| role := user;
                  content := "Observation: "
                             +:+ Py.format (function entry tool_input) |} ]
        /\ invocations (snd (cycle llm tools st))
           = (tool_name, tool_input) :: invocations st)
  /\ (forall tool_name tool_input,
        names_action (llm (messages st)) = true ->
        parse_action (llm (messages st)) = Some (tool_name, tool_input) ->
        tools !! tool_name = None ->
        messages (snd (cycle llm tools st))
        = messages st
          ++ [ {| role := assistant; content := llm (messages st) |};
               {| role := user;
                  content := "Observation: Error - Unknown tool '"
                             +:+ tool_name +:+ "'" |} ]
        /\ invocations (snd (cycle llm tools st)) = invocations st).
Proof.
  unfold cycle, names_action.
  destruct (Py.contains final_marker (llm (messages st))); cbn [negb andb].
  - split; [now apply prefix_app_r|].
    split; [cbn [snd messages]; rewrite length_app; simpl; lia|].
    split; [now left|]. split; [now split|]. split; intros; discriminate.
  - destruct (parse_action (llm (messages st))) as [[name input]|]; cbn [andb].
    + split; [destruct (tools !! name); cbn [snd messages];
              rewrite <- app_assoc; now apply prefix_app_r|].
      split; [destruct (tools !! name); cbn [snd messages];
              rewrite !length_app; simpl; lia|].
      split; [now right|]. split; [discriminate|].
      split.
      * intros tool_name tool_input entry _ [= <- <-] ->.
        cbn [snd messages invocations]. now rewrite <- app_assoc.
      * intros tool_name tool_input _ [= <- <-] ->.
        cbn [snd messages invocations]. now rewrite <- app_assoc.
    + split; [now apply prefix_app_r|].
      split; [cbn [snd messages]; rewrite length_app; simpl; lia|].
      split; [now left|]. split; [now split|]. split; intros; discriminate.
Qed.

Lemma cycle_growth_witness :
  messages (snd (cycle (fun _ => "Action: web_search: capital of France")
                       (search_tools failing_provider None) (initial_state "" "q")))
  = messages (initial_state "" "q")
    ++ [ {| role := assistant; content := "Action: web_search: capital of France" |};
         {| role := user; content := "Observation: No SerpAPI key found" |} ]
  /\ invocations (snd (cycle (fun _ => "Action: web_search: capital of France")
                             (search_tools failing_provider None) (initial_state "" "q")))
     = [("web_search", "capital of France")].
Proof.
  exact (proj1 (proj2 (proj2 (proj2 (proj2
           (cycle_growth (fun _ => "Action: web_search: capital of France")
              (search_tools failing_provider None) (initial_state "" "q"))))))
           "web_search" "capital of France"
           {| function := web_search failing_provider None;
              description := "Searches the web for current information" |}
           eq_refl eq_refl eq_refl).
Defined.

(** C8 as stated fails: a reply that names a tool that is not registered
    calls no tool, and the pass still adds two turns. *)
Lemma unknown_tool_counterexample :
  invocations (snd (cycle (fun _ => "Action: lookup: x") ∅ (initial_state "" "q"))) = []
  /\ messages (snd (cycle (fun _ => "Action: lookup: x") ∅ (initial_state "" "q")))
     = messages (initial_state "" "q")
       ++ [ {| role := assistant; content := "Action: lookup: x" |};
            {| role := user; content := "Observation: Error - Unknown tool 'lookup'" |} ]
  /\ length (messages (snd (cycle (fun _ => "Action: lookup: x") ∅ (initial_state "" "q"))))
     = length (messages (initial_state "" "q")) + 2.
Proof. repeat split; reflexivity. Qed.

(** ** C5: the order of the search requests *)

Section SearchProperties.

Variable provider : string -> Response.

Lemma attempts_step (q : string) (rest issued : list string) :
  attempts provider (q :: rest) issued
  = match attempt_yield provider q with
    | Some text => (Some text, issued ++ [q])
    | None => attempts provider rest (issued ++ [q])
    end.
Proof.
  unfold attempt_yield. simpl. destruct (provider q) as [|data]; [reflexivity|].
  destruct (inspect data); reflexivity.
Qed.

(** The requests made are the variants, in their order, up to the first one
    that yields a text. *)
Lemma attempts_issued (variants issued : list string) :
  exists done_, snd (attempts provider variants issued) = issued ++ done_
                /\ done_ `prefix_of` variants
                /\ (fst (attempts provider variants issued) = None -> done_ = variants).
Proof.
  revert issued. induction variants as [|q rest IH]; intros issued.
  - exists []. simpl. rewrite app_nil_r. repeat split. reflexivity.
  - rewrite attempts_step. destruct (attempt_yield provider q) as [text|].
    + exists [q]. simpl. repeat split; [|discriminate].
      exists rest. reflexivity.
    + destruct (IH (issued ++ [q])) as (d & Hd & Hp & Hn).
      exists (q :: d). rewrite Hd, <- app_assoc. repeat split.
      * now apply prefix_cons.
      * intros H. now rewrite (Hn H).
Qed.

(** The loop stops at the first variant that yields: it is the last request
    made, and its text is the result. *)
Lemma attempts_first_yield (before : list string) (v : string)
  (after issued : list string) (text : string) :
  Forall (fun q => attempt_yield provider q = None) before ->
  attempt_yield provider v = Some text ->
  attempts provider (before ++ v :: after) issued
  = (Some text, issued ++ before ++ [v]).
Proof.
  intros Hbefore Hv. revert issued.
  induction Hbefore as [|q before Hq _ IH]; intros issued; cbn [app].
  - now rewrite attempts_step, Hv.
  - rewrite attempts_step, Hq, IH, <- app_assoc. reflexivity.
Qed.

(** Without a variant that yields, every variant is requested. *)
Lemma attempts_no_yield (variants issued : list string) :
  Forall (fun q => attempt_yield provider q = None) variants ->
  attempts provider variants issued = (None, issued ++ variants).
Proof.
  intros H. revert issued.
  induction H as [|q variants Hq _ IH]; intros issued.
  - cbn [attempts]. now rewrite app_nil_r.
  - rewrite attempts_step, Hq, IH, <- app_assoc. reflexivity.
Qed.

(** C5, as the code has it: five variants are built, in the order given, and
    only the first [max_retries] of them (three, as [web_search] calls the
    function) are ever requested, in that order and up to the first one that
    yields a text: the requests made are the variants before it and that
    variant, no other, and its text is the result; when no variant yields,
    all of those were requested and the result is [None].  With the first two
    variants yielding nothing and the third a text, the requests are exactly
    these three. *)
Theorem variants_in_order (query api_key : string) (max_retries : nat) :
  query_variations query
  = [ query; query +:+ " definition"; "what is " +:+ query; query +:+ " explained";
      Py.replace "power" "specifications" (Py.replace "power of" "thrust" query) ]
  /\ (forall before v after text,
        take max_retries (query_variations query) = before ++ v :: after ->
        Forall (fun q => attempt_yield provider q = None) before ->
        attempt_yield provider v = Some text ->
        _search_with_serpapi provider query api_key max_retries
        = (Some text, before ++ [v]))
  /\ (Forall (fun q => attempt_yield provider q = None)
             (take max_retries (query_variations query)) ->
      _search_with_serpapi provider query api_key max_retries
      = (None, take max_retries (query_variations query)))
  /\ snd (_search_with_serpapi provider query api_key max_retries)
       `prefix_of` take max_retries (query_variations query)
  /\ (fst (_search_with_serpapi provider query api_key max_retries) = None ->
      snd (_search_with_serpapi provider query api_key max_retries)
      = take max_retries (query_variations query))
  /\ length (snd (web_search_log provider (Some api_key) query)) <= 3
  /\ (forall serpapi_key text,
        truthy serpapi_key = true ->
        attempt_yield provider query = None ->
        attempt_yield provider (query +:+ " definition") = None ->
        attempt_yield provider ("what is " +:+ query) = Some text ->
        web_search_log provider serpapi_key query
        = (Some text, [query; query +:+ " definition"; "what is " +:+ query])).
Proof.
  split; [reflexivity|].
  split.
  { intros before v after text Hsplit Hbefore Hv.
    unfold _search_with_serpapi. rewrite Hsplit.
    now rewrite (attempts_first_yield before v after [] text). }
  split.
  { intros Hnone. unfold _search_with_serpapi.
    now rewrite attempts_no_yield. }
  unfold _search_with_serpapi.
  destruct (attempts_issued (take max_retries (query_variations query)) [])
    as (d & Hd & Hp & Hn).
  simpl in Hd. rewrite Hd.
  split; [assumption|]. split; [assumption|]. split.
  - unfold web_search_log. destruct (truthy (Some api_key)); [|simpl; lia].
    unfold _search_with_serpapi.
    destruct (attempts_issued (take default_max_retries (query_variations query)) [])
      as (d' & Hd' & Hp' & _).
    simpl app in Hd'. rewrite Hd'.
    apply prefix_length in Hp'. rewrite length_take in Hp'.
    unfold default_max_retries in Hp'. lia.
  - intros serpapi_key text Hkey H1 H2 H3.
    unfold web_search_log, _search_with_serpapi, default_max_retries.
    rewrite Hkey.
    change (take 3 (query_variations query))
      with [query; query +:+ " definition"; "what is " +:+ query].
    now rewrite attempts_step, H1, attempts_step, H2, attempts_step, H3.
Qed.

End SearchProperties.

Lemma variants_in_order_witness :
  web_search_log third_time_provider (Some "key") "GE90"
  = (Some "Direct answer: a turbofan", ["GE90"; "GE90 definition"; "what is GE90"]).
Proof.
  exact (proj2 (proj2 (proj2 (proj2 (proj2 (proj2
           (variants_in_order third_time_provider "GE90" "key" 3))))))
           (Some "key") "Direct answer: a turbofan" eq_refl eq_refl eq_refl eq_refl).
Defined.

(** C5 as stated fails: the fourth variant is never requested through
    [web_search], whose chain stops after three variants, and a call with a
    larger [max_retries] requests the five variants, one more than four. *)
Lemma fourth_variant_counterexample :
  web_search_log failing_provider (Some "key") "GE90"
  = (None, ["GE90"; "GE90 definition"; "what is GE90"])
  /\ snd (_search_with_serpapi failing_provider "GE90" "key" 5)
     = ["GE90"; "GE90 definition"; "what is GE90"; "GE90 explained"; "GE90"].
Proof. split; reflexivity. Qed.

(** ** C6: what is read from a payload *)

(** The bullet and its space count for two characters, as in the code. *)
Example bullet_length (snippet : string) :
  String.length (bullet +:+ " " +:+ snippet) = 2 + String.length snippet.
Proof. reflexivity. Qed.

Lemma kept_snippets_filter (rs : list OrganicResult) :
  kept_snippets rs
  = map (fun s => bullet +:+ " " +:+ s)
        (List.filter (fun s => 21 <=? String.length (Py.strip s)) (omap or_snippet rs)).
Proof.
  induction rs as [|r rs IH]; [reflexivity|].
  cbn [kept_snippets]. rewrite IH. clear IH.
  cbn [omap list_omap]. destruct (or_snippet r) as [s|]; [|reflexivity].
  cbn [List.filter]. unfold Nat.ltb.
  destruct (21 <=? String.length (Py.strip s)); reflexivity.
Qed.

Lemma organic_part (rs : option (list OrganicResult)) :
  match rs with
  | Some rs =>
      if 0 <? length rs then
        match kept_snippets (take 2 rs) with
        | [] => None
        | results => Some ("Search results:" +:+ nl +:+ Py.join nl results)
        end
      else None
  | None => None
  end
  = match List.filter (fun s => 21 <=? String.length (Py.strip s))
                      (omap or_snippet (take 2 (default [] rs))) with
    | [] => None
    | kept => Some ("Search results:" +:+ nl
                    +:+ Py.join nl (map (fun s => bullet +:+ " " +:+ s) kept))
    end.
Proof.
  destruct rs as [rs|]; [|reflexivity]. cbn [default].
  destruct rs as [|r rs]; [reflexivity|].
  change (0 <? length (r :: rs)) with true. cbv iota.
  rewrite kept_snippets_filter.
  destruct (List.filter _ _); reflexivity.
Qed.

(** C6, as the code has it: a payload is read in the order (1) the answer of
    the answer box, then the snippet of the answer box, (2) the description of
    the knowledge graph, (3) the snippets of the first two organic results
    whose stripped text is longer than 20 characters (21 or more); the first
    of these that is present is returned, and without any of them the payload
    yields nothing.  The chain returns on the first variant that yields: when
    the payload is the reply to a variant, the variants before it yield
    nothing and the payload yields a text, that text is the result and that
    variant the last request made. *)
Theorem inspect_priority (data : SerpData) :
  (forall a, direct_answer data = Some a ->
             inspect data = Some ("Direct answer: " +:+ a))
  /\ (forall s, direct_answer data = None -> box_snippet data = Some s ->
                inspect data = Some ("Answer: " +:+ s))
  /\ (forall d, direct_answer data = None -> box_snippet data = None ->
                graph_description data = Some d ->
                inspect data = Some ("Info: " +:+ d))
  /\ (direct_answer data = None -> box_snippet data = None ->
      graph_description data = None ->
      inspect data
      = match qualifying_snippets data with
        | [] => None
        | kept => Some ("Search results:" +:+ nl
                        +:+ Py.join nl (map (fun s => bullet +:+ " " +:+ s) kept))
        end)
  /\ (forall provider query api_key max_retries text,
        0 < max_retries -> attempt_yield provider query = Some text ->
        _search_with_serpapi provider query api_key max_retries = (Some text, [query]))
  /\ (forall provider query api_key max_retries before v after,
        take max_retries (query_variations query) = before ++ v :: after ->
        Forall (fun q => attempt_yield provider q = None) before ->
        provider v = Payload data ->
        is_Some (inspect data) ->
        _search_with_serpapi provider query api_key max_retries
        = (inspect data, before ++ [v])).
Proof.
  destruct data as [box kg rs].
  unfold direct_answer, box_snippet, graph_description, qualifying_snippets, inspect.
  cbn [answer_box knowledge_graph organic_results].
  split; [|split; [|split; [|split; [|split]]]].
  - intros a H. destruct box as [[a' s']|]; simpl in H; [|discriminate].
    subst a'. reflexivity.
  - intros s H1 H2. destruct box as [[a' s']|]; simpl in H1, H2; [|discriminate].
    subst a' s'. reflexivity.
  - intros d H1 H2 H3. destruct kg as [[d']|]; simpl in H3; [|discriminate].
    subst d'. destruct box as [[a' s']|]; simpl in H1, H2; [subst a' s'|]; reflexivity.
  - intros H1 H2 H3. rewrite <- organic_part.
    destruct kg as [[d']|]; simpl in H3; [subst d'|];
      (destruct box as [[a' s']|]; simpl in H1, H2; [subst a' s'|]; reflexivity).
  - intros provider query api_key [|n] text Hn Hy; [lia|].
    unfold _search_with_serpapi. simpl take. now rewrite attempts_step, Hy.
  - intros provider query api_key max_retries before v after Hsplit Hbefore Hv
           [text Htext].
    unfold _search_with_serpapi. rewrite Hsplit.
    rewrite (attempts_first_yield provider before v after [] text Hbefore).
    + change (inspect {| answer_box := box; knowledge_graph := kg;
                         organic_results := rs |} = Some text) in Htext.
      now rewrite <- Htext.
    + unfold attempt_yield. now rewrite Hv.
Qed.

Lemma inspect_priority_witness :
  inspect {| answer_box := Some {| ab_answer := None; ab_snippet := None |};
             knowledge_graph := Some {| kg_description := None |};
             organic_results :=
               Some [ {| or_snippet := Some "The capital is Paris" |};
                      {| or_snippet := Some " Paris is the capital.   " |};
                      {| or_snippet := Some "Paris has been the capital since 987." |} ] |}
  = Some ("Search results:" +:+ nl +:+ bullet +:+ "  Paris is the capital.   ").
Proof.
  exact (proj1 (proj2 (proj2 (proj2 (inspect_priority
           {| answer_box := Some {| ab_answer := None; ab_snippet := None |};
              knowledge_graph := Some {| kg_description := None |};
              organic_results :=
                Some [ {| or_snippet := Some "The capital is Paris" |};
                       {| or_snippet := Some " Paris is the capital.   " |};
                       {| or_snippet := Some "Paris has been the capital since 987." |} ] |}))))
           eq_refl eq_refl eq_refl).
Defined.

(** C6 as stated fails: a snippet of exactly 20 characters does not qualify;
    the payload yields nothing and the chain goes through all its variants. *)
Lemma snippet_of_twenty_counterexample :
  String.length "The capital is Paris" = 20
  /\ inspect {| answer_box := None; knowledge_graph := None;
                organic_results := Some [ {| or_snippet := Some "The capital is Paris" |} ] |}
     = None
  /\ web_search_log twenty_provider (Some "key") "capital of France"
     = (None, ["capital of France"; "capital of France definition";
               "what is capital of France"]).
Proof. repeat split; reflexivity. Qed.

(** ** C7: the exhausted chain *)

(** With a key set, a chain whose variants all yield nothing returns [None]. *)
Lemma exhausted_chain_none (provider : string -> Response)
  (serpapi_key : option string) (query : string) :
  truthy serpapi_key = true ->
  (forall v, attempt_yield provider v = None) ->
  web_search_log provider serpapi_key query
  = (None, take default_max_retries (query_variations query)).
Proof.
  intros Hkey Hnone. unfold web_search_log, _search_with_serpapi. rewrite Hkey.
  simpl take. now rewrite !attempts_step, !Hnone.
Qed.

(** C7, the code at a failing input: with a key set and a provider whose
    requests all fail, the three errors are passed over, and then [web_search]
    returns [None], not a text; the agent loop shows it to the model as the
    observation [None], and [verify_result] fails on it. *)
Lemma exhausted_chain_returns_none :
  web_search_log failing_provider (Some "key") "capital of France"
  = (None, ["capital of France"; "capital of France definition";
            "what is capital of France"])
  /\ messages (snd (cycle (fun _ => "Action: web_search: capital of France")
                          (search_tools failing_provider (Some "key"))
                          (initial_state "" "q")))
     = messages (initial_state "" "q")
       ++ [ {| role := assistant; content := "Action: web_search: capital of France" |};
            {| role := user; content := "Observation: None" |} ]
  /\ verify_result (fun l => remove_dups l) failing_provider (Some "key") "Paris"
     = "Multi-source verification failed: argument of type 'NoneType' is not iterable. Consider manually double-checking your result using alternative methods or sources.".
Proof. repeat split; vm_compute; reflexivity. Qed.

(** ** C10: verification without a key *)

Lemma web_search_no_key (provider : string -> Response)
  (serpapi_key : option string) (query : string) :
  truthy serpapi_key = false ->
  web_search provider serpapi_key query = Some "No SerpAPI key found".
Proof. intros H. unfold web_search, web_search_log. now rewrite H. Qed.

Lemma four_queries (description : string) :
  exists q1 q2 q3 q4, _generate_verification_queries description = [q1; q2; q3; q4].
Proof. unfold _generate_verification_queries. do 4 eexists. reflexivity. Qed.

(** C10: without a key (the variable unset or empty) every search of
    [verify_result] returns the text of the missing key, each of the four
    sources counts as valid, and the report, for every description, is the
    one that states success with 4 sources and lists no number found. *)
Theorem no_key_verification
  (set_items : list string -> list string) (provider : string -> Response)
  (serpapi_key : option string) (description : string) :
  truthy serpapi_key = false ->
  (forall query, web_search provider serpapi_key query = Some "No SerpAPI key found")
  /\ exists q1 q2 q3 q4,
       _generate_verification_queries description = [q1; q2; q3; q4]
       /\ report_lines set_items
            (run_searches provider serpapi_key 1
               (_generate_verification_queries description)) description
          = Returned (no_key_report description q1 q2 q3 q4)
       /\ verify_result set_items provider serpapi_key description
          = Py.join nl (no_key_report description q1 q2 q3 q4).
Proof.
  intros Hkey. split; [intros; now apply web_search_no_key|].
  destruct (four_queries description) as (q1 & q2 & q3 & q4 & Hq).
  exists q1, q2, q3, q4. split; [assumption|].
  assert (report_lines set_items
            (run_searches provider serpapi_key 1
               (_generate_verification_queries description)) description
          = Returned (no_key_report description q1 q2 q3 q4)) as Hreport.
  { rewrite Hq. cbn [run_searches]. rewrite !web_search_no_key by assumption.
    reflexivity. }
  split; [assumption|].
  unfold verify_result, _analyze_verification_results. now rewrite Hreport.
Qed.

Lemma no_key_verification_witness :
  verify_result (fun l => l) failing_provider None "GE90 engine produces 55,000 horsepower"
  = Py.join nl
      (no_key_report "GE90 engine produces 55,000 horsepower"
         "verify check validate GE90 engine produces 55,000 horsepower"
         "ge90 engine produces 55,000 horsepower technical specifications datasheet"
         "ge90 engine produces 55,000 horsepower multiple sources comparison"
         "ge90 engine produces 55,000 horsepower official manufacturer specifications").
Proof.
  destruct (proj2 (no_key_verification (fun l => l) failing_provider None
                     "GE90 engine produces 55,000 horsepower" eq_refl))
    as (q1 & q2 & q3 & q4 & Hq & _ & Hv).
  vm_compute in Hq. injection Hq as <- <- <- <-. exact Hv.
Defined.

(** ** C9: one entry for each pair of role and content *)

Section ExportProperties.

Context {Datetime : Type}.
Variable isoformat : Datetime -> string.
Variable strftime_date : Datetime -> string.
Variable strftime_time : Datetime -> string.
Variable fromisoformat : string -> option Datetime.
Variable upper : string -> string.

Implicit Types (l h : list (Message Datetime)) (k : string * string).

Lemma stamp_key (m : Message Datetime) :
  message_key (stamp Datetime isoformat m) = message_key m.
Proof. unfold stamp. destruct (m_timestamp m) as [[d|s]|]; reflexivity. Qed.

Lemma insert_sorted_perm (x : Message Datetime) l :
  insert_sorted Datetime isoformat x l ≡ₚ x :: l.
Proof.
  induction l as [|y l IH]; simpl; [reflexivity|].
  destruct (String.leb _ _); [reflexivity|].
  rewrite IH. apply Permutation_swap.
Qed.

Lemma sorted_perm l : sorted Datetime isoformat l ≡ₚ l.
Proof.
  induction l as [|x l IH]; simpl; [reflexivity|].
  now rewrite insert_sorted_perm, IH.
Qed.

(** The deduplication keeps one message for each key met. *)
Lemma dedup_spec l :
  forall (seen : gset (string * string)) (unique : list (Message Datetime)),
    (forall k, k ∈ seen <-> k ∈ message_key <$> unique) ->
    NoDup (message_key <$> unique) ->
    NoDup (message_key <$> dedup Datetime l seen unique)
    /\ forall k, k ∈ message_key <$> dedup Datetime l seen unique
                 <-> k ∈ message_key <$> unique \/ k ∈ message_key <$> l.
Proof.
  induction l as [|m l IH]; intros seen unique Hseen Hnd; simpl.
  - split; [assumption|]. intros k. rewrite elem_of_nil. tauto.
  - destruct (decide (message_key m ∈ seen)) as [Hin|Hnin].
    + destruct (IH seen unique Hseen Hnd) as [H1 H2]. split; [assumption|].
      intros k. rewrite H2, elem_of_cons. split; [tauto|].
      intros [H|[->|H]]; [tauto | left; now apply Hseen | tauto].
    + destruct (IH ({[message_key m]} ∪ seen) (unique ++ [m])) as [H1 H2].
      * intros k. rewrite fmap_app, elem_of_app, elem_of_union, elem_of_singleton.
        simpl. rewrite list_elem_of_singleton, Hseen. tauto.
      * rewrite fmap_app. simpl. apply NoDup_app. split; [assumption|].
        split; [|apply NoDup_singleton].
        intros k Hk ->%list_elem_of_singleton. apply Hnin. now apply Hseen.
      * split; [assumption|]. intros k. rewrite H2, fmap_app, elem_of_app.
        simpl. rewrite list_elem_of_singleton, elem_of_cons. tauto.
Qed.

Lemma unique_messages_keys h :
  NoDup (message_key <$> unique_messages Datetime isoformat h)
  /\ forall k, k ∈ message_key <$> unique_messages Datetime isoformat h
               <-> k ∈ message_key <$> h.
Proof.
  unfold unique_messages.
  destruct (dedup_spec (sorted Datetime isoformat (map (stamp Datetime isoformat) h)) ∅ [])
    as [H1 H2].
  - intros k. simpl. rewrite elem_of_nil. set_solver.
  - apply NoDup_nil_2.
  - split; [assumption|]. intros k. rewrite H2. simpl. rewrite elem_of_nil.
    rewrite sorted_perm.
    change (map (stamp Datetime isoformat) h) with (stamp Datetime isoformat <$> h).
    rewrite <- list_fmap_compose.
    rewrite (list_fmap_ext (message_key ∘ stamp Datetime isoformat) message_key h);
      [tauto | intros; apply stamp_key].
Qed.

Lemma count_key_once l k :
  NoDup (message_key <$> l) -> k ∈ message_key <$> l ->
  length (List.filter (fun m => bool_decide (message_key m = k)) l) = 1.
Proof.
  induction l as [|m l IH]; intros Hnd Hin; simpl in *.
  - now apply elem_of_nil in Hin.
  - apply NoDup_cons in Hnd as [Hm Hnd]. apply elem_of_cons in Hin.
    destruct (bool_decide_reflect (message_key m = k)) as [<-|Hne]; simpl.
    + f_equal. apply length_zero_iff_nil.
      clear IH Hin Hnd. induction l as [|m' l IH']; [reflexivity|]. simpl.
      rewrite fmap_cons in Hm. apply not_elem_of_cons in Hm as [Hne Hm].
      rewrite bool_decide_false by congruence. now apply IH'.
    + apply IH; [assumption|]. destruct Hin as [->|Hin]; [congruence | assumption].
Qed.

(** Each message formatted gives one line that carries it. *)
Lemma format_messages_entries l k :
  forall current_date,
    length (List.filter (is_entry_of k)
              (format_messages Datetime strftime_date strftime_time fromisoformat
                 current_date l))
    = length (List.filter (fun m => bool_decide (message_key m = k)) l).
Proof.
  assert (forall cd d (rest : list (Piece Datetime)),
            List.filter (is_entry_of k) (date_header Datetime cd d ++ rest)
            = List.filter (is_entry_of k) rest) as Hdate.
  { intros cd d rest. unfold date_header. destruct (decide _); reflexivity. }
  induction l as [|m l IH]; intros cd; [reflexivity|].
  cbn [format_messages].
  destruct (m_timestamp m) as [[d|s]|].
  - rewrite Hdate. simpl. destruct (bool_decide _); simpl; now rewrite IH.
  - destruct (fromisoformat _) as [dt|].
    + rewrite Hdate. simpl. destruct (bool_decide _); simpl; now rewrite IH.
    + simpl. destruct (bool_decide _); simpl; now rewrite IH.
  - simpl. destruct (bool_decide _); simpl; now rewrite IH.
Qed.

(** The text joined without a separator is the texts one after the other. *)
Lemma join_empty_app (a b : list string) :
  Py.join "" (a ++ b) = Py.join "" a +:+ Py.join "" b.
Proof.
  induction a as [|x a IH]; [reflexivity|].
  cbn [app]. destruct a as [|y a].
  - cbn [app Py.join]. destruct b as [|z b]; [now rewrite append_nil_r | reflexivity].
  - change (Py.join "" (x :: (y :: a) ++ b)) with (x +:+ Py.join "" ((y :: a) ++ b)).
    change (Py.join "" (x :: y :: a)) with (x +:+ Py.join "" (y :: a)).
    now rewrite IH, append_assoc.
Qed.

Lemma join_empty_cons (x : string) (l : list string) :
  Py.join "" (x :: l) = x +:+ Py.join "" l.
Proof. apply (join_empty_app [x] l). Qed.

(** A list with one element that passes a test is cut at that element. *)
Lemma filter_length_one {A : Type} (p : A -> bool) (l : list A) :
  length (List.filter p l) = 1 ->
  exists before x after,
    l = before ++ x :: after /\ p x = true
    /\ Forall (fun y => p y = false) (before ++ after).
Proof.
  induction l as [|y l IH]; [discriminate|]. cbn [List.filter].
  destruct (p y) eqn:Hy; cbn [length]; intros Hlen.
  - exists [], y, l. repeat split; [assumption|]. cbn [app].
    injection Hlen as Hlen. apply length_zero_iff_nil in Hlen.
    apply Forall_forall. intros z Hz. destruct (p z) eqn:Hpz; [|reflexivity].
    assert (In z (List.filter p l)) as Hin
      by (apply filter_In; split; [now apply list_elem_of_In | assumption]).
    rewrite Hlen in Hin. contradiction.
  - destruct (IH Hlen) as (before & x & after & -> & Hx & Hrest).
    exists (y :: before), x, after. repeat split; [assumption|].
    cbn [app]. now constructor.
Qed.

(** C9: in the export of any chat history, two messages with the same role
    and the same content, whatever their timestamps and ids, are rendered by
    exactly one entry: the text that [format_chat_history_for_email] returns
    is made of the text of the pieces before that entry, the line of the
    entry, with its time, its role in upper case and the content of the two
    messages, and the text of the pieces after it, and no piece before or
    after it is an entry for that role and content. *)
Theorem one_entry_per_key h (m1 m2 : Message Datetime) :
  m1 ∈ h -> m2 ∈ h -> message_key m1 = message_key m2 ->
  length (List.filter (is_entry_of (message_key m1))
            (export_pieces Datetime isoformat strftime_date strftime_time
               fromisoformat h)) = 1
  /\ exists before entry timestamp_str after,
       export_pieces Datetime isoformat strftime_date strftime_time fromisoformat h
       = before ++ MessageLine entry timestamp_str :: after
       /\ message_key entry = message_key m1
       /\ Forall (fun p => is_entry_of (message_key m1) p = false) (before ++ after)
       /\ format_chat_history_for_email Datetime isoformat strftime_date
            strftime_time fromisoformat upper h
          = Py.join "" (map (render Datetime upper) before)
            +:+ ("[" +:+ timestamp_str +:+ "] "
                 +:+ upper (default "unknown" (m_role entry)) +:+ ": "
                 +:+ default "" (m_content m2) +:+ nl)
            +:+ Py.join "" (map (render Datetime upper) after).
Proof.
  intros H1 _ Hkey.
  assert (length (List.filter (is_entry_of (message_key m1))
                    (export_pieces Datetime isoformat strftime_date strftime_time
                       fromisoformat h)) = 1) as Hone.
  { unfold export_pieces. simpl.
    rewrite format_messages_entries.
    destruct (unique_messages_keys h) as [Hnd Hk].
    apply count_key_once; [assumption|]. apply Hk.
    now apply list_elem_of_fmap_2. }
  split; [exact Hone|].
  destruct (filter_length_one _ _ Hone) as (before & piece & after & Hsplit & Hpiece & Hrest).
  destruct piece as [| |entry timestamp_str]; try discriminate Hpiece.
  cbn [is_entry_of] in Hpiece. apply bool_decide_eq_true in Hpiece.
  exists before, entry, timestamp_str, after.
  split; [exact Hsplit|]. split; [exact Hpiece|]. split; [exact Hrest|].
  unfold format_chat_history_for_email. rewrite Hsplit, map_app, join_empty_app.
  cbn [map]. rewrite join_empty_cons. cbn [render].
  assert (default "" (m_content entry) = default "" (m_content m2)) as ->.
  { rewrite Hkey in Hpiece. unfold message_key in Hpiece. congruence. }
  reflexivity.
Qed.

End ExportProperties.

Lemma one_entry_per_key_witness :
  length (List.filter (is_entry_of ("user", "hello"))
            (export_pieces (string * string) (fun d => fst d +:+ "T" +:+ snd d)
               fst snd (fun _ => None) sample_history)) = 1
  /\ exists before entry timestamp_str after,
       export_pieces (string * string) (fun d => fst d +:+ "T" +:+ snd d)
         fst snd (fun _ => None) sample_history
       = before ++ MessageLine entry timestamp_str :: after
       /\ message_key entry = ("user", "hello")
       /\ Forall (fun p => is_entry_of ("user", "hello") p = false) (before ++ after)
       /\ format_chat_history_for_email (string * string)
            (fun d => fst d +:+ "T" +:+ snd d) fst snd (fun _ => None) upper_ascii
            sample_history
          = Py.join "" (map (render (string * string) upper_ascii) before)
            +:+ ("[" +:+ timestamp_str +:+ "] "
                 +:+ upper_ascii (default "unknown" (m_role entry)) +:+ ": "
                 +:+ "hello" +:+ nl)
            +:+ Py.join "" (map (render (string * string) upper_ascii) after).
Proof.
  apply (one_entry_per_key (fun d => fst d +:+ "T" +:+ snd d) fst snd (fun _ => None)
           upper_ascii sample_history
           (sample_message "a1" "user" "hello" "2024-05-01" "10:00:00")
           (sample_message "c3" "user" "hello" "2024-05-02" "09:30:00")).
  - apply elem_of_cons. now left.
  - apply elem_of_cons. right. apply elem_of_cons. right. apply elem_of_cons. now left.
  - reflexivity.
Defined.

Example sample_export :
  format_chat_history_for_email (string * string) (fun d => fst d +:+ "T" +:+ snd d)
    fst snd (fun _ => None) upper_ascii sample_history
  = "=== CHAT HISTORY ===" +:+ nl +:+ nl
    +:+ "[Date: 2024-05-01]" +:+ nl
    +:+ "[10:00:00] USER: hello" +:+ nl
    +:+ "[10:00:02] ASSISTANT: hi there" +:+ nl.
Proof. reflexivity. Qed.

(** ** C1: the calculator *)

(** An exception of [eval] is never passed on: the result is a text, the one
    of the value or [Error:] and the message. *)
Lemma calculator_catches (expression message : string) :
  Calc.eval expression allowed_names = Some (Raised message) ->
  calculator expression = Some ("Error: " +:+ message).
Proof. unfold calculator. now intros ->. Qed.

Example calculator_sum : calculator "2 + 3" = Some "5".
Proof. reflexivity. Qed.

Example calculator_import :
  calculator "import os" = Some "Error: invalid syntax (<string>, line 1)".
Proof. reflexivity. Qed.

Example calculator_free_name :
  calculator "os" = Some "Error: name 'os' is not defined".
Proof. reflexivity. Qed.

Example calculator_functions :
  calculator "-2**2 + max(1, 2, abs(-7)) * pow(2, 10)" = Some "7164".
Proof. vm_compute. reflexivity. Qed.

(** C1, the code at a failing input: names outside the five functions are
    accepted as attributes, and through them the evaluation reaches the
    classes of the interpreter; the result is the text of a class, not an
    error.  The key [__builtins__] of the globals is a name of the
    expression as well. *)
Lemma calculator_reaches_classes :
  calculator "().__class__" = Some "<class 'tuple'>"
  /\ calculator "().__class__.__base__" = Some "<class 'object'>"
  /\ calculator "abs.__class__" = Some "<class 'builtin_function_or_method'>"
  /\ calculator "__builtins__" = Some "{}".
Proof. repeat split; vm_compute; reflexivity. Qed.

(** * Further properties *)

(** ** The run as a whole *)

Section RunProperties.

Variable llm : list Turn -> string.
Variable tools : gmap string ToolEntry.

Lemma cycle_added (st : AgentState) :
  exists added,
    messages (snd (cycle llm tools st)) = messages st ++ added
    /\ Forall loop_turn added
    /\ length added <= 2.
Proof.
  unfold cycle.
  destruct (Py.contains final_marker (llm (messages st))).
  - eexists. split; [reflexivity|]. split; [|simpl; lia].
    repeat constructor.
  - destruct (parse_action (llm (messages st))) as [[name input]|].
    + destruct (tools !! name); simpl; rewrite <- app_assoc;
        (eexists; split; [reflexivity|]; split; [|simpl; lia]);
        repeat constructor; right; split; reflexivity.
    + eexists. split; [reflexivity|]. split; [|simpl; lia]. repeat constructor.
Qed.

Lemma run_loop_added (n : nat) (st : AgentState) :
  exists added,
    messages (snd (run_loop llm tools n st)) = messages st ++ added
    /\ Forall loop_turn added
    /\ length added <= 2 * n.
Proof.
  revert st. induction n as [|n IH]; intros st; simpl.
  - exists []. rewrite app_nil_r. repeat split; [constructor | simpl; lia].
  - destruct (cycle_added st) as (a1 & H1 & F1 & L1).
    destruct (cycle llm tools st) as [[answer|] st']; simpl in *.
    + exists a1. repeat split; [assumption.. | lia].
    + destruct (IH st') as (a2 & H2 & F2 & L2).
      exists (a1 ++ a2). rewrite H2, H1, <- app_assoc.
      repeat split; [now apply Forall_app | rewrite length_app; lia].
Qed.

(** X1: a run keeps the two turns it starts from (the system prompt and the
    question) at the head of the transcript, every turn it adds is a reply of
    the model or a user turn that starts with [Observation: ], and it adds at
    most two turns for each iteration allowed. *)
Theorem run_transcript (max_iterations : nat) (system_prompt question : string) :
  exists added,
    messages (snd (run llm tools max_iterations system_prompt question))
    = [ {| role := system; content := system_prompt |};
        {| role := user; content := question |} ] ++ added
    /\ Forall loop_turn added
    /\ length added <= 2 * max_iterations.
Proof.
  unfold run.
  apply (run_loop_added max_iterations (initial_state system_prompt question)).
Qed.

Lemma cycle_invocations (st : AgentState) :
  invocations (snd (cycle llm tools st)) = invocations st
  \/ exists name input,
       invocations (snd (cycle llm tools st)) = (name, input) :: invocations st
       /\ is_Some (tools !! name).
Proof.
  unfold cycle.
  destruct (Py.contains final_marker (llm (messages st))); [now left|].
  destruct (parse_action (llm (messages st))) as [[name input]|]; [|now left].
  destruct (tools !! name) eqn:E; [|now left].
  right. exists name, input. split; [reflexivity|]. rewrite E. eauto.
Qed.

Lemma run_loop_invocations (n : nat) (st : AgentState) :
  Forall (fun call => is_Some (tools !! call.1)) (invocations st) ->
  length (invocations st) <= completions st ->
  Forall (fun call => is_Some (tools !! call.1))
         (invocations (snd (run_loop llm tools n st)))
  /\ length (invocations (snd (run_loop llm tools n st)))
     <= completions (snd (run_loop llm tools n st)).
Proof.
  revert st. induction n as [|n IH]; intros st HF HL; simpl; [now split|].
  pose proof (cycle_completions llm tools st) as Hc.
  pose proof (cycle_invocations st) as Hi.
  assert (Forall (fun call => is_Some (tools !! call.1))
                 (invocations (snd (cycle llm tools st)))
          /\ length (invocations (snd (cycle llm tools st)))
             <= completions (snd (cycle llm tools st))) as [HF' HL'].
  { rewrite Hc. destruct Hi as [->|(name & input & -> & Hreg)].
    - split; [assumption | lia].
    - split; [now constructor | simpl; lia]. }
  destruct (cycle llm tools st) as [[answer|] st']; simpl in *; [now split|].
  now apply IH.
Qed.

(** X2: a run calls only tools that are registered, and at most one tool for
    each completion it asked for. *)
Theorem run_calls_registered_tools
  (max_iterations : nat) (system_prompt question : string) :
  (forall name input,
      (name, input)
        ∈ invocations (snd (run llm tools max_iterations system_prompt question)) ->
      is_Some (tools !! name))
  /\ length (invocations (snd (run llm tools max_iterations system_prompt question)))
     <= completions (snd (run llm tools max_iterations system_prompt question)).
Proof.
  destruct (run_loop_invocations max_iterations
              (initial_state system_prompt question)) as [HF HL];
    [constructor | simpl; lia |].
  split; [|exact HL].
  intros name input Hin.
  apply (proj1 (Forall_forall _ _) HF (name, input) Hin).
Qed.

Lemma cycle_answer (st : AgentState) (answer : string) :
  fst (cycle llm tools st) = Some answer ->
  answer = final_answer (llm (messages st))
  /\ Py.contains final_marker (llm (messages st)) = true
  /\ last (messages (snd (cycle llm tools st)))
     = Some {| role := assistant; content := llm (messages st) |}.
Proof.
  unfold cycle.
  destruct (Py.contains final_marker (llm (messages st))).
  - simpl. intros [= <-]. repeat split. apply last_snoc.
  - destruct (parse_action (llm (messages st))) as [[name input]|]; [|discriminate].
    destruct (tools !! name); discriminate.
Qed.

Lemma run_loop_result (n : nat) (st : AgentState) :
  (fst (run_loop llm tools n st) = exhausted
   /\ completions (snd (run_loop llm tools n st)) = completions st + n)
  \/ exists reply,
       last (messages (snd (run_loop llm tools n st)))
       = Some {| role := assistant; content := reply |}
       /\ Py.contains final_marker reply = true
       /\ fst (run_loop llm tools n st) = final_answer reply.
Proof.
  revert st. induction n as [|n IH]; intros st; simpl.
  - left. split; [reflexivity | lia].
  - pose proof (cycle_completions llm tools st) as Hc.
    pose proof (cycle_answer st) as Ha.
    destruct (cycle llm tools st) as [[answer|] st']; simpl in *.
    + right. destruct (Ha answer eq_refl) as (-> & Hm & Hl).
      exists (llm (messages st)). now repeat split.
    + destruct (IH st') as [[He Hn]|Hr]; [left; split; [assumption | lia] | now right].
Qed.

(** X3: what a run returns is either the fixed text of exhaustion, after
    exactly [max_iterations] completions, or the final answer read from the
    last turn of the transcript, which is then a reply of the model that
    holds the marker. *)
Theorem run_result (max_iterations : nat) (system_prompt question : string) :
  (fst (run llm tools max_iterations system_prompt question) = exhausted
   /\ completions (snd (run llm tools max_iterations system_prompt question))
      = max_iterations)
  \/ exists reply,
       last (messages (snd (run llm tools max_iterations system_prompt question)))
       = Some {| role := assistant; content := reply |}
       /\ Py.contains final_marker reply = true
       /\ fst (run llm tools max_iterations system_prompt question)
          = final_answer reply.
Proof.
  unfold run.
  destruct (run_loop_result max_iterations (initial_state system_prompt question))
    as [[He Hn]|Hr]; [left | now right].
  split; [assumption | simpl in Hn; lia].
Qed.

(** X4: the reply names a registered tool in a well-formed action line and
    holds no final answer: the pass calls that tool once, on the input
    stripped, and adds the reply and the observation of the result of the
    tool to the transcript. *)
Theorem registered_tool_dispatch (st : AgentState) (entry : ToolEntry)
  (pre ws1 ws2 name input rest : string) (n i : ascii) :
  llm (messages st) = pre +:+ "Action:" +:+ ws1 +:+ String n name +:+ ":" +:+ ws2
                      +:+ String i input +:+ rest ->
  Py.contains final_marker (llm (messages st)) = false ->
  Py.find "Action:" (llm (messages st)) = Some (String.length pre) ->
  Py.all Py.isspace ws1 = true ->
  Py.isword n = true -> Py.all Py.isword name = true ->
  Py.all Py.isspace ws2 = true ->
  Py.isspace i = false -> Py.all Py.isdot input = true ->
  Py.head_in Py.isdot rest = false ->
  tools !! String n name = Some entry ->
  cycle llm tools st
  = (None,
     {| messages :=
          messages st
          ++ [ {| role := assistant; content := llm (messages st) |};
               {| role := user;
                  content := "Observation: "
                             +:+ Py.format (function entry (Py.strip (String i input))) |} ];
        completions := S (completions st);
        invocations := (String n name, Py.strip (String i input)) :: invocations st |}).
Proof.
  intros Hllm Hfinal Hfind Hws1 Hn Hname Hws2 Hi Hinput Hrest Htool.
  assert (parse_action (llm (messages st))
          = Some (String n name, Py.strip (String i input))) as Hparse.
  { unfold parse_action. rewrite Hllm in Hfind |- *.
    rewrite action_search_skip by assumption.
    rewrite (action_search_here _ (String n name, String i input));
      [reflexivity | now apply action_at_line]. }
  unfold cycle. rewrite Hfinal, Hparse, Htool. simpl.
  now rewrite <- app_assoc.
Qed.

End RunProperties.

Lemma registered_tool_dispatch_witness :
  cycle (fun _ => "Thought: look it up" +:+ nl +:+ "Action: web_search: GE90  ")
        (search_tools failing_provider None)
        (initial_state "" "q")
  = (None,
     {| messages :=
          messages (initial_state "" "q")
          ++ [ {| role := assistant;
                  content := "Thought: look it up" +:+ nl
                             +:+ "Action: web_search: GE90  " |};
               {| role := user; content := "Observation: No SerpAPI key found" |} ];
        completions := 1;
        invocations := [("web_search", "GE90")] |}).
Proof.
  exact (registered_tool_dispatch
           (fun _ => "Thought: look it up" +:+ nl +:+ "Action: web_search: GE90  ")
           (search_tools failing_provider None)
           (initial_state "" "q")
           {| function := web_search failing_provider None;
              description := "Searches the web for current information" |}
           ("Thought: look it up" +:+ nl) " " " " "eb_search" "E90  " "" "w" "G"
           eq_refl eq_refl eq_refl eq_refl eq_refl eq_refl eq_refl eq_refl eq_refl
           eq_refl eq_refl).
Defined.

(** ** The calculator on a name *)

Lemma open_with_name (c : ascii) :
  Calc.is_name_start c = true ->
  Calc.open_with c = Some ([], Some (Calc.PName (String c ""))).
Proof.
  destruct c as [b0 b1 b2 b3 b4 b5 b6 b7].
  destruct b0, b1, b2, b3, b4, b5, b6, b7; vm_compute; intros H;
    try discriminate H; reflexivity.
Qed.

Lemma lex_name (r acc : string) :
  Py.all Calc.is_name_char r = true ->
  Calc.lex (Some (Calc.PName acc)) r
  = (fun t => [t]) <$> Calc.close_partial (Calc.PName (acc +:+ r)).
Proof.
  revert acc. induction r as [|c r IH]; intros acc H.
  - now rewrite append_nil_r.
  - simpl in H. apply andb_true_iff in H as [Hc Hr].
    cbn [Calc.lex Calc.lex_step]. rewrite Hc.
    rewrite IH by assumption. rewrite append_assoc.
    now destruct (Calc.close_partial _).
Qed.

(** X5: a name of ASCII letters, digits and underscores that is no keyword
    of Python, not the constant [__debug__] and no key of [allowed_names]
    (the five functions and [__builtins__]), given alone, is not evaluated:
    the calculator answers with the error text that says the name is not
    defined. *)
Theorem calculator_unknown_name (c : ascii) (r : string) :
  Calc.is_name_start c = true ->
  Py.all Calc.is_name_char r = true ->
  bool_decide (String c r ∈ Calc.keywords) = false ->
  String c r <> "__debug__" ->
  allowed_names !! String c r = None ->
  calculator (String c r)
  = Some ("Error: name '" +:+ String c r +:+ "' is not defined").
Proof.
  intros Hc Hr Hkw Hdebug Hname.
  assert (Calc.lex None (String c r) = Some [Calc.TName (String c r)]) as Hlex.
  { cbn [Calc.lex Calc.lex_step]. rewrite open_with_name by assumption.
    rewrite lex_name by assumption. cbn [Calc.close_partial String.append].
    now rewrite Hkw. }
  unfold calculator, Calc.eval, Calc.parse. rewrite Hlex.
  cbn [Calc.has_keyword existsb orb]. simpl.
  unfold Calc.lookup_name. rewrite bool_decide_false by assumption.
  now rewrite Hname.
Qed.

(** The two names that the property leaves out are not answered so:
    [__builtins__] is a key of the globals, and [__debug__] is outside the
    fragment. *)
Example calculator_special_names :
  calculator "__builtins__" = Some "{}" /\ calculator "__debug__" = None.
Proof. split; reflexivity. Qed.

Lemma calculator_unknown_name_witness :
  calculator "os" = Some "Error: name 'os' is not defined".
Proof.
  exact (calculator_unknown_name "o" "s" eq_refl eq_refl eq_refl
           ltac:(discriminate) eq_refl).
Defined.

(** ** The demo search and the service search *)

(** X6: the demo search and the service search send the same requests; where
    the service search returns a text the demo search returns the same text,
    and where the service search returns [None] (the chain is exhausted) or
    has no key, the demo search answers from its knowledge base, on the
    query as it was given. *)
Theorem demo_search_and_service_search
  (today : string) (provider : string -> Response)
  (serpapi_key : option string) (query : string) :
  (truthy serpapi_key = true ->
   snd (Demo.web_search_log today provider serpapi_key query)
   = snd (web_search_log provider serpapi_key query)
   /\ Demo.web_search today provider serpapi_key query
      = default (Demo._search_knowledge_base today query)
                (web_search provider serpapi_key query))
  /\ (truthy serpapi_key = false ->
      Demo.web_search_log today provider serpapi_key query
      = (Demo._search_knowledge_base today query, [])).
Proof.
  unfold Demo.web_search, Demo.web_search_log, Demo._search_with_serpapi_retry,
    web_search, web_search_log, _search_with_serpapi.
  split; intros ->; [|reflexivity].
  destruct (attempts provider _ []) as [[text|] issued]; split; reflexivity.
Qed.

Lemma demo_search_and_service_search_witness :
  Demo.web_search "May 01, 2024" failing_provider (Some "key") "Capital of France?"
  = "The capital of France is Paris."
  /\ web_search failing_provider (Some "key") "Capital of France?" = None.
Proof.
  split; [|reflexivity].
  exact (proj2 (proj1 (demo_search_and_service_search "May 01, 2024" failing_provider
                         (Some "key") "Capital of France?") eq_refl)).
Defined.

Lemma find_first_match {A} (p : A -> bool) (l : list A) (x : A) :
  In x l -> p x = true -> exists y, List.find p l = Some y /\ In y l /\ p y = true.
Proof.
  intros Hin Hp. destruct (List.find p l) as [y|] eqn:E.
  - exists y. apply find_some in E. tauto.
  - exfalso. pose proof (find_none _ _ E x Hin) as H. congruence.
Qed.

(** X7: a question that mentions the word capital and a country of the table,
    in any letter case, is answered from the table of capitals, whatever else
    it mentions: with the capital of a country of the table that it
    mentions. *)
Theorem capital_question_answered
  (today query country capital : string) :
  In (country, capital) Demo.capitals ->
  Py.contains "capital" (Py.lower query) = true ->
  Py.contains country (Py.lower query) = true ->
  exists found,
    In found Demo.capitals
    /\ Py.contains found.1 (Py.lower query) = true
    /\ Demo._search_knowledge_base today query
       = "The capital of " +:+ Demo.title found.1 +:+ " is " +:+ found.2 +:+ ".".
Proof.
  intros Hin Hcap Hc.
  destruct (find_first_match
              (fun entry : string * string => Py.contains entry.1 (Py.lower query))
              Demo.capitals (country, capital) Hin Hc) as (y & Hf & Hy & Hp).
  exists y. split; [assumption|]. split; [assumption|].
  unfold Demo._search_knowledge_base, Demo.knowledge_match.
  now rewrite Hcap, Hf.
Qed.

Lemma capital_question_answered_witness :
  exists found,
    In found Demo.capitals
    /\ Py.contains found.1 (Py.lower "What is the CAPITAL of Japan, home of the GE90?") = true
    /\ Demo._search_knowledge_base "May 01, 2024"
         "What is the CAPITAL of Japan, home of the GE90?"
       = "The capital of " +:+ Demo.title found.1 +:+ " is " +:+ found.2 +:+ ".".
Proof.
  apply (capital_question_answered "May 01, 2024"
           "What is the CAPITAL of Japan, home of the GE90?" "japan" "Tokyo").
  - do 3 right. now left.
  - reflexivity.
  - reflexivity.
Defined.

(** ** The text analyzer *)

Lemma max_by_len_first (l : list string) :
  forall (pre : list string) (best : string) (mid : list string),
    Forall (fun w => String.length w < String.length best) pre ->
    Forall (fun w => String.length w <= String.length best) mid ->
    exists l1 l2,
      pre ++ best :: mid ++ l = l1 ++ Analyzer.max_by_len best l :: l2
      /\ Forall (fun w => String.length w
                          < String.length (Analyzer.max_by_len best l)) l1
      /\ Forall (fun w => String.length w
                          <= String.length (Analyzer.max_by_len best l)) l2.
Proof.
  induction l as [|w l IH]; intros pre best mid Hpre Hmid; simpl.
  - exists pre, mid. now rewrite app_nil_r.
  - destruct (String.length best <? String.length w) eqn:E.
    + apply Nat.ltb_lt in E.
      destruct (IH (pre ++ best :: mid) w []) as (l1 & l2 & Heq & H1 & H2).
      * apply Forall_app. split; [|constructor; [assumption|]].
        -- eapply Forall_impl; [exact Hpre | simpl; intros; lia].
        -- eapply Forall_impl; [exact Hmid | simpl; intros; lia].
      * constructor.
      * exists l1, l2. split; [|now split].
        rewrite <- Heq. simpl. now rewrite <- app_assoc.
    + apply Nat.ltb_ge in E.
      destruct (IH pre best (mid ++ [w])) as (l1 & l2 & Heq & H1 & H2).
      * assumption.
      * apply Forall_app. split; [assumption | now constructor].
      * exists l1, l2. split; [|now split].
        rewrite <- Heq. now rewrite <- app_assoc.
Qed.

(** X8: the longest word that the report of [text_analyzer] shows, with its
    length, is the first of the words of the greatest length: it is a word
    of the text, every word before it is shorter and no word after it is
    longer; a text without a word gives the empty word. *)
Theorem longest_word_is_first_longest (round1 : nat -> nat -> string) (text : string) :
  exists longest,
    Analyzer.text_analyzer round1 text
    = analysis (length (split_ws text)) (Analyzer.sentence_count text)
        (String.length text) (String.length (Py.replace " " "" text))
        longest
        (Analyzer.count_chars Analyzer.isupper text)
        (Analyzer.count_chars Analyzer.islower text)
        (Analyzer.average round1 (length (split_ws text)) (Analyzer.sentence_count text))
        (Analyzer.preview text)
    /\ ((split_ws text = [] /\ longest = "")
        \/ exists before after,
             split_ws text = before ++ longest :: after
             /\ Forall (fun w => String.length w < String.length longest) before
             /\ Forall (fun w => String.length w <= String.length longest) after).
Proof.
  exists (Analyzer.longest_word (split_ws text)). split; [reflexivity|].
  destruct (split_ws text) as [|w l]; [now left | right].
  destruct (max_by_len_first l [] w []) as (l1 & l2 & Heq & H1 & H2);
    [constructor | constructor |].
  exists l1, l2. simpl in *. now repeat split.
Qed.

Lemma upper_not_lower (c : ascii) :
  Analyzer.isupper c = true -> Analyzer.islower c = false.
Proof.
  destruct c as [b0 b1 b2 b3 b4 b5 b6 b7].
  destruct b0, b1, b2, b3, b4, b5, b6, b7; vm_compute; congruence.
Qed.

Lemma replace_space_length (text : string) :
  String.length (Py.replace " " "" text)
  + Analyzer.count_chars (fun c => Ascii.eqb " " c) text
  = String.length text.
Proof.
  unfold Py.replace. induction text as [|c s IH]; [reflexivity|].
  cbn [Py.replace_go Py.startswith Analyzer.count_chars String.length].
  rewrite andb_true_r.
  destruct (Ascii.eqb " " c);
    cbn [String.append String.length Nat.sub Nat.add]; lia.
Qed.

Lemma cased_count (text : string) :
  Analyzer.count_chars Analyzer.isupper text
  + Analyzer.count_chars Analyzer.islower text <= String.length text.
Proof.
  induction text as [|c s IH]; simpl; [lia|].
  pose proof (upper_not_lower c) as H.
  destruct (Analyzer.isupper c); [rewrite H by reflexivity|];
    destruct (Analyzer.islower c); lia.
Qed.

Lemma take_str_length (n : nat) (s : string) :
  String.length (Py.take_str n s) <= n.
Proof.
  revert s. induction n as [|n IH]; intros [|c s]; simpl; try lia.
  specialize (IH s). lia.
Qed.

Lemma take_str_all (n : nat) (s : string) :
  String.length s <= n -> Py.take_str n s = s.
Proof.
  revert s. induction n as [|n IH]; intros [|c s] H; simpl in *;
    try reflexivity; try lia.
  f_equal. apply IH. lia.
Qed.

(** X9: the counts that the report of [text_analyzer] shows agree with one
    another: the character count is the length of the text, the characters
    without spaces and the space characters (U+0020 only) add up to it, the
    upper-case and lower-case letters together are no more, and the preview
    is the text itself up to 50 characters and never longer than 53. *)
Theorem analyzer_counts (round1 : nat -> nat -> string) (text : string) :
  exists char_count char_count_no_spaces uppercase_count lowercase_count shown,
    Analyzer.text_analyzer round1 text
    = analysis (length (split_ws text)) (Analyzer.sentence_count text)
        char_count char_count_no_spaces
        (Analyzer.longest_word (split_ws text))
        uppercase_count lowercase_count
        (Analyzer.average round1 (length (split_ws text)) (Analyzer.sentence_count text))
        shown
    /\ char_count = String.length text
    /\ char_count_no_spaces + Analyzer.count_chars (fun c => Ascii.eqb " " c) text
       = char_count
    /\ uppercase_count + lowercase_count <= char_count
    /\ String.length shown <= 53
    /\ (String.length text <= 50 -> shown = text).
Proof.
  exists (String.length text), (String.length (Py.replace " " "" text)),
    (Analyzer.count_chars Analyzer.isupper text),
    (Analyzer.count_chars Analyzer.islower text), (Analyzer.preview text).
  split; [reflexivity|]. split; [reflexivity|].
  split; [apply replace_space_length|]. split; [apply cased_count|].
  unfold Analyzer.preview. split.
  - rewrite length_append. pose proof (take_str_length 50 text).
    destruct (50 <? String.length text); cbn [String.length]; lia.
  - intros H. rewrite take_str_all by assumption.
    destruct (50 <? String.length text) eqn:E; [apply Nat.ltb_lt in E; lia|].
    apply append_nil_r.
Qed.

Lemma analyzer_counts_witness :
  exists char_count char_count_no_spaces uppercase_count lowercase_count shown,
    Analyzer.text_analyzer (fun _ _ => "2.0") "Hello World"
    = analysis 2 1 char_count char_count_no_spaces "Hello"
        uppercase_count lowercase_count "2.0" shown
    /\ char_count = 11
    /\ char_count_no_spaces + 1 = char_count
    /\ uppercase_count + lowercase_count <= char_count
    /\ String.length shown <= 53
    /\ (11 <= 50 -> shown = "Hello World").
Proof.
  exact (analyzer_counts (fun _ _ => "2.0") "Hello World").
Defined.

Lemma space_facts (c : ascii) :
  Py.isspace c = true ->
  Ascii.eqb "." c = false /\ Analyzer.isupper c = false /\ Analyzer.islower c = false.
Proof.
  destruct c as [b0 b1 b2 b3 b4 b5 b6 b7].
  destruct b0, b1, b2, b3, b4, b5, b6, b7; vm_compute; intros H;
    try discriminate H; repeat split.
Qed.

Lemma split_ws_spaces (s : string) :
  Py.all Py.isspace s = true -> split_ws s = [].
Proof.
  unfold split_ws. induction s as [|c s IH]; intros H; [reflexivity|].
  simpl in H. apply andb_true_iff in H as [Hc Hs].
  cbn [split_ws_go]. rewrite Hc. now apply IH.
Qed.

Lemma strip_spaces (s : string) : Py.all Py.isspace s = true -> Py.strip s = "".
Proof.
  unfold Py.strip. intros H.
  assert (Py.lstrip s = "") as ->; [|reflexivity].
  induction s as [|c s IH]; [reflexivity|].
  simpl in H. apply andb_true_iff in H as [Hc Hs].
  cbn [Py.lstrip]. rewrite Hc. now apply IH.
Qed.

Lemma spaces_no_dot (s : string) :
  Py.all Py.isspace s = true -> Py.contains "." s = false.
Proof.
  induction s as [|c s IH]; intros H; [reflexivity|].
  simpl in H. apply andb_true_iff in H as [Hc Hs].
  cbn [Py.contains Py.startswith].
  destruct (space_facts c Hc) as (-> & _). rewrite IH by assumption. reflexivity.
Qed.

Lemma spaces_not_cased (s : string) :
  Py.all Py.isspace s = true ->
  Analyzer.count_chars Analyzer.isupper s = 0
  /\ Analyzer.count_chars Analyzer.islower s = 0.
Proof.
  induction s as [|c s IH]; intros H; [now split|].
  simpl in H. apply andb_true_iff in H as [Hc Hs].
  destruct (space_facts c Hc) as (_ & Hu & Hl). destruct (IH Hs) as [IHu IHl].
  cbn [Analyzer.count_chars]. rewrite Hu, Hl, IHu, IHl. now split.
Qed.

(** X10: for a text of white space only (the empty text included) the
    analyzer divides by nothing: it reports no word, no sentence, an empty
    longest word, no letter and the average 0. *)
Theorem analyzer_on_white_space (round1 : nat -> nat -> string) (text : string) :
  Py.all Py.isspace text = true ->
  Analyzer.text_analyzer round1 text
  = "Text Analysis Results:" +:+ nl
    +:+ "- Word count: 0" +:+ nl
    +:+ "- Sentence count: 0" +:+ nl
    +:+ "- Character count: " +:+ str_of_nat (String.length text)
    +:+ " (without spaces: "
    +:+ str_of_nat (String.length (Py.replace " " "" text)) +:+ ")" +:+ nl
    +:+ "- Longest word: " +:+ Analyzer.dq +:+ Analyzer.dq +:+ " (0 characters)" +:+ nl
    +:+ "- Uppercase letters: 0" +:+ nl
    +:+ "- Lowercase letters: 0" +:+ nl
    +:+ "- Average words per sentence: 0" +:+ nl
    +:+ "- Text starts with: " +:+ Analyzer.dq +:+ Analyzer.preview text
    +:+ Analyzer.dq +:+ nl.
Proof.
  intros H. unfold Analyzer.text_analyzer.
  assert (Analyzer.sentence_count text = 0) as ->.
  { unfold Analyzer.sentence_count, Py.split.
    rewrite split_go_absent by now apply spaces_no_dot.
    cbn [String.append List.filter]. now rewrite strip_spaces. }
  rewrite split_ws_spaces by assumption.
  destruct (spaces_not_cased text H) as [-> ->].
  reflexivity.
Qed.

Lemma analyzer_on_white_space_witness :
  Analyzer.text_analyzer (fun _ _ => "") ("  " +:+ nl)
  = "Text Analysis Results:" +:+ nl
    +:+ "- Word count: 0" +:+ nl
    +:+ "- Sentence count: 0" +:+ nl
    +:+ "- Character count: 3 (without spaces: 1)" +:+ nl
    +:+ "- Longest word: " +:+ Analyzer.dq +:+ Analyzer.dq +:+ " (0 characters)" +:+ nl
    +:+ "- Uppercase letters: 0" +:+ nl
    +:+ "- Lowercase letters: 0" +:+ nl
    +:+ "- Average words per sentence: 0" +:+ nl
    +:+ "- Text starts with: " +:+ Analyzer.dq +:+ "  " +:+ nl +:+ Analyzer.dq +:+ nl.
Proof.
  exact (analyzer_on_white_space (fun _ _ => "") ("  " +:+ nl) eq_refl).
Defined.

(** ** The search chain, further *)

(** X11: a request that fails has the effect of a request that finds nothing:
    two providers that yield the same text, or nothing, for every query give
    the same result and the same requests, whether they fail by an error of
    the transport or by a payload without anything usable. *)
Theorem chain_reads_yields_only (p1 p2 : string -> Response)
  (query api_key : string) (max_retries : nat) :
  (forall q, attempt_yield p1 q = attempt_yield p2 q) ->
  _search_with_serpapi p1 query api_key max_retries
  = _search_with_serpapi p2 query api_key max_retries.
Proof.
  intros H. unfold _search_with_serpapi.
  generalize (take max_retries (query_variations query)) as variants.
  generalize (@nil string) as issued.
  intros issued variants. revert issued.
  induction variants as [|v variants IH]; intros issued; [reflexivity|].
  rewrite !attempts_step, H. destruct (attempt_yield p2 v); [reflexivity | apply IH].
Qed.

Lemma chain_reads_yields_only_witness :
  _search_with_serpapi failing_provider "GE90" "key" 3
  = _search_with_serpapi empty_provider "GE90" "key" 3.
Proof.
  exact (chain_reads_yields_only failing_provider empty_provider "GE90" "key" 3
           (fun q => eq_refl)).
Defined.

Lemma replace_absent (old new s : string) :
  Py.contains old s = false -> Py.replace old new s = s.
Proof.
  unfold Py.replace. induction s as [|c s IH]; intros H; [reflexivity|].
  cbn [Py.contains] in H. apply orb_false_iff in H as [H1 H2].
  cbn [Py.replace_go]. rewrite H1. f_equal. now apply IH.
Qed.

Lemma startswith_prefix (a b s : string) :
  Py.startswith (a +:+ b) s = true -> Py.startswith a s = true.
Proof.
  revert s. induction a as [|c a IH]; intros [|d s] H; simpl in *;
    try reflexivity; try discriminate.
  apply andb_true_iff in H as [Hc Ha]. rewrite Hc. simpl. now apply IH.
Qed.

Lemma contains_prefix (a b s : string) :
  Py.contains a s = false -> Py.contains (a +:+ b) s = false.
Proof.
  induction s as [|c s IH]; intros H.
  - cbn [Py.contains] in *. rewrite orb_false_r in *.
    destruct (Py.startswith (a +:+ b) "") eqn:E; [|reflexivity].
    apply startswith_prefix in E. congruence.
  - cbn [Py.contains] in *. apply orb_false_iff in H as [H1 H2].
    rewrite (IH H2), orb_false_r.
    destruct (Py.startswith (a +:+ b) (String c s)) eqn:E; [|reflexivity].
    apply startswith_prefix in E. congruence.
Qed.

(** X12: for a query that does not hold the word power, the fifth variant is
    the query itself: a chain allowed five requests that finds nothing sends
    the query twice, as its first and as its last request. *)
Theorem fifth_variant_repeats_query (provider : string -> Response)
  (query api_key : string) :
  Py.contains "power" query = false ->
  (forall v, attempt_yield provider v = None) ->
  _search_with_serpapi provider query api_key 5
  = (None, [ query; query +:+ " definition"; "what is " +:+ query;
             query +:+ " explained"; query ]).
Proof.
  intros Hpower Hnone. unfold _search_with_serpapi, query_variations.
  rewrite (replace_absent "power of" "thrust" query)
    by apply (contains_prefix "power" " of" query Hpower).
  rewrite (replace_absent "power" "specifications" query) by assumption.
  cbn [take]. now rewrite !attempts_step, !Hnone.
Qed.

Lemma fifth_variant_repeats_query_witness :
  _search_with_serpapi failing_provider "GE90" "key" 5
  = (None, ["GE90"; "GE90 definition"; "what is GE90"; "GE90 explained"; "GE90"]).
Proof.
  exact (fifth_variant_repeats_query failing_provider "GE90" "key" eq_refl
           (fun v => eq_refl)).
Defined.

Lemma attempts_yielded (provider : string -> Response) (variants issued : list string)
  (text : string) :
  fst (attempts provider variants issued) = Some text ->
  exists v, In v variants /\ attempt_yield provider v = Some text.
Proof.
  revert issued. induction variants as [|v variants IH]; intros issued H.
  - discriminate.
  - rewrite attempts_step in H. destruct (attempt_yield provider v) as [t|] eqn:E.
    + simpl in H. injection H as ->. exists v. split; [now left | assumption].
    + destruct (IH _ H) as (w & Hw & Hy). exists w. split; [now right | assumption].
Qed.

Lemma inspect_labelled (data : SerpData) (text : string) :
  inspect data = Some text ->
  Py.startswith "Direct answer: " text = true
  \/ Py.startswith "Answer: " text = true
  \/ Py.startswith "Info: " text = true
  \/ Py.startswith ("Search results:" +:+ nl) text = true.
Proof.
  unfold inspect. intros H.
  assert (forall t,
            match organic_results data with
            | Some rs =>
                if 0 <? length rs then
                  match kept_snippets (take 2 rs) with
                  | [] => None
                  | results => Some ("Search results:" +:+ nl +:+ Py.join nl results)
                  end
                else None
            | None => None
            end = Some t ->
            Py.startswith ("Search results:" +:+ nl) t = true) as Horg.
  { intros t Ht. destruct (organic_results data) as [rs|]; [|discriminate].
    destruct (0 <? length rs); [|discriminate].
    destruct (kept_snippets (take 2 rs)); [discriminate|].
    injection Ht as <-. reflexivity. }
  assert (forall t,
            match knowledge_graph data with
            | Some kg =>
                match kg_description kg with
                | Some d => Some ("Info: " +:+ d)
                | None =>
                    match organic_results data with
                    | Some rs =>
                        if 0 <? length rs then
                          match kept_snippets (take 2 rs) with
                          | [] => None
                          | results =>
                              Some ("Search results:" +:+ nl +:+ Py.join nl results)
                          end
                        else None
                    | None => None
                    end
                end
            | None =>
                match organic_results data with
                | Some rs =>
                    if 0 <? length rs then
                      match kept_snippets (take 2 rs) with
                      | [] => None
                      | results =>
                          Some ("Search results:" +:+ nl +:+ Py.join nl results)
                      end
                    else None
                | None => None
                end
            end = Some t ->
            Py.startswith "Info: " t = true
            \/ Py.startswith ("Search results:" +:+ nl) t = true) as Hkg.
  { intros t Ht. destruct (knowledge_graph data) as [kg|]; [|right; now apply Horg].
    destruct (kg_description kg); [|right; now apply Horg].
    injection Ht as <-. now left. }
  destruct (answer_box data) as [ab|].
  - destruct (ab_answer ab); [injection H as <-; now left|].
    destruct (ab_snippet ab); [injection H as <-; right; now left|].
    right. right. now apply Hkg.
  - right. right. now apply Hkg.
Qed.

(** X13: every text that [web_search] returns is the text of the missing key
    or starts with one of the four labels of the chain; a text from the
    provider is never returned bare. *)
Theorem search_result_labelled (provider : string -> Response)
  (serpapi_key : option string) (query text : string) :
  web_search provider serpapi_key query = Some text ->
  text = "No SerpAPI key found"
  \/ Py.startswith "Direct answer: " text = true
  \/ Py.startswith "Answer: " text = true
  \/ Py.startswith "Info: " text = true
  \/ Py.startswith ("Search results:" +:+ nl) text = true.
Proof.
  unfold web_search, web_search_log, _search_with_serpapi.
  destruct (truthy serpapi_key).
  - intros H. right. apply attempts_yielded in H as (v & _ & Hy).
    unfold attempt_yield in Hy. destruct (provider v) as [|data]; [discriminate|].
    now apply inspect_labelled in Hy.
  - simpl. intros [= <-]. now left.
Qed.

Lemma search_result_labelled_witness :
  "Direct answer: a turbofan" = "No SerpAPI key found"
  \/ Py.startswith "Direct answer: " "Direct answer: a turbofan" = true
  \/ Py.startswith "Answer: " "Direct answer: a turbofan" = true
  \/ Py.startswith "Info: " "Direct answer: a turbofan" = true
  \/ Py.startswith ("Search results:" +:+ nl) "Direct answer: a turbofan" = true.
Proof.
  exact (search_result_labelled third_time_provider (Some "key") "GE90"
           "Direct answer: a turbofan" eq_refl).
Defined.

(** ** Verification, further *)

(** X14: with a key set and a provider that yields nothing, the first search
    returns [None] and the verification, for every description, ends in its
    outermost handler: the result is the text of the failed verification
    with the message of the TypeError, not a report. *)
Theorem verification_fails_on_exhausted_search
  (set_items : list string -> list string) (provider : string -> Response)
  (serpapi_key : option string) (description : string) :
  truthy serpapi_key = true ->
  (forall v, attempt_yield provider v = None) ->
  verify_result set_items provider serpapi_key description
  = "Multi-source verification failed: " +:+ none_not_iterable
    +:+ ". Consider manually double-checking your result using alternative methods or sources.".
Proof.
  intros Hkey Hnone.
  destruct (four_queries description) as (q1 & q2 & q3 & q4 & Hq).
  unfold verify_result, _analyze_verification_results, report_lines.
  rewrite Hq. cbn [run_searches source_lines sr_result].
  unfold web_search at 1. rewrite exhausted_chain_none by assumption.
  reflexivity.
Qed.

Lemma verification_fails_on_exhausted_search_witness :
  verify_result (fun l => l) failing_provider (Some "key") "GE90 thrust"
  = "Multi-source verification failed: " +:+ none_not_iterable
    +:+ ". Consider manually double-checking your result using alternative methods or sources.".
Proof.
  exact (verification_fails_on_exhausted_search (fun l => l) failing_provider
           (Some "key") "GE90 thrust" eq_refl (fun v => eq_refl)).
Defined.





Lemma all_append (p : ascii -> bool) (a b : string) :
  Py.all p (a +:+ b) = Py.all p a && Py.all p b.
Proof.
  induction a as [|c a IH]; [reflexivity|].
  cbn [String.append Py.all]. now rewrite IH, andb_assoc.
Qed.

Lemma head_in_append (p : ascii -> bool) (a b : string) :
  Py.head_in p a = true -> Py.head_in p (a +:+ b) = true.
Proof. destruct a; [discriminate | auto]. Qed.

Lemma findall_numbers_go_tokens (s : string) :
  forall tok,
    match tok with
    | Some (t, _) => number_token t
    | None => True
    end ->
    Forall number_token (findall_numbers_go tok s).
Proof.
  unfold number_token.
  induction s as [|c s IH]; intros tok Htok.
  - destruct tok as [[t dot]|]; simpl; [now repeat constructor | constructor].
  - cbn [findall_numbers_go].
    destruct tok as [[t [|]]|].
    + destruct Htok as [Hh Ha].
      destruct (Py.isdecimal c) eqn:Ed.
      * apply IH. split; [now apply head_in_append|].
        rewrite all_append, Ha. cbn [Py.all]. unfold isnumhead. now rewrite Ed.
      * destruct (isnumhead c) eqn:En.
        -- constructor; [now split|]. apply IH. cbn [Py.head_in Py.all].
           now rewrite En.
        -- constructor; [now split|]. now apply IH.
    + destruct Htok as [Hh Ha].
      destruct (isnumhead c) eqn:En.
      * apply IH. split; [now apply head_in_append|].
        rewrite all_append, Ha. cbn [Py.all]. now rewrite En.
      * destruct (Py.code c =? 46)%N eqn:Ep.
        -- apply IH. split; [now apply head_in_append|].
           rewrite all_append, Ha. cbn [Py.all]. now rewrite En, Ep.
        -- constructor; [now split|]. now apply IH.
    + destruct (isnumhead c) eqn:En.
      * apply IH. cbn [Py.head_in Py.all]. now rewrite En.
      * now apply IH.
Qed.

(** X16: every number that the report reads from a result is a text of
    digits, commas and points that starts with a digit or a comma; it is
    never empty and holds no other character. *)
Theorem findall_numbers_tokens (text : string) :
  Forall number_token (findall_numbers text).
Proof. now apply findall_numbers_go_tokens. Qed.

(** ** The key terms of a description *)

Section Preserved.

Variable P : ascii -> bool.

Lemma remove_words_go_all (s : string) :
  forall prev skip,
    Py.all P s = true -> Py.all P (remove_words_go prev skip s) = true.
Proof.
  induction s as [|c s IH]; intros prev skip H; [reflexivity|].
  cbn [Py.all] in H. apply andb_true_iff in H as [Hc Hs].
  cbn [remove_words_go]. destruct skip; [|now apply IH].
  destruct (removed_word_at prev (String c s)); [now apply IH|].
  cbn [Py.all]. rewrite Hc. now apply IH.
Qed.

Lemma split_ws_go_all (s : string) :
  forall cur,
    Py.all P cur = true -> Py.all P s = true ->
    Forall (fun w => Py.all P w = true) (split_ws_go cur s).
Proof.
  induction s as [|c s IH]; intros cur Hcur H.
  - cbn [split_ws_go]. destruct cur; repeat constructor. assumption.
  - cbn [Py.all] in H. apply andb_true_iff in H as [Hc Hs].
    cbn [split_ws_go]. destruct (Py.isspace c).
    + destruct cur; [now apply IH | constructor; [assumption | now apply IH]].
    + apply IH; [|assumption]. rewrite all_append, Hcur. cbn [Py.all]. now rewrite Hc.
Qed.

Lemma lstrip_punct_all (s : string) :
  Py.all P s = true -> Py.all P (lstrip_punct s) = true.
Proof.
  induction s as [|c s IH]; intros H; [reflexivity|].
  cbn [lstrip_punct]. destruct (ispunct c); [|assumption].
  cbn [Py.all] in H. apply andb_true_iff in H as [_ Hs]. now apply IH.
Qed.

Lemma rstrip_punct_all (s : string) :
  Py.all P s = true -> Py.all P (rstrip_punct s) = true.
Proof.
  induction s as [|c s IH]; intros H; [reflexivity|].
  cbn [Py.all] in H. apply andb_true_iff in H as [Hc Hs].
  cbn [rstrip_punct]. specialize (IH Hs).
  destruct (rstrip_punct s) as [|d r].
  - destruct (ispunct c); [reflexivity|]. cbn [Py.all]. now rewrite Hc.
  - cbn [Py.all] in *. now rewrite Hc.
Qed.

Lemma strip_punct_all (s : string) :
  Py.all P s = true -> Py.all P (strip_punct s) = true.
Proof. intros H. now apply rstrip_punct_all, lstrip_punct_all. Qed.

End Preserved.

Lemma lower_not_upper (s : string) :
  Py.all (fun c => negb (Analyzer.isupper c)) (Py.lower s) = true.
Proof.
  induction s as [|c s IH]; [reflexivity|].
  cbn [Py.lower Py.all]. rewrite IH, andb_true_r.
  destruct c as [b0 b1 b2 b3 b4 b5 b6 b7].
  destruct b0, b1, b2, b3, b4, b5, b6, b7; reflexivity.
Qed.

Lemma split_ws_go_no_space (s : string) :
  forall cur,
    Py.all (fun c => negb (Py.isspace c)) cur = true ->
    Forall (fun w => Py.all (fun c => negb (Py.isspace c)) w = true)
           (split_ws_go cur s).
Proof.
  induction s as [|c s IH]; intros cur Hcur.
  - cbn [split_ws_go]. destruct cur; repeat constructor. assumption.
  - cbn [split_ws_go]. destruct (Py.isspace c) eqn:E.
    + destruct cur; [now apply IH | constructor; [assumption | now apply IH]].
    + apply IH. rewrite all_append, Hcur. cbn [Py.all]. now rewrite E.
Qed.

Lemma all_and (p q : ascii -> bool) (s : string) :
  Py.all p s = true -> Py.all q s = true ->
  Py.all (fun c => p c && q c) s = true.
Proof.
  induction s as [|c s IH]; [reflexivity|]. cbn [Py.all].
  intros [Hp Hs]%andb_true_iff [Hq Hs']%andb_true_iff.
  now rewrite Hp, Hq, IH.
Qed.

Lemma split_ws_go_word (w : string) :
  forall cur s,
    Py.all (fun c => negb (Py.isspace c)) w = true ->
    split_ws_go cur (w +:+ s) = split_ws_go (cur +:+ w) s.
Proof.
  induction w as [|c w IH]; intros cur s H.
  - now rewrite append_nil_r.
  - cbn [Py.all] in H. apply andb_true_iff in H as [Hc Hw].
    cbn [String.append split_ws_go].
    destruct (Py.isspace c); [discriminate|].
    rewrite IH by assumption. now rewrite append_assoc.
Qed.

Lemma split_ws_join (terms : list string) :
  Forall (fun t => 3 <= String.length t
                   /\ Py.all (fun c => negb (Py.isspace c)) t = true) terms ->
  split_ws (Py.join " " terms) = terms.
Proof.
  unfold split_ws. induction 1 as [|t terms [Hlen Ht] _ IH]; [reflexivity|].
  destruct terms as [|u terms].
  - cbn [Py.join]. rewrite <- (append_nil_r t) at 1.
    rewrite split_ws_go_word by assumption. cbn [String.append split_ws_go].
    destruct t; [simpl in Hlen; lia | reflexivity].
  - change (Py.join " " (t :: u :: terms)) with (t +:+ " " +:+ Py.join " " (u :: terms)).
    rewrite split_ws_go_word by assumption.
    cbn [String.append split_ws_go]. change (Py.isspace " ") with true. cbv iota.
    rewrite IH. destruct t; [simpl in Hlen; lia | reflexivity].
Qed.

(** X17: the key terms drawn from a description are at most five terms,
    joined by single spaces and read back by splitting the result at white
    space; each has three characters or more and holds no white space and no
    capital letter of ASCII or Latin-1 (A to Z, U+00C0 to U+00DE).  The
    descriptions are the texts of this development, of code points below
    256; an upper-case letter above them that [str.lower] leaves as it is,
    such as U+03D2, is outside the statement. *)
Theorem key_terms_shape (description : string) :
  exists terms,
    _extract_key_terms description = Py.join " " terms
    /\ split_ws (_extract_key_terms description) = terms
    /\ length terms <= 5
    /\ Forall key_term terms.
Proof.
  unfold _extract_key_terms.
  set (words := split_ws (remove_words (Py.lower description))).
  set (kept := List.filter (fun word => 2 <? String.length (strip_punct word)) words).
  assert (Forall key_term (take 5 (map strip_punct kept))) as Hterms.
  { apply Forall_take. apply Forall_forall. intros t Ht.
    apply list_elem_of_In, in_map_iff in Ht as (w & <- & Hw).
    apply filter_In in Hw as [Hin Hlen]. apply Nat.ltb_lt in Hlen.
    split; [lia|]. apply strip_punct_all.
    apply list_elem_of_In in Hin. clear Hlen. apply all_and.
    - revert w Hin. apply Forall_forall. now apply split_ws_go_no_space.
    - revert w Hin. apply Forall_forall. apply split_ws_go_all; [reflexivity|].
      apply remove_words_go_all, lower_not_upper. }
  exists (take 5 (map strip_punct kept)).
  split; [reflexivity|]. split; [|split; [rewrite length_take; lia | assumption]].
  apply split_ws_join. eapply Forall_impl; [exact Hterms|].
  intros t [Hlen Hall]. split; [assumption|].
  clear -Hall. induction t as [|c t IH]; [reflexivity|].
  cbn [Py.all] in *. apply andb_true_iff in Hall as [Hc Ht].
  apply andb_true_iff in Hc as [Hc _]. now rewrite Hc, IH.
Qed.

(** ** The chat endpoint *)

Section ServiceProperties.

Variable llm : list Turn -> string.
Variable system_prompt : string.
Variable calculator_tool web_search_tool text_analyzer_tool verify_result_tool
  : string -> option string.
Variable http_exception_text : nat -> string -> string.

Local Abbreviation serve :=
  (chat llm system_prompt calculator_tool web_search_tool text_analyzer_tool
        verify_result_tool http_exception_text).
Local Abbreviation registry :=
  (service_tools calculator_tool web_search_tool text_analyzer_tool
                 verify_result_tool).
Local Abbreviation defaults :=
  (default_tools calculator_tool web_search_tool text_analyzer_tool
                 verify_result_tool).

(** X18: the three registrations of [get_agent] change nothing: the agent of
    the service has the four tools that the agent registers by itself, the
    verification tool included, each under its own name. *)
Theorem service_has_default_tools :
  service_tools calculator_tool web_search_tool text_analyzer_tool verify_result_tool
  = default_tools calculator_tool web_search_tool text_analyzer_tool verify_result_tool
  /\ dom registry
     = ({["calculator"; "web_search"; "text_analyzer"; "verify_result"]} : gset string)
  /\ function <$> registry !! "verify_result" = Some verify_result_tool.
Proof.
  split; [|split].
  - apply map_eq. intros name. unfold service_tools, default_tools,
      add_tool.
    repeat (rewrite lookup_insert; case_decide; [reflexivity|]).
    reflexivity.
  - unfold service_tools, default_tools, add_tool.
    rewrite !dom_insert_L, dom_empty_L. set_solver.
  - reflexivity.
Qed.

(** X19: the bound of a request stays with the agent: once a request has
    set [max_iterations] to a number other than 0, a later request that
    gives none (null or 0) is run with the bound of the earlier request. *)
Theorem bound_carries_over
  (key1 key2 : option string) (first later : ChatRequest) (agent : option Z)
  (k : Z) (response : string) (st : option AgentState) (agent' : option Z) :
  serve key1 first agent = (Returned response, st, agent') ->
  request_max_iterations first = Some k -> k <> 0%Z ->
  given (request_max_iterations later) = false ->
  serve key2 later agent'
  = (Returned (fst (run llm registry (Z.to_nat k) system_prompt
                        (request_message later))),
     Some (snd (run llm registry (Z.to_nat k) system_prompt
                    (request_message later))),
     Some k).
Proof.
  intros Hfirst Hk Hne Hlater. unfold chat in *.
  rewrite Hk in Hfirst. cbn [given default] in Hfirst.
  apply Z.eqb_neq in Hne. rewrite Hne in Hfirst. cbn [negb from_option id] in Hfirst.
  assert (agent' = Some k) as ->.
  { destruct agent as [bound|]; [|destruct (truthy key1); [|discriminate]];
      now injection Hfirst as _ _ <-. }
  now rewrite Hlater.
Qed.

(** X20: a request with a negative [max_iterations] is answered with the
    text of exhaustion without any completion asked from the model, and the
    negative bound stays with the agent. *)
Theorem negative_bound_exhausts
  (key : option string) (request : ChatRequest) (agent : option Z)
  (k : Z) (response : outcome string) (st : AgentState) (agent' : option Z) :
  serve key request agent = (response, Some st, agent') ->
  request_max_iterations request = Some k -> (k < 0)%Z ->
  response = Returned exhausted
  /\ completions st = 0
  /\ messages st = [ {| role := system; content := system_prompt |};
                     {| role := user; content := request_message request |} ]
  /\ agent' = Some k.
Proof.
  intros Hchat Hk Hneg. unfold chat in Hchat.
  rewrite Hk in Hchat. cbn [given default] in Hchat.
  assert ((k =? 0)%Z = false) as E by (apply Z.eqb_neq; lia).
  rewrite E in Hchat. cbn [negb from_option id] in Hchat.
  assert (Z.to_nat k = 0) as Hz by lia. rewrite Hz in Hchat.
  destruct agent as [bound|]; [|destruct (truthy key); [|discriminate]];
    injection Hchat as <- <- <-; repeat split.
Qed.

End ServiceProperties.

Lemma bound_carries_over_witness :
  chat (fun _ => "Thought: still thinking") "" (fun x => Some x) (fun x => Some x)
       (fun x => Some x) (fun x => Some x) (fun _ detail => detail)
       None {| request_message := "again"; request_max_iterations := Some 0%Z |}
       (Some 2%Z)
  = (Returned exhausted,
     Some (snd (run (fun _ => "Thought: still thinking")
                    (service_tools (fun x => Some x) (fun x => Some x)
                       (fun x => Some x) (fun x => Some x))
                    2 "" "again")),
     Some 2%Z).
Proof.
  exact (bound_carries_over (fun _ => "Thought: still thinking") ""
           (fun x => Some x) (fun x => Some x) (fun x => Some x) (fun x => Some x)
           (fun _ detail => detail)
           (Some "sk") None
           {| request_message := "hello"; request_max_iterations := Some 2%Z |}
           {| request_message := "again"; request_max_iterations := Some 0%Z |}
           None 2%Z exhausted _ (Some 2%Z) eq_refl eq_refl
           ltac:(discriminate) eq_refl).
Defined.

Lemma negative_bound_exhausts_witness :
  Returned exhausted = Returned exhausted
  /\ completions (initial_state "" "hello") = 0
  /\ messages (initial_state "" "hello")
     = [ {| role := system; content := "" |}; {| role := user; content := "hello" |} ]
  /\ Some (-3)%Z = Some (-3)%Z.
Proof.
  exact (negative_bound_exhausts (fun _ => "Final Answer: never asked") ""
           (fun x => Some x) (fun x => Some x) (fun x => Some x) (fun x => Some x)
           (fun _ detail => detail)
           (Some "sk")
           {| request_message := "hello"; request_max_iterations := Some (-3)%Z |}
           None (-3)%Z (Returned exhausted) (initial_state "" "hello") (Some (-3)%Z)
           eq_refl eq_refl eq_refl).
Defined.

(** ** The chunks of the search results *)

Lemma extracted_app (literal_eval : string -> option Item) (a b : list Item) :
  extracted literal_eval (a ++ b)
  = extracted literal_eval a ++ extracted literal_eval b.
Proof. unfold extracted. now rewrite map_app, concat_app. Qed.

Lemma extracted_no_list (literal_eval : string -> option Item) (group : list Item) :
  Forall (fun item => is_list item = false) group ->
  extracted literal_eval group
  = concat (map (process_result_item literal_eval) group).
Proof.
  unfold extracted. induction 1 as [|x group Hx _ IH]; [reflexivity|].
  cbn [map concat]. rewrite IH. now destruct x.
Qed.

(** X21: for results nested no deeper than a list of lists, the flattening
    that [get_relevant_documents] does before it calls [extract_chunk_texts]
    changes nothing: the text extracted from the flattened results is the
    text extracted from the results as they came. *)
Theorem flattening_keeps_chunks (literal_eval : string -> option Item)
  (results : list Item) :
  shallow results ->
  extract_chunk_texts literal_eval (ResultsList (flattened_results results))
  = extract_chunk_texts literal_eval (ResultsList results).
Proof.
  intros H. unfold extract_chunk_texts. f_equal. f_equal.
  unfold flattened_results.
  induction H as [|r results Hr _ IH]; [reflexivity|].
  cbn [map concat]. rewrite extracted_app, IH.
  change (r :: results) with ([r] ++ results). rewrite (extracted_app _ [r]).
  f_equal. destruct r; try reflexivity.
  rewrite extracted_no_list by assumption.
  unfold extracted. cbn [map concat]. now rewrite app_nil_r.
Qed.

Lemma flattening_keeps_chunks_witness :
  extract_chunk_texts (fun _ => None)
    (ResultsList
       (flattened_results
          [ ItemList [ ItemDict (Some (EntityDict (Some "first chunk") (Some "d1")));
                       ItemDict (Some (EntityDict None (Some "d2"))) ];
            ItemObject (Some (EntityDict (Some "second chunk") None)) ]))
  = "first chunk" +:+ nl +:+ "second chunk".
Proof.
  exact (flattening_keeps_chunks (fun _ => None)
           [ ItemList [ ItemDict (Some (EntityDict (Some "first chunk") (Some "d1")));
                        ItemDict (Some (EntityDict None (Some "d2"))) ];
             ItemObject (Some (EntityDict (Some "second chunk") None)) ]
           ltac:(repeat constructor)).
Defined.

(** Nested one level deeper, the flattening is not neutral: the chunk of the
    innermost list is skipped on the results as they came and found on the
    flattened ones. *)
Example flattening_deeper :
  extract_chunk_texts (fun _ => None)
    (ResultsList [ ItemList [ ItemList [ ItemDict (Some (EntityDict (Some "deep") None)) ] ] ])
  = ""
  /\ extract_chunk_texts (fun _ => None)
       (ResultsList
          (flattened_results
             [ ItemList [ ItemList [ ItemDict (Some (EntityDict (Some "deep") None)) ] ] ]))
     = "deep".
Proof. split; reflexivity. Qed.

(** ** The chat history *)

Section ChatStoreProperties.

Context {Datetime : Type}.

Implicit Types db cached extra h : list (CacheMessage Datetime).

(** The test of the comprehension that keeps the new cached messages. *)
Local Abbreviation not_in_db db :=
  (fun msg : CacheMessage Datetime =>
     match message_id msg with
     | Some i => bool_decide (i ∉ (list_to_set (omap message_id db) : gset string))
     | None => false
     end).

Lemma elem_of_filter (p : CacheMessage Datetime -> bool) (l : list (CacheMessage Datetime))
  (x : CacheMessage Datetime) :
  x ∈ List.filter p l <-> x ∈ l /\ p x = true.
Proof. rewrite !list_elem_of_In. apply filter_In. Qed.

Lemma filter_none (p : CacheMessage Datetime -> bool) (l : list (CacheMessage Datetime)) :
  Forall (fun x => p x = false) l -> List.filter p l = [].
Proof.
  induction 1 as [|x l Hx _ IH]; [reflexivity|]. cbn [List.filter]. now rewrite Hx.
Qed.

Lemma filter_all (p : CacheMessage Datetime -> bool) (l : list (CacheMessage Datetime)) :
  Forall (fun x => p x = true) l -> List.filter p l = l.
Proof.
  induction 1 as [|x l Hx _ IH]; [reflexivity|]. cbn [List.filter].
  now rewrite Hx, IH.
Qed.

Lemma filter_keeps_NoDup (p : CacheMessage Datetime -> bool)
  (l : list (CacheMessage Datetime)) :
  NoDup (message_id <$> l) -> NoDup (message_id <$> List.filter p l).
Proof.
  induction l as [|x l IH]; [trivial|].
  rewrite fmap_cons, NoDup_cons. intros [Hx Hl]. cbn [List.filter].
  destruct (p x); [|now apply IH].
  rewrite fmap_cons, NoDup_cons. split; [|now apply IH].
  intros Hin. apply Hx. apply list_elem_of_fmap in Hin as (y & -> & Hy).
  apply elem_of_filter in Hy as [Hy _]. now apply list_elem_of_fmap_2.
Qed.

Lemma id_in_db db (i : string) :
  i ∈ (list_to_set (omap message_id db) : gset string)
  <-> exists row, row ∈ db /\ message_id row = Some i.
Proof. rewrite elem_of_list_to_set, list_elem_of_omap. reflexivity. Qed.

Lemma not_in_db_filtered db cached :
  Forall (fun msg => not_in_db db msg = true) (List.filter (not_in_db db) cached).
Proof. apply Forall_forall. intros msg Hmsg. now apply elem_of_filter in Hmsg. Qed.

(** What a call that returns gives: the rows, then messages that pass the
    test, and the cache written under the chat id. *)
Lemma get_chat_history_shape (now : Datetime) db (chat_id : string)
  (cache : gmap string (CacheEntry Datetime)) h (cache' : gmap string (CacheEntry Datetime)) :
  get_chat_history Datetime now db chat_id cache = (Returned h, cache') ->
  exists extra,
    h = db ++ extra
    /\ Forall (fun msg => not_in_db db msg = true) extra
    /\ cache' = <[chat_id := EntryDict (Some h) (Some now)]> cache.
Proof.
  unfold get_chat_history. intros Hget.
  destruct (cache !! chat_id) as [[[cached|] t|l|]|] eqn:Hentry;
    try (injection Hget as <- <-; exists []; rewrite app_nil_r; now repeat split).
  destruct (mapM message_id cached); [|discriminate].
  injection Hget as <- <-. eexists. split; [reflexivity|].
  split; [apply not_in_db_filtered | reflexivity].
Qed.

(** X22: the history that [get_chat_history] returns for a chat with a
    cached dictionary starts with the rows of the database, holds each
    message of the database or the cache and no other, loses no id of the
    cache, and holds no id twice when neither the rows nor the cache did;
    it is what the cache holds for the chat afterwards. *)
Theorem merged_history_ids (now : Datetime) db (chat_id : string)
  (cache : gmap string (CacheEntry Datetime)) cached (t : option Datetime) h
  (cache' : gmap string (CacheEntry Datetime)) :
  cache !! chat_id = Some (EntryDict (Some cached) t) ->
  get_chat_history Datetime now db chat_id cache = (Returned h, cache') ->
  NoDup (message_id <$> db) -> NoDup (message_id <$> cached) ->
  db `prefix_of` h
  /\ NoDup (message_id <$> h)
  /\ (forall c, c ∈ cached -> exists m, m ∈ h /\ message_id m = message_id c)
  /\ (forall m, m ∈ h -> m ∈ db \/ m ∈ cached)
  /\ cache' !! chat_id = Some (EntryDict (Some h) (Some now)).
Proof.
  intros Hentry Hget Hdb Hcached. unfold get_chat_history in Hget.
  rewrite Hentry in Hget.
  destruct (mapM message_id cached) as [ids|] eqn:Hids; [|discriminate].
  injection Hget as <- <-.
  assert (is_Some (mapM message_id cached)) as Hsome by (now rewrite Hids).
  apply mapM_is_Some in Hsome. rewrite Forall_forall in Hsome.
  split; [now eexists|]. split; [|split; [|split]].
  - rewrite fmap_app. apply NoDup_app. split; [assumption|].
    split; [|now apply filter_keeps_NoDup].
    intros x Hx Hx'. apply list_elem_of_fmap in Hx' as (c & -> & Hc).
    apply elem_of_filter in Hc as [_ Hc].
    destruct (message_id c) as [i|] eqn:Hi; [|discriminate].
    apply bool_decide_eq_true in Hc. apply Hc, id_in_db.
    apply list_elem_of_fmap in Hx as (row & Hrow & Hin). now exists row.
  - intros c Hc. destruct (Hsome c Hc) as [i Hi]. cbn in Hi.
    destruct (decide (i ∈ (list_to_set (omap message_id db) : gset string)))
      as [Hin|Hout].
    + apply id_in_db in Hin as (row & Hrow & Hrow'). exists row.
      split; [apply elem_of_app; now left | congruence].
    + exists c. split; [|reflexivity]. apply elem_of_app. right.
      apply elem_of_filter. split; [assumption|]. rewrite Hi.
      now apply bool_decide_eq_true.
  - intros m Hm. apply elem_of_app in Hm as [Hm|Hm]; [now left|].
    right. now apply elem_of_filter in Hm.
  - apply lookup_insert_eq.
Qed.

(** X23: asked again with the same rows, each of them with an id,
    [get_chat_history] returns the same history: the messages that the first
    call wrote to the cache are not added a second time. *)
Theorem history_settles (now1 now2 : Datetime) db (chat_id : string)
  (cache : gmap string (CacheEntry Datetime)) h
  (cache' : gmap string (CacheEntry Datetime)) :
  get_chat_history Datetime now1 db chat_id cache = (Returned h, cache') ->
  Forall (fun row => is_Some (message_id row)) db ->
  get_chat_history Datetime now2 db chat_id cache'
  = (Returned h, <[chat_id := EntryDict (Some h) (Some now2)]> cache').
Proof.
  intros Hget Hdb. apply get_chat_history_shape in Hget as (extra & -> & Hextra & ->).
  unfold get_chat_history. rewrite lookup_insert_eq.
  assert (is_Some (mapM message_id (db ++ extra))) as [ids ->].
  { apply mapM_is_Some. apply Forall_app. split; [exact Hdb|].
    eapply Forall_impl; [exact Hextra|]. intros msg Hmsg. cbn in *.
    destruct (message_id msg); [now eexists | discriminate]. }
  rewrite List.filter_app, (filter_all _ extra Hextra).
  rewrite filter_none; [reflexivity|].
  apply Forall_forall. intros row Hrow. rewrite Forall_forall in Hdb.
  destruct (Hdb row Hrow) as [i Hi]. rewrite Hi.
  apply bool_decide_eq_false. intros Hout. apply Hout, id_in_db. now exists row.
Qed.

Lemma occurrences_app (i : string) h extra :
  occurrences i (h ++ extra) = occurrences i h + occurrences i extra.
Proof. unfold occurrences. now rewrite List.filter_app, length_app. Qed.

Lemma occurrences_none (i : string) h :
  Forall (fun msg => message_id msg <> Some i) h -> occurrences i h = 0.
Proof.
  intros H. unfold occurrences. rewrite filter_none; [reflexivity|].
  eapply Forall_impl; [exact H|]. intros msg Hmsg. now apply bool_decide_eq_false.
Qed.

Lemma occurrences_in_db (i : string) db :
  i ∈ (list_to_set (omap message_id db) : gset string) <-> occurrences i db <> 0.
Proof.
  rewrite id_in_db. split.
  - intros (row & Hrow & Hi) Hzero. unfold occurrences in Hzero.
    apply length_zero_iff_nil in Hzero.
    assert (row ∈ List.filter (fun msg => bool_decide (message_id msg = Some i)) db)
      as Hin by (apply elem_of_filter; split; [assumption | now apply bool_decide_eq_true]).
    rewrite Hzero in Hin. now apply not_elem_of_nil in Hin.
  - intros Hne. unfold occurrences in Hne.
    destruct (List.filter _ db) as [|row rest] eqn:Hf; [contradiction|].
    exists row.
    assert (row ∈ List.filter (fun msg => bool_decide (message_id msg = Some i)) db)
      as Hin by (rewrite Hf; apply elem_of_cons; now left).
    apply elem_of_filter in Hin as [Hin Hi]. split; [assumption|].
    now apply bool_decide_eq_true in Hi.
Qed.

Lemma save_message_lookup (new_id : string) (created touched : Datetime)
  (chat_id role content pluggr_id : string) (admin_id persona : option string)
  (cache : gmap string (CacheEntry Datetime)) :
  exists message_dict,
    message_id message_dict = Some new_id
    /\ save_message Datetime new_id created touched chat_id role content pluggr_id
         admin_id persona cache !! chat_id
       = Some (EntryDict (Some (kept_messages (cache !! chat_id) ++ [message_dict]))
                         (Some touched)).
Proof.
  eexists. split; [|unfold save_message; rewrite lookup_insert_eq; do 3 f_equal;
                    now destruct (cache !! chat_id) as [[[l|] ?|l|]|]].
  reflexivity.
Qed.

(** X24: a message saved under a new id is once in the history asked for
    afterwards, be it already among the rows of the database (once) or only
    in the cache; the call returns when every message that the cache held had
    an id. *)
Theorem saved_message_once (new_id : string) (created touched now : Datetime)
  (chat_id role content pluggr_id : string) (admin_id persona : option string)
  (cache : gmap string (CacheEntry Datetime)) db :
  Forall (fun msg => is_Some (message_id msg) /\ message_id msg <> Some new_id)
         (kept_messages (cache !! chat_id)) ->
  occurrences new_id db <= 1 ->
  exists h,
    fst (get_chat_history Datetime now db chat_id
           (save_message Datetime new_id created touched chat_id role content
                         pluggr_id admin_id persona cache))
    = Returned h
    /\ occurrences new_id h = 1.
Proof.
  intros Hkept Hdb.
  destruct (save_message_lookup new_id created touched chat_id role content
              pluggr_id admin_id persona cache) as (message_dict & Hid & Hsaved).
  unfold get_chat_history. rewrite Hsaved.
  assert (is_Some (mapM message_id (kept_messages (cache !! chat_id) ++ [message_dict])))
    as [ids ->].
  { apply mapM_is_Some. apply Forall_app. split.
    - eapply Forall_impl; [exact Hkept|]. now intros msg [Hmsg _].
    - apply Forall_singleton. cbn. now rewrite Hid. }
  eexists. split; [reflexivity|].
  rewrite List.filter_app, !occurrences_app.
  rewrite (occurrences_none new_id (List.filter _ (kept_messages _))).
  2:{ apply Forall_forall. intros msg Hmsg. apply elem_of_filter in Hmsg as [Hmsg _].
      rewrite Forall_forall in Hkept. now apply Hkept. }
  cbn [List.filter]. rewrite Hid.
  pose proof (occurrences_in_db new_id db) as Hin.
  case_bool_decide as Hout.
  - assert (occurrences new_id db = 0) as ->.
    { destruct (occurrences new_id db) eqn:E; [reflexivity|].
      exfalso. apply Hout, Hin. lia. }
    unfold occurrences. cbn [List.filter]. rewrite Hid.
    now rewrite bool_decide_eq_true_2.
  - assert (occurrences new_id db <> 0) as Hne.
    { apply Hin. destruct (decide (new_id ∈ (list_to_set (omap message_id db) : gset string)));
        [assumption | contradiction]. }
    change (occurrences new_id []) with 0. lia.
Qed.

End ChatStoreProperties.

Lemma merged_history_ids_witness :
  NoDup (message_id <$> [sample_cached "a" "hello" 1; sample_cached "b" "more" 2]).
Proof.
  refine (proj1 (proj2
    (merged_history_ids 5 [sample_cached "a" "hello" 1] "chat" sample_cache
       [sample_cached "a" "hello" 1; sample_cached "b" "more" 2] (Some 2)
       [sample_cached "a" "hello" 1; sample_cached "b" "more" 2]
       (<["chat" := EntryDict (Some [sample_cached "a" "hello" 1;
                                     sample_cached "b" "more" 2]) (Some 5)]> sample_cache)
       _ _ _ _))).
  - reflexivity.
  - reflexivity.
  - apply NoDup_singleton.
  - apply NoDup_cons. split; [|apply NoDup_singleton].
    intros H. apply list_elem_of_singleton in H. discriminate.
Defined.

Lemma history_settles_witness :
  get_chat_history nat 9 [sample_cached "a" "hello" 1] "chat"
    (<["chat" := EntryDict (Some [sample_cached "a" "hello" 1;
                                  sample_cached "b" "more" 2]) (Some 5)]> sample_cache)
  = (Returned [sample_cached "a" "hello" 1; sample_cached "b" "more" 2],
     <["chat" := EntryDict (Some [sample_cached "a" "hello" 1;
                                  sample_cached "b" "more" 2]) (Some 9)]>
       (<["chat" := EntryDict (Some [sample_cached "a" "hello" 1;
                                     sample_cached "b" "more" 2]) (Some 5)]> sample_cache)).
Proof.
  apply (history_settles 5 9 [sample_cached "a" "hello" 1] "chat" sample_cache).
  - reflexivity.
  - apply Forall_singleton. now exists "a".
Defined.

Lemma saved_message_once_witness :
  exists h,
    fst (get_chat_history nat 9 [sample_cached "a" "hello" 1] "chat"
           (save_message nat "c" 7 8 "chat" "user" "thanks" "p" None None sample_cache))
    = Returned h
    /\ occurrences "c" h = 1.
Proof.
  apply (saved_message_once "c" 7 8 9 "chat" "user" "thanks" "p" None None sample_cache
           [sample_cached "a" "hello" 1]).
  - repeat apply Forall_cons_2; [split; [now exists "a" | discriminate]
                                |split; [now exists "b" | discriminate]
                                |apply Forall_nil_2].
  - vm_compute. lia.
Defined.

(** ** The export of a serialized history *)

Section SerializedExport.

Variable Datetime : Type.
Variable isoformat : Datetime -> string.
Variable strftime_date : Datetime -> string.
Variable strftime_time : Datetime -> string.
Variable fromisoformat : string -> option Datetime.
Variable upper : string -> string.

Local Abbreviation stamp' := (stamp Datetime isoformat).
Local Abbreviation sort_key' := (sort_key Datetime isoformat).
Local Abbreviation serialize' := (serialize_message Datetime isoformat).
Local Abbreviation format' :=
  (format_messages Datetime strftime_date strftime_time fromisoformat).
Local Abbreviation render' := (render Datetime upper).

Local Abbreviation alike' :=
  (alike Datetime isoformat strftime_date strftime_time fromisoformat).

Lemma serialized_alike (message : Message Datetime) :
  exportable Datetime isoformat strftime_date strftime_time fromisoformat message ->
  alike' (stamp' (serialize' message)) (stamp' message).
Proof.
  unfold exportable, alike, same_time, stamp, serialize_message, sort_key.
  destruct message as [i r c [[d|s]|] ts]; cbn.
  - intros [(d' & Hd & Hdate & Htime) [->| ->]]; repeat split; eauto 10.
  - intros _. repeat split; eauto.
  - intros _. repeat split; eauto.
Qed.

Lemma insert_sorted_alike (a b : Message Datetime) (l l' : list (Message Datetime)) :
  alike' a b -> Forall2 alike' l l' ->
  Forall2 alike' (insert_sorted Datetime isoformat a l)
                (insert_sorted Datetime isoformat b l').
Proof.
  intros Hab H. induction H as [|x y l l' Hxy Hl IH]; cbn [insert_sorted].
  - constructor; [assumption | constructor].
  - rewrite (proj1 Hab), (proj1 Hxy).
    destruct (String.leb _ _).
    + constructor; [assumption|]. now constructor.
    + now constructor.
Qed.

Lemma sorted_alike (l l' : list (Message Datetime)) :
  Forall2 alike' l l' ->
  Forall2 alike' (sorted Datetime isoformat l) (sorted Datetime isoformat l').
Proof.
  induction 1; cbn [sorted]; [constructor | now apply insert_sorted_alike].
Qed.

Lemma dedup_alike (l l' : list (Message Datetime)) :
  Forall2 alike' l l' ->
  forall (seen : gset (string * string)) (acc acc' : list (Message Datetime)),
    Forall2 alike' acc acc' ->
    Forall2 alike' (dedup Datetime l seen acc) (dedup Datetime l' seen acc').
Proof.
  induction 1 as [|x y l l' Hxy _ IH]; intros seen acc acc' Hacc; cbn [dedup];
    [assumption|].
  assert (message_key x = message_key y) as ->.
  { destruct Hxy as (_ & Hr & Hc & _). unfold message_key. now rewrite Hr, Hc. }
  destruct (decide _); apply IH; [assumption|].
  apply Forall2_app; [assumption | constructor; [assumption | constructor]].
Qed.

Lemma format_alike (l l' : list (Message Datetime)) :
  Forall2 alike' l l' ->
  forall current_date,
    render' <$> format' current_date l = render' <$> format' current_date l'.
Proof.
  induction 1 as [|x y l l' Hxy _ IH]; intros current_date; [reflexivity|].
  destruct Hxy as (_ & Hr & Hc & Ht). cbn [format_messages].
  assert (forall s, render' (MessageLine x s) = render' (MessageLine y s)) as Hline
    by (intros s; cbn [render]; now rewrite Hr, Hc).
  destruct Ht as [->|(d & d' & -> & -> & -> & Hdate & Htime)].
  - destruct (m_timestamp y) as [[d|s]|];
      [|destruct (fromisoformat _)|];
      rewrite ?fmap_app, ?fmap_cons, ?Hline, ?IH; reflexivity.
  - rewrite Hdate, Htime, !fmap_app, !fmap_cons, Hline, IH. reflexivity.
Qed.

(** X25: the export of a history does not depend on whether
    [serialize_chat_history] was applied to it before: for messages whose
    dates are read back from their ISO texts, the text of the export is the
    same, be the dates given as dates or as the texts that serializing puts
    in their place; it holds as well for a history that an earlier export has
    stamped. *)
Theorem export_of_serialized (chat_history : list (Message Datetime)) :
  Forall (exportable Datetime isoformat strftime_date strftime_time fromisoformat)
         chat_history ->
  format_chat_history_for_email Datetime isoformat strftime_date strftime_time
    fromisoformat upper (serialize_chat_history Datetime isoformat chat_history)
  = format_chat_history_for_email Datetime isoformat strftime_date strftime_time
      fromisoformat upper chat_history.
Proof.
  intros H. unfold format_chat_history_for_email, export_pieces, unique_messages,
    serialize_chat_history.
  f_equal. cbn [map]. f_equal.
  change (render' <$> format' None
            (dedup Datetime (sorted Datetime isoformat (stamp' <$> (serialize' <$> chat_history))) ∅ [])
          = render' <$> format' None
              (dedup Datetime (sorted Datetime isoformat (stamp' <$> chat_history)) ∅ [])).
  apply format_alike, dedup_alike; [|constructor]. apply sorted_alike.
  induction H as [|message l Hm _ IH]; [constructor|].
  rewrite !fmap_cons. constructor; [now apply serialized_alike | exact IH].
Qed.

End SerializedExport.

Lemma export_of_serialized_witness :
  format_chat_history_for_email (string * string) (fun d => fst d +:+ "T" +:+ snd d)
    fst snd sample_fromisoformat upper_ascii
    (serialize_chat_history (string * string) (fun d => fst d +:+ "T" +:+ snd d)
       sample_history)
  = format_chat_history_for_email (string * string) (fun d => fst d +:+ "T" +:+ snd d)
      fst snd sample_fromisoformat upper_ascii sample_history.
Proof.
  apply (export_of_serialized (string * string) (fun d => fst d +:+ "T" +:+ snd d)
           fst snd sample_fromisoformat upper_ascii sample_history).
  repeat apply Forall_cons_2; [..|apply Forall_nil_2];
    (split; [eexists; split; [reflexivity | split; reflexivity] | now left]).
Defined.

(** ** The summary of a chat *)

Lemma take_str_full (n : nat) (s : string) :
  n <= String.length s -> String.length (Py.take_str n s) = n.
Proof.
  revert s. induction n as [|n IH]; intros s H; [now destruct s|].
  destruct s as [|c s]; cbn [String.length] in H; [lia|].
  cbn [Py.take_str String.length]. rewrite IH by lia. reflexivity.
Qed.

Lemma take_str_take_str (n m : nat) (s : string) :
  n <= m -> Py.take_str n (Py.take_str m s) = Py.take_str n s.
Proof.
  revert m s. induction n as [|n IH]; intros m s H.
  - now destruct (Py.take_str m s), s.
  - destruct m as [|m]; [lia|]. destruct s as [|c s]; [reflexivity|].
    cbn [Py.take_str]. rewrite IH by lia. reflexivity.
Qed.

Lemma take_str_append (n : nat) (s t : string) :
  n <= String.length s -> Py.take_str n (s +:+ t) = Py.take_str n s.
Proof.
  revert s. induction n as [|n IH]; intros s H.
  - now destruct (s +:+ t), s.
  - destruct s as [|c s]; cbn [String.length] in H; [lia|].
    cbn [String.append Py.take_str]. rewrite IH by lia. reflexivity.
Qed.

(** X26: the summary returned is never longer than 1000 characters, be it
    the response of the model, its truncation or the text of the handler, and
    the first 997 characters of a response are always kept. *)
Theorem summary_bounded (stream : outcome (list string)) (chunks : list string) :
  String.length (get_ai_summary stream) <= 1000
  /\ Py.take_str 997 (get_ai_summary (Returned chunks))
     = Py.take_str 997 (fold_left String.append chunks "").
Proof.
  split.
  - destruct stream as [response|e]; cbn [get_ai_summary]; [|vm_compute; lia].
    destruct (1000 <? _) eqn:E.
    + apply Nat.ltb_lt in E. rewrite length_append, take_str_full by lia.
      cbn [String.length]. lia.
    + apply Nat.ltb_ge in E. exact E.
  - cbn [get_ai_summary].
    destruct (1000 <? _) eqn:E; [|reflexivity].
    apply Nat.ltb_lt in E.
    rewrite take_str_append by (rewrite take_str_full; lia).
    now apply take_str_take_str.
Qed.
